(** * tap-executor: the extraction and streaming-ingestion pipeline

    A shallow embedding of [tap_executor/tap_runner.py] and
    [tap_executor/sync.py]: configuration validation, catalog discovery,
    supervision of the extractor process, classification of its output
    lines, batch persistence and checkpoint bookkeeping.

    Conventions of the embedding.
    - Python [str] is [string] (a sequence of bytes: a non-ASCII character
      is the sequence of its UTF-8 bytes).  [strip] and [splitlines] know
      the whitespace and the line boundaries among the first 128
      characters only.
    - A value produced by [json.loads] is a [json]; Python's [None] is
      [JNull].  Number literals with a fraction or an exponent (Python
      floats) are outside the value type.
    - [json.loads] and [json.dump(..., indent=2)] belong to the Python
      standard library: the pipeline is parametric in them.  Module
      [Json] gives a parser and a printer for a fragment of JSON, used to
      run the pipeline on concrete texts.
    - The extractor process, the file system's permissions and the storage
      collaborator ([storage.py] is not part of the sources) are the
      environment: they enter as parameters.
    - [logger] calls are recorded as structured entries; the banner lines
      at level INFO that carry no data are not recorded. *)

From stdpp Require Import gmap strings list.
From Stdlib Require Import ZArith QArith DecimalString Ascii.

Open Scope string_scope.
Open Scope list_scope.
Open Scope Z_scope.
Open Scope nat_scope.

(** ** Python strings *)

Module PyStr.

(** The characters [str.isspace] accepts among the first 128. *)
Definition is_space (c : ascii) : bool :=
  let n := nat_of_ascii c in
  ((9 <=? n) && (n <=? 13)) || ((28 <=? n) && (n <=? 32)).

Fixpoint lstrip (s : string) : string :=
  match s with
  | EmptyString => EmptyString
  | String c s' => if is_space c then lstrip s' else s
  end.

Fixpoint rstrip (s : string) : string :=
  match s with
  | EmptyString => EmptyString
  | String c s' =>
      match rstrip s' with
      | EmptyString => if is_space c then EmptyString else String c EmptyString
      | r => String c r
      end
  end.

(** [s.strip()] *)
Definition strip (s : string) : string := rstrip (lstrip s).

(** The line boundaries of [str.splitlines] among single bytes; the pair
    CR LF is handled in [splitlines_from]. *)
Definition is_linebreak (c : ascii) : bool :=
  let n := nat_of_ascii c in
  (n =? 10) || (n =? 11) || (n =? 12) || (n =? 13) ||
  (n =? 28) || (n =? 29) || (n =? 30).

Fixpoint splitlines_from (cur : string) (s : string) : list string :=
  match s with
  | EmptyString => match cur with EmptyString => [] | _ => [cur] end
  | String c s' =>
      if (nat_of_ascii c =? 13)
      then match s' with
           | String c' s'' =>
               if (nat_of_ascii c' =? 10)
               then cur :: splitlines_from EmptyString s''
               else cur :: splitlines_from EmptyString s'
           | EmptyString => cur :: splitlines_from EmptyString s'
           end
      else if is_linebreak c then cur :: splitlines_from EmptyString s'
      else splitlines_from (cur +:+ String c EmptyString) s'
  end.

(** [s.splitlines()] *)
Definition splitlines (s : string) : list string := splitlines_from EmptyString s.

(** [s.startswith(p)] *)
Definition startswith (s p : string) : bool := String.prefix p s.

(** [sub in s] *)
Fixpoint contains (s sub : string) : bool :=
  String.prefix sub s
  || match s with
     | EmptyString => false
     | String _ s' => contains s' sub
     end.

(** [s.endswith(suf)] *)
Fixpoint endswith (s suf : string) : bool :=
  if String.eqb s suf then true
  else match s with
       | EmptyString => false
       | String _ s' => endswith s' suf
       end.

Definition newline : string := String (ascii_of_nat 10) EmptyString.

(** [sep.join(l)] *)
Definition join (sep : string) (l : list string) : string := String.concat sep l.

(** [str(n)] for an [int] *)
Definition str_of_int (n : Z) : string := NilZero.string_of_int (Z.to_int n).

(** [s[:n]] *)
Definition take (n : nat) (s : string) : string := String.substring 0 n s.

(** A non-empty [str] is truthy. *)
Definition nonempty (s : string) : bool :=
  match s with EmptyString => false | _ => true end.

End PyStr.

(** ** JSON values and Python dictionaries *)

#[warnings="-register-all"]
Inductive json : Type :=
| JNull
| JBool (b : bool)
| JInt (n : Z)
| JStr (s : string)
| JList (l : list json)
| JDict (d : list (string * json)).

(** A dictionary with [str] keys, in insertion order, without duplicate
    keys when built with [dict_set]. *)
Definition pydict := list (string * json).

Fixpoint dict_get (k : string) (d : pydict) : option json :=
  match d with
  | [] => None
  | (k', v) :: d' => if String.eqb k' k then Some v else dict_get k d'
  end.

(** [d.get(k, dflt)] *)
Definition dict_get_or (k : string) (dflt : json) (d : pydict) : json :=
  match dict_get k d with Some v => v | None => dflt end.

(** [d[k] = v]: an existing key keeps its position. *)
Fixpoint dict_set (k : string) (v : json) (d : pydict) : pydict :=
  match d with
  | [] => [(k, v)]
  | (k', v') :: d' =>
      if String.eqb k' k then (k', v) :: d' else (k', v') :: dict_set k v d'
  end.

(** [k in d] *)
Definition dict_mem (k : string) (d : pydict) : bool :=
  match dict_get k d with Some _ => true | None => false end.

(** [bool(v)] *)
Definition truthy (v : json) : bool :=
  match v with
  | JNull => false
  | JBool b => b
  | JInt n => negb (n =? 0)%Z
  | JStr s => PyStr.nonempty s
  | JList l => match l with [] => false | _ => true end
  | JDict d => match d with [] => false | _ => true end
  end.

(** [v == s] for a [str] literal [s]. *)
Definition is_str (s : string) (v : json) : bool :=
  match v with JStr s' => String.eqb s' s | _ => false end.

(** [hash(v)] raises [TypeError] on a list or a dict. *)
Definition hashable (v : json) : bool :=
  match v with JList _ | JDict _ => false | _ => true end.

(** [a == b] on hashable values: [True == 1] and [False == 0]. *)
Definition key_eqb (a b : json) : bool :=
  match a, b with
  | JNull, JNull => true
  | JStr s, JStr t => String.eqb s t
  | JBool x, JBool y => Bool.eqb x y
  | JInt x, JInt y => (x =? y)%Z
  | JBool x, JInt y | JInt y, JBool x => (y =? (if x then 1 else 0))%Z
  | _, _ => false
  end.

(** ** A JSON fragment, to run the pipeline on concrete texts

    [loads] and [dump] agree with [json.loads] and
    [json.dump(v, f, indent=2)] on objects, arrays, integers, [true],
    [false], [null] and strings of printable ASCII characters with the
    two-character escapes.  [loads] rejects what lies outside (a fraction,
    an exponent, a [\u] escape). *)

Module Json.

Definition is_ws (c : ascii) : bool :=
  let n := nat_of_ascii c in (n =? 32) || (n =? 9) || (n =? 10) || (n =? 13).

Fixpoint skip_ws (s : list ascii) : list ascii :=
  match s with
  | c :: s' => if is_ws c then skip_ws s' else s
  | [] => []
  end.

Definition digit_of (c : ascii) : option Z :=
  let n := nat_of_ascii c in
  if (48 <=? n) && (n <=? 57) then Some (Z.of_nat (n - 48)) else None.

Fixpoint parse_digits (acc : Z) (s : list ascii) : Z * list ascii :=
  match s with
  | c :: s' =>
      match digit_of c with
      | Some d => parse_digits (10 * acc + d)%Z s'
      | None => (acc, s)
      end
  | [] => (acc, [])
  end.

(** After the integer part: a fraction or an exponent makes a float. *)
Definition starts_float (s : list ascii) : bool :=
  match s with
  | c :: _ => let n := nat_of_ascii c in (n =? 46) || (n =? 101) || (n =? 69)
  | [] => false
  end.

(** An unsigned JSON integer: no leading zero before another digit. *)
Definition parse_nat (s : list ascii) : option (Z * list ascii) :=
  match s with
  | c :: s' =>
      match digit_of c with
      | Some 0%Z =>
          match s' with
          | c' :: _ => match digit_of c' with
                       | Some _ => None
                       | None => if starts_float s' then None else Some (0%Z, s')
                       end
          | [] => Some (0%Z, [])
          end
      | Some d => let '(n, r) := parse_digits d s' in
                  if starts_float r then None else Some (n, r)
      | None => None
      end
  | [] => None
  end.

(** The two-character escapes: quote, backslash, slash, b, f, n, r, t. *)
Definition unescape (c : ascii) : option ascii :=
  let n := nat_of_ascii c in
  if n =? 34 then Some c
  else if n =? 92 then Some c
  else if n =? 47 then Some c
  else if n =? 98 then Some (ascii_of_nat 8)
  else if n =? 102 then Some (ascii_of_nat 12)
  else if n =? 110 then Some (ascii_of_nat 10)
  else if n =? 114 then Some (ascii_of_nat 13)
  else if n =? 116 then Some (ascii_of_nat 9)
  else None.

(** The characters after an opening quote, up to the closing one. *)
Fixpoint parse_chars (s : list ascii) : option (string * list ascii) :=
  match s with
  | [] => None
  | c :: s' =>
      let n := nat_of_ascii c in
      if n =? 34 then Some (EmptyString, s')
      else if n =? 92 then
        match s' with
        | e :: s'' =>
            match unescape e with
            | Some c' =>
                match parse_chars s'' with
                | Some (t, r) => Some (String c' t, r)
                | None => None
                end
            | None => None
            end
        | [] => None
        end
      else if n <? 32 then None
      else match parse_chars s' with
           | Some (t, r) => Some (String c t, r)
           | None => None
           end
  end.

Definition lit (w : string) (s : list ascii) : option (list ascii) :=
  let l := String.list_ascii_of_string w in
  if bool_decide (take (length l) s = l) then Some (drop (length l) s) else None.

Fixpoint parse_value (fuel : nat) (s : list ascii) {struct fuel}
  : option (json * list ascii) :=
  match fuel with
  | O => None
  | S f =>
      match skip_ws s with
      | [] => None
      | c :: r =>
          let n := nat_of_ascii c in
          if n =? 34 then
            match parse_chars r with
            | Some (t, r') => Some (JStr t, r')
            | None => None
            end
          else if n =? 91 then
            match skip_ws r with
            | c' :: r' =>
                if nat_of_ascii c' =? 93 then Some (JList [], r')
                else parse_elems f [] r
            | [] => None
            end
          else if n =? 123 then
            match skip_ws r with
            | c' :: r' =>
                if nat_of_ascii c' =? 125 then Some (JDict [], r')
                else parse_members f [] r
            | [] => None
            end
          else if n =? 45 then
            match parse_nat r with
            | Some (k, r') => Some (JInt (- k)%Z, r')
            | None => None
            end
          else if n =? 110 then
            match lit "null" (c :: r) with Some r' => Some (JNull, r') | None => None end
          else if n =? 116 then
            match lit "true" (c :: r) with Some r' => Some (JBool true, r') | None => None end
          else if n =? 102 then
            match lit "false" (c :: r) with Some r' => Some (JBool false, r') | None => None end
          else
            match parse_nat (c :: r) with
            | Some (k, r') => Some (JInt k, r')
            | None => None
            end
      end
  end
with parse_elems (fuel : nat) (acc : list json) (s : list ascii) {struct fuel}
  : option (json * list ascii) :=
  match fuel with
  | O => None
  | S f =>
      match parse_value f s with
      | Some (v, r) =>
          match skip_ws r with
          | c :: r' =>
              if nat_of_ascii c =? 44 then parse_elems f (acc ++ [v]) r'
              else if nat_of_ascii c =? 93 then Some (JList (acc ++ [v]), r')
              else None
          | [] => None
          end
      | None => None
      end
  end
with parse_members (fuel : nat) (acc : pydict) (s : list ascii) {struct fuel}
  : option (json * list ascii) :=
  match fuel with
  | O => None
  | S f =>
      match skip_ws s with
      | q :: r0 =>
          if nat_of_ascii q =? 34 then
            match parse_chars r0 with
            | Some (k, r1) =>
                match skip_ws r1 with
                | c :: r2 =>
                    if nat_of_ascii c =? 58 then
                      match parse_value f r2 with
                      | Some (v, r3) =>
                          match skip_ws r3 with
                          | c' :: r4 =>
                              if nat_of_ascii c' =? 44
                              then parse_members f (dict_set k v acc) r4
                              else if nat_of_ascii c' =? 125
                              then Some (JDict (dict_set k v acc), r4)
                              else None
                          | [] => None
                          end
                      | None => None
                      end
                    else None
                | [] => None
                end
            | None => None
            end
          else None
      | [] => None
      end
  end.

(** [json.loads(s)]; [None] stands for [JSONDecodeError]. *)
Definition loads (s : string) : option json :=
  let l := String.list_ascii_of_string s in
  match parse_value (S (length l)) l with
  | Some (v, r) => match skip_ws r with [] => Some v | _ => None end
  | None => None
  end.

Definition nl : string := PyStr.newline.

Fixpoint pad (n : nat) : string :=
  match n with O => EmptyString | S n' => String " " (pad n') end.

Fixpoint escape (s : string) : string :=
  match s with
  | EmptyString => EmptyString
  | String c s' =>
      let n := nat_of_ascii c in
      if (n =? 34) || (n =? 92) then String (ascii_of_nat 92) (String c (escape s'))
      else if n =? 10 then String (ascii_of_nat 92) (String "n" (escape s'))
      else if n =? 13 then String (ascii_of_nat 92) (String "r" (escape s'))
      else if n =? 9 then String (ascii_of_nat 92) (String "t" (escape s'))
      else String c (escape s')
  end.

Definition quote (s : string) : string :=
  String (ascii_of_nat 34) (escape s +:+ String (ascii_of_nat 34) EmptyString).

(** The text [json.dump(v, f, indent=2)] writes, at nesting depth [ind]. *)
Fixpoint dump_at (ind : nat) (v : json) : string :=
  match v with
  | JNull => "null"
  | JBool true => "true"
  | JBool false => "false"
  | JInt n => PyStr.str_of_int n
  | JStr s => quote s
  | JList [] => "[]"
  | JList l =>
      "[" +:+ nl +:+
      PyStr.join ("," +:+ nl)
        (map (fun x => pad (ind + 2) +:+ dump_at (ind + 2) x) l)
      +:+ nl +:+ pad ind +:+ "]"
  | JDict [] => "{}"
  | JDict d =>
      "{" +:+ nl +:+
      PyStr.join ("," +:+ nl)
        (map (fun kv => pad (ind + 2) +:+ quote (fst kv) +:+ ": "
                        +:+ dump_at (ind + 2) (snd kv)) d)
      +:+ nl +:+ pad ind +:+ "}"
  end.

Definition dump (v : json) : string := dump_at 0 v.

End Json.

(** ** Exceptions, log entries, rows *)

Inductive exn_kind : Set :=
| RuntimeError | ValueError | FileNotFoundError | KeyError | TypeError
| AttributeError | OSError | ExternalError.

(** An exception object: its class and [str(e)]. *)
Record exn : Set := Exn { exn_class : exn_kind; exn_str : string }.

Definition type_name (v : json) : string :=
  match v with
  | JNull => "NoneType" | JBool _ => "bool" | JInt _ => "int"
  | JStr _ => "str" | JList _ => "list" | JDict _ => "dict"
  end.

(** [v.get(...)] on a value that is not a dict. *)
Definition no_attribute (v : json) (attr : string) : exn :=
  Exn AttributeError ("'" +:+ type_name v +:+ "' object has no attribute '" +:+ attr +:+ "'").

(** [d[v]] or [d.get(v)] with a key that cannot be hashed. *)
Definition unhashable (v : json) : exn :=
  Exn TypeError ("unhashable type: '" +:+ type_name v +:+ "'").

Inductive level : Set := DEBUG | INFO | WARNING | ERROR.

(** The [logger] calls that carry data, by function. *)
Inductive event : Type :=
(* generate_catalog *)
| DiscoverFailed (returncode : Z) (stderr_lines : list string)
| DiscoverInvalidJson (head : string)
| CatalogSaved (path : string)
| CatalogSaveError (msg : string)
| CatalogUnexpected (msg : string)
(* run_tap_woocommerce *)
| UsingStateFile (path : string)
| StateFileMissing (path : string)
| TapProgress (n : nat) (stream : json)
| TapStateReceived
| TapSchemaReceived (stream : json)
| TapMessageType (msg_type : json) (head : string)
| TapOutputText (line : string)
| TapLineError (msg : string)
| TapStderr (line : string)
| TapFinished
| TapFailed (returncode : Z) (stderr_lines : list string)
| TapSucceeded (n : nat)
| TapError (msg : string)
(* validate_tap_config *)
| ConfigNotFound
| ConfigInvalidJson
| ConfigMissingFields (fields : list string)
| ConfigBadScheme
| StartDateNotUtc
| StartDateAdjusted (start_date : string)
| ConfigValid
| ConfigValidateError (msg : string)
(* process_tap_output *)
| ProcLine (i : nat) (head : string)
| ProcType (msg_type : json)
| ProcRecord (stream : json) (record : json)
| ProcProgress (n : nat)
| ProcInvalidLine (head : string)
| ProcLineError (msg : string)
| ProcCount (stream : json) (n : nat)
| ProcNoRecords
(* insert_records_batch *)
| InsertClientUrl (url : string)
| InsertingChunk (size : nat)
| ChunkInserted (size total : nat)
| ChunkFailed (msg : string)
| InsertDone (total : nat)
| InsertError (msg : string)
(* sync_connection *)
| Step (name : string)
| InvalidConfig
| CatalogNotFoundLocally
| CatalogGenerationFailed
| CatalogFoundLocally
| CatalogReadError (msg : string)
| CatalogStoreError (msg : string)
| StateReadOk (path : string)
| StateReadError (path msg : string)
| TapDone (n_lines : nat) (got_state : bool)
| RecordsProcessed (n : nat)
| SomeChunksFailed
| NothingToInsert
| StateSaved (path : string)
| StateSaveError (path msg : string)
| NoFinalState
| SyncError (msg : string).

Definition log_entry : Type := level * event.

(** The dictionary [process_tap_output] builds for one RECORD message. *)
Record Row : Type := {
  row_user_id : string;
  row_project_id : string;
  row_connection_id : string;
  row_stream : json;
  row_record : json }.

(** [stream_counts]: keys are the [stream] values of the messages. *)
Definition counts := list (json * nat).

(** [c.get(k, 0)] *)
Fixpoint counts_get (k : json) (c : counts) : nat :=
  match c with
  | [] => 0
  | (k', n) :: c' => if key_eqb k' k then n else counts_get k c'
  end.

(** [c[k] = n] *)
Fixpoint counts_set (k : json) (n : nat) (c : counts) : counts :=
  match c with
  | [] => [(k, n)]
  | (k', n') :: c' =>
      if key_eqb k' k then (k', n) :: c' else (k', n') :: counts_set k n c'
  end.

(** [sum(c.values())] *)
Definition counts_total (c : counts) : nat := foldr (fun kn s => snd kn + s) 0 c.

(** ** Python control flow: state and exceptions *)

Inductive res (A : Type) : Type :=
| Ok (a : A)
| Raise (e : exn).
Arguments Ok {A} a.
Arguments Raise {A} e.

Module PyM.
Section Monad.
Context {W : Type}.

(** A computation may change the world before it raises. *)
Definition M (A : Type) : Type := W -> res A * W.

Definition ret {A} (a : A) : M A := fun w => (Ok a, w).
Definition raise {A} (e : exn) : M A := fun w => (Raise e, w).

Definition bind {A B} (m : M A) (k : A -> M B) : M B :=
  fun w => match m w with
           | (Ok a, w') => k a w'
           | (Raise e, w') => (Raise e, w')
           end.

(** [try: m except Exception as e: h e] *)
Definition try_except {A} (m : M A) (h : exn -> M A) : M A :=
  fun w => match m w with
           | (Ok a, w') => (Ok a, w')
           | (Raise e, w') => h e w'
           end.

Definition modify (f : W -> W) : M unit := fun w => (Ok tt, f w).
Definition gets {A} (f : W -> A) : M A := fun w => (Ok (f w), w).

End Monad.
End PyM.
Import PyM.

Notation "'let*' x ':=' m 'in' k" := (bind m (fun x => k))
  (at level 10, x name, m at level 100, k at level 200).
Notation "m ';;' k" := (bind m (fun _ => k))
  (at level 100, k at level 200, right associativity).

(** ** The environment *)

(** [SupabaseConfig] and the client [SupabaseStorage(config).client]
    are declared in [storage.py]. *)
Record SupabaseConfig : Set := { url : string; key : string }.
Record Client : Set := { supabase_url : string }.

(** What [update(...).eq(...).execute()] gives back. *)
Inductive update_outcome : Set :=
| UpdateRaises (e : exn)
| UpdateError (message : string)
| UpdateOk.

(** The extractor process as the supervising loop sees it.  Each
    iteration of the loop calls [stdout.readline()], then
    [stderr.readline()], then [poll()]; an empty string is what
    [readline] returns when it has nothing.  [poll()] finds the process
    running after each iteration of [tp_running] and exited after
    [tp_last]; [communicate()] then returns [tp_rest]. *)
Record TapProcess : Set := {
  tp_running : list (string * string);
  tp_last : string * string;
  tp_rest : string * string;
  tp_returncode : Z }.

Definition tp_iterations (p : TapProcess) : list (string * string) :=
  tp_running p ++ [tp_last p].

(** A discovery run: [communicate()] and [returncode]. *)
Record DiscoverProcess : Set := {
  dp_output : string;
  dp_error : string;
  dp_returncode : Z }.

(** A call received by the storage collaborator. *)
Inductive db_call : Type :=
| DbUpdateCatalog (connection_id : string) (catalog : json)
| DbInsert (chunk : list Row).

(** The world a run acts on.  [deny_read] and [deny_write] hold the
    paths that [open] (and [os.makedirs]) refuses with [OSError];
    [db_calls] holds the calls received so far by the storage
    collaborator, [discover_calls] and [tap_calls] the command lines given
    to [subprocess.Popen] by [generate_catalog] and by
    [run_tap_woocommerce]. *)
Record World : Type := {
  files : gmap string string;
  deny_read : gset string;
  deny_write : gset string;
  db_calls : list db_call;
  discover_calls : list (list string);
  tap_calls : list (list string);
  log : list log_entry }.

(** What a run depends on and does not own. *)
Record Env : Type := {
  (** [json.loads]: [None] stands for [JSONDecodeError]. *)
  json_loads : string -> option json;
  (** The text written by [json.dump(v, f, indent=2)]. *)
  json_dump : json -> string;
  (** [SupabaseStorage(config)]: it raises or gives a client. *)
  storage_new : SupabaseConfig -> exn + Client;
  (** The update of a connection's catalog and the bulk insert into
      [raw_connection_data], given the calls the collaborator received
      before ([Some e]: the call raises [e]). *)
  storage_update : list db_call -> string -> json -> update_outcome;
  storage_insert : list db_call -> list Row -> option exn;
  (** [subprocess.Popen] on a command line, given the files on disk: it
      raises (the binary is missing) or the process runs.  The extractor
      writes no file of the connection's directory. *)
  popen_discover : list string -> gmap string string -> exn + DiscoverProcess;
  popen_tap : list string -> gmap string string -> exn + TapProcess;
  (** [round(time.time() - start_time, 2)]: the clock is the
      environment's. *)
  elapsed_seconds : Q }.

Definition set_files (f : gmap string string) (w : World) : World :=
  {| files := f; deny_read := deny_read w; deny_write := deny_write w;
     db_calls := db_calls w; discover_calls := discover_calls w;
     tap_calls := tap_calls w; log := log w |}.

Definition add_db_call (c : db_call) (w : World) : World :=
  {| files := files w; deny_read := deny_read w; deny_write := deny_write w;
     db_calls := db_calls w ++ [c]; discover_calls := discover_calls w;
     tap_calls := tap_calls w; log := log w |}.

Definition add_discover_call (command : list string) (w : World) : World :=
  {| files := files w; deny_read := deny_read w; deny_write := deny_write w;
     db_calls := db_calls w; discover_calls := discover_calls w ++ [command];
     tap_calls := tap_calls w; log := log w |}.

Definition add_tap_call (command : list string) (w : World) : World :=
  {| files := files w; deny_read := deny_read w; deny_write := deny_write w;
     db_calls := db_calls w; discover_calls := discover_calls w;
     tap_calls := tap_calls w ++ [command]; log := log w |}.

Definition add_log (l : list log_entry) (w : World) : World :=
  {| files := files w; deny_read := deny_read w; deny_write := deny_write w;
     db_calls := db_calls w; discover_calls := discover_calls w;
     tap_calls := tap_calls w; log := log w ++ l |}.

(** The computations of the pipeline. *)
Abbreviation Run := (@M World).

Definition logger (lv : level) (e : event) : Run unit :=
  modify (add_log [(lv, e)]).

(** [os.path.exists(p)] *)
Definition path_exists (p : string) (w : World) : bool :=
  bool_decide (is_Some (files w !! p)).

Definition permission_denied (p : string) : exn :=
  Exn OSError ("[Errno 13] Permission denied: '" +:+ p +:+ "'").

Definition no_such_file (p : string) : exn :=
  Exn OSError ("[Errno 2] No such file or directory: '" +:+ p +:+ "'").

(** [open(p).read()] *)
Definition read_file (p : string) : Run string :=
  fun w =>
    if bool_decide (p ∈ deny_read w) then (Raise (permission_denied p), w)
    else match files w !! p with
         | Some content => (Ok content, w)
         | None => (Raise (no_such_file p), w)
         end.

(** [open(p, 'w')] followed by the write of [content]. *)
Definition write_file (p content : string) : Run unit :=
  fun w =>
    if bool_decide (p ∈ deny_write w) then (Raise (permission_denied p), w)
    else (Ok tt, set_files (<[p := content]> (files w)) w).

(** [os.makedirs(p, exist_ok=True)] *)
Definition makedirs (p : string) : Run unit :=
  fun w =>
    if bool_decide (p ∈ deny_write w) then (Raise (permission_denied p), w)
    else (Ok tt, w).

(** [d[k]] *)
Definition subscript (k : string) (d : pydict) : Run json :=
  match dict_get k d with
  | Some v => ret v
  | None => raise (Exn KeyError ("'" +:+ k +:+ "'"))
  end.

Section Pipeline.

Variable env : Env.

(** ** sync.py: [process_tap_output] *)

Definition CHUNK_SIZE : nat := 500.

(** The local variables of the loop over the output lines, and what it
    logged. *)
Record proc_acc : Type := {
  pa_records : list Row;
  pa_counts : counts;
  pa_log : list log_entry }.

Definition pa_logged (lv : level) (e : event) (a : proc_acc) : proc_acc :=
  {| pa_records := pa_records a; pa_counts := pa_counts a;
     pa_log := pa_log a ++ [(lv, e)] |}.

Definition pa_empty : proc_acc :=
  {| pa_records := []; pa_counts := []; pa_log := [] |}.

(** The body of [for i, line in enumerate(output_lines)], with its two
    [except] clauses. *)
Definition process_line (user_id project_id connection_id : string)
    (i : nat) (line : string) (a : proc_acc) : proc_acc :=
  let a := pa_logged DEBUG (ProcLine (i + 1) (PyStr.take 200 line)) a in
  match json_loads env line with
  | None =>
      (* except json.JSONDecodeError *)
      pa_logged WARNING (ProcInvalidLine (PyStr.take 100 line)) a
  | Some (JDict message) =>
      let msg_type := dict_get_or "type" JNull message in
      let a := pa_logged DEBUG (ProcType msg_type) a in
      if is_str "RECORD" msg_type then
        let stream := dict_get_or "stream" JNull message in
        let record := dict_get_or "record" (JDict []) message in
        let a := pa_logged DEBUG (ProcRecord stream record) a in
        if hashable stream then
          let new_record :=
            {| row_user_id := user_id; row_project_id := project_id;
               row_connection_id := connection_id;
               row_stream := stream; row_record := record |} in
          let a :=
            {| pa_records := pa_records a ++ [new_record];
               pa_counts :=
                 counts_set stream (counts_get stream (pa_counts a) + 1)
                   (pa_counts a);
               pa_log := pa_log a |} in
          if length (pa_records a) mod 100 =? 0
          then pa_logged INFO (ProcProgress (length (pa_records a))) a
          else a
        else
          (* except Exception: stream_counts.get(stream, 0) raises *)
          pa_logged ERROR (ProcLineError (exn_str (unhashable stream))) a
      else a
  | Some v =>
      (* except Exception: message.get raises *)
      pa_logged ERROR (ProcLineError (exn_str (no_attribute v "get"))) a
  end.

Fixpoint process_lines (user_id project_id connection_id : string)
    (i : nat) (lines : list string) (a : proc_acc) : proc_acc :=
  match lines with
  | [] => a
  | line :: rest =>
      process_lines user_id project_id connection_id (S i) rest
        (process_line user_id project_id connection_id i line a)
  end.

Definition process_tap_output (output_lines : list string)
    (user_id project_id connection_id : string) : Run (list Row * counts) :=
  let a := process_lines user_id project_id connection_id 0 output_lines pa_empty in
  modify (add_log (pa_log a));;
  modify (add_log (map (fun kn => (INFO, ProcCount (fst kn) (snd kn))) (pa_counts a)));;
  (match pa_records a with
   | [] => logger WARNING ProcNoRecords
   | _ => ret tt
   end);;
  ret (pa_records a, pa_counts a).

(** ** sync.py: [insert_records_batch] *)

(** [range(0, stop, step)] *)
Definition range_step (stop step : nat) : list nat :=
  map (fun k => k * step) (seq 0 ((stop + step - 1) / step)).

(** [l[i:j]] for [i <= j] *)
Definition slice {A} (i j : nat) (l : list A) : list A := take (j - i) (drop i l).

(** [supabase_client.table('raw_connection_data').insert(chunk).execute()] *)
Definition bulk_insert (chunk : list Row) : Run unit :=
  fun w =>
    let w' := add_db_call (DbInsert chunk) w in
    match storage_insert env (db_calls w) chunk with
    | None => (Ok tt, w')
    | Some e => (Raise e, w')
    end.

(** The loop over the chunk offsets; the accumulator is [total_inserted]. *)
Fixpoint insert_chunks (records : list Row) (offsets : list nat)
    (total_inserted : nat) : Run nat :=
  match offsets with
  | [] => ret total_inserted
  | i :: rest =>
      let chunk := slice i (i + CHUNK_SIZE) records in
      let chunk_size := length chunk in
      logger INFO (InsertingChunk chunk_size);;
      let* total :=
        try_except
          (bulk_insert chunk;;
           logger INFO (ChunkInserted chunk_size (total_inserted + chunk_size));;
           ret (total_inserted + chunk_size))
          (fun e =>
             logger ERROR (ChunkFailed (exn_str e));;
             (* pass: continue with the next chunk *)
             ret total_inserted) in
      insert_chunks records rest total
  end.

Definition insert_records_batch (records : list Row) (supabase_client : Client)
  : Run bool :=
  try_except
    (logger INFO (InsertClientUrl (supabase_url supabase_client));;
     let* total :=
       insert_chunks records (range_step (length records) CHUNK_SIZE) 0 in
     logger INFO (InsertDone total);;
     ret true)
    (fun e =>
       logger ERROR (InsertError (exn_str e));;
       ret false).

(** ** tap_runner.py: [generate_catalog] *)

(** [subprocess.Popen(command, ...)] *)
Definition popen {A} (record : list string -> World -> World)
    (run : list string -> gmap string string -> exn + A)
    (command : list string) : Run A :=
  fun w =>
    let w' := record command w in
    match run command (files w) with
    | inl e => (Raise e, w')
    | inr p => (Ok p, w')
    end.

Definition is_dict (v : json) : bool :=
  match v with JDict _ => true | _ => false end.

(** [catalog.get('streams', [])] and the loop that logs each stream's
    [tap_stream_id]: what it raises, if anything. *)
Definition list_streams (catalog : json) : Run unit :=
  match catalog with
  | JDict d =>
      match dict_get_or "streams" (JList []) d with
      | JList l =>
          match filter (fun v => negb (is_dict v)) l with
          | [] => ret tt
          | v :: _ => raise (no_attribute v "get")
          end
      | JDict [] => ret tt
      | JDict _ => raise (no_attribute (JStr EmptyString) "get")
      | JStr EmptyString => ret tt
      | JStr _ => raise (no_attribute (JStr EmptyString) "get")
      | v => raise (Exn TypeError ("'" +:+ type_name v +:+ "' object is not iterable"))
      end
  | v => raise (no_attribute v "get")
  end.

Definition discover_command (config_path : string) : list string :=
  ["tap-woocommerce"; "--config"; config_path; "--discover"].

Definition generate_catalog (config_path output_path : string) : Run bool :=
  try_except
    (let* process := popen add_discover_call (popen_discover env) (discover_command config_path) in
     if negb (dp_returncode process =? 0)%Z then
       logger ERROR (DiscoverFailed (dp_returncode process)
                       (PyStr.splitlines (dp_error process)));;
       ret false
     else
       match json_loads env (dp_output process) with
       | None =>
           logger ERROR (DiscoverInvalidJson (PyStr.take 200 (dp_output process)));;
           ret false
       | Some catalog =>
           list_streams catalog;;
           try_except
             (write_file output_path (dp_output process);;
              logger INFO (CatalogSaved output_path);;
              ret true)
             (fun e =>
                logger ERROR (CatalogSaveError (exn_str e));;
                ret false)
       end)
    (fun e =>
       logger ERROR (CatalogUnexpected (exn_str e));;
       ret false).

(** ** tap_runner.py: [run_tap_woocommerce] *)

(** The local variables of the supervising loop, and what it logged. *)
Record tap_acc : Type := {
  output_lines : list string;
  error_lines : list string;
  parsed_records : nat;
  last_state : json;
  tap_log : list log_entry }.

Definition tap_logged (lv : level) (e : event) (a : tap_acc) : tap_acc :=
  {| output_lines := output_lines a; error_lines := error_lines a;
     parsed_records := parsed_records a; last_state := last_state a;
     tap_log := tap_log a ++ [(lv, e)] |}.

Definition tap_empty : tap_acc :=
  {| output_lines := []; error_lines := []; parsed_records := 0;
     last_state := JNull; tap_log := [] |}.

(** The [try] block run on each line read from the output channel. *)
Definition observe_line (line : string) (a : tap_acc) : tap_acc :=
  match json_loads env line with
  | None =>
      (* except json.JSONDecodeError *)
      tap_logged DEBUG (TapOutputText line) a
  | Some (JDict msg) =>
      let msg_type := dict_get_or "type" (JStr "UNKNOWN") msg in
      if is_str "RECORD" msg_type then
        let a :=
          {| output_lines := output_lines a; error_lines := error_lines a;
             parsed_records := parsed_records a + 1;
             last_state := last_state a; tap_log := tap_log a |} in
        if parsed_records a mod 100 =? 0
        then tap_logged INFO
               (TapProgress (parsed_records a) (dict_get_or "stream" (JStr "unknown") msg)) a
        else a
      else if is_str "STATE" msg_type then
        let a := tap_logged INFO TapStateReceived a in
        {| output_lines := output_lines a; error_lines := error_lines a;
           parsed_records := parsed_records a;
           last_state := dict_get_or "value" JNull msg;
           tap_log := tap_log a |}
      else if is_str "SCHEMA" msg_type then
        tap_logged INFO (TapSchemaReceived (dict_get_or "stream" (JStr "unknown") msg)) a
      else
        tap_logged DEBUG (TapMessageType msg_type (PyStr.take 200 line)) a
  | Some v =>
      (* except Exception: msg.get raises *)
      tap_logged WARNING (TapLineError (exn_str (no_attribute v "get"))) a
  end.

(** One iteration of [while True], up to the [poll()]. *)
Definition loop_iteration (rd : string * string) (a : tap_acc) : tap_acc :=
  let '(output, error) := rd in
  let a :=
    if PyStr.nonempty output then
      let line := PyStr.strip output in
      observe_line line
        {| output_lines := output_lines a ++ [line];
           error_lines := error_lines a;
           parsed_records := parsed_records a;
           last_state := last_state a; tap_log := tap_log a |}
    else a in
  if PyStr.nonempty error then
    let error_line := PyStr.strip error in
    tap_logged ERROR (TapStderr error_line)
      {| output_lines := output_lines a;
         error_lines := error_lines a ++ [error_line];
         parsed_records := parsed_records a;
         last_state := last_state a; tap_log := tap_log a |}
  else a.

Definition supervise (iterations : list (string * string)) (a : tap_acc) : tap_acc :=
  foldl (fun a rd => loop_iteration rd a) a iterations.

(** [communicate()] after the loop: the rest of both channels is split
    into lines and appended. *)
Definition drain (rest : string * string) (a : tap_acc) : tap_acc :=
  {| output_lines :=
       (if PyStr.nonempty (fst rest)
        then output_lines a ++ PyStr.splitlines (fst rest) else output_lines a);
     error_lines :=
       (if PyStr.nonempty (snd rest)
        then error_lines a ++ PyStr.splitlines (snd rest) else error_lines a);
     parsed_records := parsed_records a;
     last_state := last_state a; tap_log := tap_log a |}.

(** The state of the loop's variables when the return code is checked. *)
Definition tap_result (p : TapProcess) : tap_acc :=
  drain (tp_rest p) (tap_logged INFO TapFinished (supervise (tp_iterations p) tap_empty)).

Definition str_truthy (o : option string) : bool :=
  match o with Some s => PyStr.nonempty s | None => false end.

(** The command line of an extraction, from the files on disk. *)
Definition tap_command (config_path : string) (catalog_path state_path : option string)
    (w : World) : list string :=
  ["tap-woocommerce"; "--config"; config_path]
  ++ (match catalog_path with
      | Some c => if PyStr.nonempty c then ["--catalog"; c] else []
      | None => []
      end)
  ++ (match state_path with
      | Some s => if PyStr.nonempty s && path_exists s w then ["--state"; s] else []
      | None => []
      end).

Definition tap_failure_message (returncode : Z) (error_lines : list string) : string :=
  "Tap falhou com código " +:+ PyStr.str_of_int returncode +:+ ": "
  +:+ PyStr.join PyStr.newline error_lines.

Definition run_tap_woocommerce (config_path : string)
    (catalog_path state_path : option string) : Run (list string * json) :=
  let* config_exists := gets (path_exists config_path) in
  if negb config_exists then
    raise (Exn FileNotFoundError
             ("Arquivo de configuração não encontrado: " +:+ config_path))
  else
    try_except
      (let* catalog_missing :=
         gets (fun w => match catalog_path with
                        | Some c => PyStr.nonempty c && negb (path_exists c w)
                        | None => false
                        end) in
       (if catalog_missing : bool then
          raise (Exn FileNotFoundError
                   ("Arquivo de catalog não encontrado: "
                    +:+ default EmptyString catalog_path))
        else ret tt);;
       let* command := gets (tap_command config_path catalog_path state_path) in
       (match state_path with
        | Some s =>
            if PyStr.nonempty s then
              let* there := gets (path_exists s) in
              logger INFO (if there : bool then UsingStateFile s else StateFileMissing s)
            else ret tt
        | None => ret tt
        end);;
       let* process := popen add_tap_call (popen_tap env) command in
       let a := tap_result process in
       modify (add_log (tap_log a));;
       if negb (tp_returncode process =? 0)%Z then
         logger ERROR (TapFailed (tp_returncode process) (error_lines a));;
         raise (Exn RuntimeError
                  (tap_failure_message (tp_returncode process) (error_lines a)))
       else
         logger INFO (TapSucceeded (parsed_records a));;
         ret (output_lines a, last_state a))
      (fun e =>
         logger ERROR (TapError (exn_str e));;
         raise (Exn RuntimeError ("Falha ao executar tap: " +:+ exn_str e))).

(** ** tap_runner.py: [validate_tap_config] *)

Definition required_fields : list string :=
  ["site_url"; "consumer_key"; "consumer_secret"; "start_date"].

Definition validate_tap_config (config_path : string) : Run bool :=
  let* config_exists := gets (path_exists config_path) in
  if negb config_exists then
    logger ERROR ConfigNotFound;;
    ret false
  else
    try_except
      (let* file_content := read_file config_path in
       match json_loads env file_content with
       | None =>
           logger ERROR ConfigInvalidJson;;
           ret false
       | Some (JDict config) =>
           match filter (fun field => negb (dict_mem field config)) required_fields with
           | (_ :: _) as missing_fields =>
               logger ERROR (ConfigMissingFields missing_fields);;
               ret false
           | [] =>
               let* site_url := subscript "site_url" config in
               match site_url with
               | JStr u =>
                   if negb (PyStr.startswith u "http://" || PyStr.startswith u "https://")
                   then
                     logger ERROR ConfigBadScheme;;
                     ret false
                   else
                     let* start_date := subscript "start_date" config in
                     match start_date with
                     | JStr d =>
                         (if negb (PyStr.endswith d "Z") then
                            logger WARNING StartDateNotUtc;;
                            logger INFO (StartDateAdjusted (d +:+ "Z"));;
                            write_file config_path
                              (json_dump env (JDict (dict_set "start_date" (JStr (d +:+ "Z")) config)))
                          else ret tt);;
                         logger INFO ConfigValid;;
                         ret true
                     | v => raise (no_attribute v "endswith")
                     end
               | v => raise (no_attribute v "startswith")
               end
           end
       | Some (JList items) =>
           (* [field not in config] is membership in the list *)
           match filter (fun field => negb (existsb (is_str field) items))
                   required_fields with
           | (_ :: _) as missing_fields =>
               logger ERROR (ConfigMissingFields missing_fields);;
               ret false
           | [] =>
               raise (Exn TypeError "list indices must be integers or slices, not str")
           end
       | Some (JStr text) =>
           (* [field not in config] is a substring test *)
           match filter (fun field => negb (PyStr.contains text field))
                   required_fields with
           | (_ :: _) as missing_fields =>
               logger ERROR (ConfigMissingFields missing_fields);;
               ret false
           | [] =>
               (* the message of CPython 3.11 and later *)
               raise (Exn TypeError "string indices must be integers, not 'str'")
           end
       | Some v =>
           (* a number, a boolean or null: [in] raises *)
           raise (Exn TypeError
                    ("argument of type '" +:+ type_name v +:+ "' is not iterable"))
       end)
      (fun e =>
         logger ERROR (ConfigValidateError (exn_str e));;
         ret false).

(** ** sync.py: [sync_connection] *)

Record Summary : Type := {
  message : string;
  streams : counts;
  total_records_processed : nat;
  elapsed_time_seconds : Q }.

(** [Path("users_private", user_id, project_id, "connections", type)]
    for components that are plain names. *)
Definition base_path (user_id project_id connection_type : string) : string :=
  "users_private/" +:+ user_id +:+ "/" +:+ project_id +:+ "/connections/"
  +:+ connection_type.

Definition config_path_of (base : string) : string := base +:+ "/config.json".
Definition catalog_path_of (base : string) : string := base +:+ "/catalog.json".
Definition state_path_of (base : string) : string := base +:+ "/state.json".

(** [SupabaseStorage(supabase_config)] *)
Definition new_storage (supabase_config : SupabaseConfig) : Run Client :=
  match storage_new env supabase_config with
  | inl e => raise e
  | inr c => ret c
  end.

(** [supabase.client.table('connections').update({'catalog': c}).eq('id', id).execute()] *)
Definition update_catalog (connection_id : string) (catalog_data : json)
  : Run update_outcome :=
  fun w =>
    let w' := add_db_call (DbUpdateCatalog connection_id catalog_data) w in
    match storage_update env (db_calls w) connection_id catalog_data with
    | UpdateRaises e => (Raise e, w')
    | r => (Ok r, w')
    end.

(** [json.load] of the file at [path].  The text of the decode error,
    which the callers only log, is not modelled: every undecodable text
    gives the same message. *)
Definition load_json_file (path : string) : Run json :=
  let* text := read_file path in
  match json_loads env text with
  | Some v => ret v
  | None => raise (Exn ValueError "Expecting value")
  end.

(** Steps 1 and 2: the connection's directory. *)
Definition step_prepare (user_id project_id : string) (connection_data : pydict)
  : Run string :=
  logger INFO (Step "1. Verificando Supabase");;
  logger INFO (Step "2. Preparando ambiente");;
  let* connection_type := subscript "type" connection_data in
  match connection_type with
  | JStr t =>
      let base := base_path user_id project_id t in
      makedirs base;;
      ret base
  | v =>
      raise (Exn TypeError
               ("expected str, bytes or os.PathLike object, not " +:+ type_name v))
  end.

(** Step 3: [open(config_path, 'w')] creates or empties the file before
    [connection_data['config']] is evaluated. *)
Definition step_write_config (config_path : string) (connection_data : pydict)
  : Run unit :=
  logger INFO (Step "3. Criando arquivo de configuração");;
  write_file config_path EmptyString;;
  let* config := subscript "config" connection_data in
  write_file config_path (json_dump env config).

(** Step 4 *)
Definition step_validate (config_path : string) : Run unit :=
  logger INFO (Step "4. Validando configuração");;
  let* valid := validate_tap_config config_path in
  if negb valid then
    logger ERROR InvalidConfig;;
    raise (Exn ValueError ("Configuração inválida: " +:+ config_path))
  else ret tt.

(** Step 5: the catalog is generated only when no file is cached, then
    read and mirrored into the connection's storage record. *)
Definition step_catalog (config_path catalog_path connection_id : string)
    (supabase_config : SupabaseConfig) : Run unit :=
  logger INFO (Step "5. Gerando e salvando catalog");;
  let* cached := gets (path_exists catalog_path) in
  (if negb cached then
     logger INFO CatalogNotFoundLocally;;
     let* generated := generate_catalog config_path catalog_path in
     if negb generated then
       logger ERROR CatalogGenerationFailed;;
       raise (Exn RuntimeError "Falha ao gerar catalog.json")
     else ret tt
   else logger INFO CatalogFoundLocally);;
  let* catalog_data :=
    try_except (load_json_file catalog_path)
      (fun e =>
         logger ERROR (CatalogReadError (exn_str e));;
         raise (Exn RuntimeError ("Falha ao ler catalog.json: " +:+ catalog_path))) in
  try_except
    (let* supabase := new_storage supabase_config in
     let* update_result := update_catalog connection_id catalog_data in
     match update_result with
     | UpdateError msg =>
         logger ERROR (CatalogStoreError msg);;
         raise (Exn RuntimeError ("Falha ao salvar catalog no Supabase: " +:+ msg))
     | _ => ret tt
     end)
    (fun e =>
       logger ERROR (CatalogStoreError (exn_str e));;
       raise (Exn RuntimeError
                ("Falha inesperada ao salvar catalog no Supabase: " +:+ exn_str e))).

(** Step 6, first half: [initial_state], read from the state file when
    it exists.  [None] when the file is absent or cannot be loaded. *)
Definition read_initial_state (state_path : string) : Run json :=
  logger INFO (Step "6. Executando tap com catalog e state");;
  let* state_exists := gets (path_exists state_path) in
  if state_exists : bool then
    try_except
      (let* initial_state := load_json_file state_path in
       logger INFO (StateReadOk state_path);;
       ret initial_state)
      (fun e =>
         logger WARNING (StateReadError state_path (exn_str e));;
         ret JNull)
  else ret JNull.

(** Step 8 *)
Definition step_persist (records : list Row) (supabase_config : SupabaseConfig)
  : Run bool :=
  logger INFO (Step "8. Persistindo dados");;
  match records with
  | [] =>
      logger INFO NothingToInsert;;
      ret true
  | _ =>
      let* supabase := new_storage supabase_config in
      let* insert_success := insert_records_batch records supabase in
      (if negb insert_success then logger WARNING SomeChunksFailed else ret tt);;
      ret insert_success
  end.

(** Step 9: the state is written when [last_state] is truthy; a failure
    of the write is logged and dropped. *)
Definition save_last_state (state_path : string) (last_state : json) : Run unit :=
  logger INFO (Step "9. Salvando último estado");;
  if truthy last_state then
    try_except
      (write_file state_path (json_dump env last_state);;
       logger INFO (StateSaved state_path))
      (fun e => logger ERROR (StateSaveError state_path (exn_str e)))
  else logger INFO NoFinalState.

(** Steps 1 to 5 and the read of the previous state: the base directory. *)
Definition sync_setup (user_id project_id connection_id : string)
    (supabase_config : SupabaseConfig) (connection_data : pydict) : Run string :=
  let* base := step_prepare user_id project_id connection_data in
  step_write_config (config_path_of base) connection_data;;
  step_validate (config_path_of base);;
  step_catalog (config_path_of base) (catalog_path_of base) connection_id supabase_config;;
  let* initial_state := read_initial_state (state_path_of base) in
  (* initial_state is not used after this point *)
  ret base.

(** Steps 6 (the extraction), 7 and 8. *)
Definition sync_extract (user_id project_id connection_id : string)
    (supabase_config : SupabaseConfig) (base : string)
  : Run (list Row * counts * json) :=
  let* out :=
    run_tap_woocommerce (config_path_of base) (Some (catalog_path_of base))
      (Some (state_path_of base)) in
  let '(output_lines, last_state) := out in
  logger INFO (TapDone (length output_lines) (truthy last_state));;
  logger INFO (Step "7. Processando registros");;
  let* processed :=
    process_tap_output output_lines user_id project_id connection_id in
  let '(records, stream_counts) := processed in
  logger INFO (RecordsProcessed (length records));;
  let* insert_success := step_persist records supabase_config in
  ret (records, stream_counts, last_state).

Definition sync_body (user_id project_id connection_id : string)
    (supabase_config : SupabaseConfig) (connection_data : pydict) : Run Summary :=
  let* base := sync_setup user_id project_id connection_id supabase_config connection_data in
  let* extracted := sync_extract user_id project_id connection_id supabase_config base in
  let '(records, stream_counts, last_state) := extracted in
  save_last_state (state_path_of base) last_state;;
  ret {| message := "Sync concluído com sucesso";
         streams := stream_counts;
         total_records_processed := length records;
         elapsed_time_seconds := elapsed_seconds env |}.

Definition sync_connection (user_id project_id connection_id : string)
    (supabase_config : SupabaseConfig) (connection_data : pydict) : Run Summary :=
  try_except
    (sync_body user_id project_id connection_id supabase_config connection_data)
    (fun e =>
       logger ERROR (SyncError (exn_str e));;
       raise e).

(** ** Vocabulary of the statements *)

(** The line is a RECORD message of the stream named [stream]. *)
Definition record_line_for (stream : string) (line : string) : bool :=
  match json_loads env line with
  | Some (JDict message) =>
      is_str "RECORD" (dict_get_or "type" JNull message)
      && is_str stream (dict_get_or "stream" JNull message)
  | _ => false
  end.

(** The line is a RECORD message, whatever its stream. *)
Definition record_line (line : string) : bool :=
  match json_loads env line with
  | Some (JDict message) => is_str "RECORD" (dict_get_or "type" JNull message)
  | _ => false
  end.

(** The line does not parse, is not an object, or carries a type other
    than RECORD, STATE and SCHEMA. *)
Definition malformed_or_unknown (line : string) : bool :=
  match json_loads env line with
  | None => true
  | Some (JDict message) =>
      let t := dict_get_or "type" JNull message in
      negb (is_str "RECORD" t || is_str "STATE" t || is_str "SCHEMA" t)
  | Some _ => true
  end.

(** The row a line yields: a RECORD message whose stream can be a
    dictionary key. *)
Definition row_of_line (user_id project_id connection_id : string)
    (line : string) : option Row :=
  match json_loads env line with
  | Some (JDict message) =>
      if is_str "RECORD" (dict_get_or "type" JNull message)
         && hashable (dict_get_or "stream" JNull message)
      then Some {| row_user_id := user_id; row_project_id := project_id;
                   row_connection_id := connection_id;
                   row_stream := dict_get_or "stream" JNull message;
                   row_record := dict_get_or "record" (JDict []) message |}
      else None
  | _ => None
  end.

(** The value a STATE message carries: [msg.get('value')]. *)
Definition state_value (line : string) : option json :=
  match json_loads env line with
  | Some (JDict msg) =>
      if is_str "STATE" (dict_get_or "type" (JStr "UNKNOWN") msg)
      then Some (dict_get_or "value" JNull msg)
      else None
  | _ => None
  end.

(** What [readline] returned, kept when it is not empty and stripped;
    the lines the supervising loop read from the output channel, and the
    lines [communicate()] returned after it. *)
Definition reads (l : list string) : list string :=
  map PyStr.strip (filter (fun o => PyStr.nonempty o = true) l).

Definition loop_lines (p : TapProcess) : list string :=
  reads (map fst (tp_iterations p)).

Definition drained_lines (p : TapProcess) : list string :=
  PyStr.splitlines (fst (tp_rest p)).

(** The value of the last STATE message among [lines]; [None] of Python
    when there is none. *)
Definition last_state_of (lines : list string) : json :=
  foldl (fun st l => match state_value l with Some v => v | None => st end)
    JNull lines.

(** The lines read from the diagnostic channel, by the loop and then by
    [communicate()]. *)
Definition diagnostic_lines (p : TapProcess) : list string :=
  reads (map snd (tp_iterations p)) ++ PyStr.splitlines (snd (tp_rest p)).

(** What [run_tap_woocommerce] gives for an outcome of [Popen]: a
    failure of [Popen] is wrapped; the process, once started, gives the
    lines and the last state on exit code 0, and a failure that carries
    the exit code and the diagnostic lines otherwise. *)
Definition tap_outcome (r : exn + TapProcess) : res (list string * json) :=
  match r with
  | inl e => Raise (Exn RuntimeError ("Falha ao executar tap: " +:+ exn_str e))
  | inr proc =>
      if (tp_returncode proc =? 0)%Z
      then Ok (output_lines (tap_result proc), last_state (tap_result proc))
      else Raise (Exn RuntimeError
                    ("Falha ao executar tap: "
                     +:+ tap_failure_message (tp_returncode proc)
                           (error_lines (tap_result proc))))
  end.

(** The counts that hold [n] records of one stream and nothing else. *)
Definition single_stream_counts (stream : string) (n : nat) : counts :=
  if n =? 0 then [] else [(JStr stream, n)].

(** The chunks [insert_records_batch] cuts [records] into. *)
Definition chunks_of (records : list Row) : list (list Row) :=
  map (fun i => slice i (i + CHUNK_SIZE) records)
    (range_step (length records) CHUNK_SIZE).

(** The chunks handed to the bulk insert, among the storage calls. *)
Definition inserted_chunks (calls : list db_call) : list (list Row) :=
  omap (fun c => match c with DbInsert chunk => Some chunk | _ => None end) calls.

End Pipeline.

(** ** What a computation may change *)

(** [frame S D I w w']: from [w] to [w'] the permissions are the same,
    the files outside [S] are the same, no file disappears, the log only
    grows, discovery is spawned only if [D] and rows are inserted only if
    [I]. *)
Record frame (S : string -> Prop) (D I : bool) (w w' : World) : Prop := {
  frame_deny_read : deny_read w' = deny_read w;
  frame_deny_write : deny_write w' = deny_write w;
  frame_files : forall p, ~ S p -> files w' !! p = files w !! p;
  frame_exists : forall p, is_Some (files w !! p) -> is_Some (files w' !! p);
  frame_log : forall x, In x (log w) -> In x (log w');
  frame_discover : D = false -> discover_calls w' = discover_calls w;
  frame_inserted :
    I = false -> inserted_chunks (db_calls w') = inserted_chunks (db_calls w) }.

(** Every run of [m] stays within the frame. *)
Definition sound {A} (S : string -> Prop) (D I : bool) (m : Run A) : Prop :=
  forall w r w', m w = (r, w') -> frame S D I w w'.

(** ** Vocabulary of the further properties *)

(** The chunks the storage accepts, when they are inserted one after
    the other on top of the calls [history]. *)
Fixpoint accepted_chunks (env : Env) (history : list db_call) (chunks : list (list Row))
  : list (list Row) :=
  match chunks with
  | [] => []
  | chunk :: rest =>
      (match storage_insert env history chunk with
       | None => [chunk]
       | Some _ => []
       end) ++ accepted_chunks env (history ++ [DbInsert chunk]) rest
  end.

(** The messages of the chunks the storage refuses. *)
Fixpoint refused_chunks (env : Env) (history : list db_call) (chunks : list (list Row))
  : list string :=
  match chunks with
  | [] => []
  | chunk :: rest =>
      (match storage_insert env history chunk with
       | None => []
       | Some e => [exn_str e]
       end) ++ refused_chunks env (history ++ [DbInsert chunk]) rest
  end.

(** The rows of the stream [k], as a dictionary key. *)
Definition rows_of_stream (k : json) (rows : list Row) : list Row :=
  filter (fun r => key_eqb (row_stream r) k = true) rows.

(** Every run of [m] leaves the component [f] of the world as it was. *)
Definition keeps {X A} (f : World -> X) (m : Run A) : Prop :=
  forall w r w', m w = (r, w') -> f w' = f w.

(** ** Concrete runs

    An environment built on the JSON fragment, a connection record and
    output lines, on which the pipeline is evaluated. *)

Module Scenario.

(** Texts are written with single quotes and read with double quotes. *)
Fixpoint dq (s : string) : string :=
  match s with
  | EmptyString => EmptyString
  | String c s' =>
      String (if nat_of_ascii c =? 39 then ascii_of_nat 34 else c) (dq s')
  end.

(** A line as [readline] returns it. *)
Definition out (s : string) : string := dq s +:+ PyStr.newline.

Definition client : Client := {| supabase_url := "https://project.supabase.co" |}.

Definition supabase_config : SupabaseConfig :=
  {| url := "https://project.supabase.co"; key := "service_role" |}.

Definition catalog_text : string := dq "{'streams':[{'tap_stream_id':'orders'}]}".

Definition discovery : DiscoverProcess :=
  {| dp_output := catalog_text; dp_error := EmptyString; dp_returncode := 0 |}.

(** The storage accepts every call; discovery prints [catalog_text];
    the extraction behaves as [tap] says. *)
Definition env_of (insert : list db_call -> list Row -> option exn)
    (tap : list string -> gmap string string -> exn + TapProcess) : Env :=
  {| json_loads := Json.loads;
     json_dump := Json.dump;
     storage_new := fun _ => inr client;
     storage_update := fun _ _ _ => UpdateOk;
     storage_insert := insert;
     popen_discover := fun _ _ => inr discovery;
     popen_tap := tap;
     elapsed_seconds := 1%Q |}.

Definition accept : list db_call -> list Row -> option exn := fun _ _ => None.

Definition silent : TapProcess :=
  {| tp_running := []; tp_last := (EmptyString, EmptyString);
     tp_rest := (EmptyString, EmptyString); tp_returncode := 0 |}.

Definition env : Env := env_of accept (fun _ _ => inr silent).

Definition world (f : gmap string string) : World :=
  {| files := f; deny_read := ∅; deny_write := ∅; db_calls := [];
     discover_calls := []; tap_calls := []; log := [] |}.

(** A configuration whose [start_date] has no UTC marker. *)
Definition config : pydict :=
  [("site_url", JStr "https://shop.example");
   ("consumer_key", JStr "ck");
   ("consumer_secret", JStr "cs");
   ("start_date", JStr "2024-01-01")].

Definition connection_data : pydict :=
  [("type", JStr "woocommerce"); ("config", JDict config)].

Definition base : string := base_path "u1" "p1" "woocommerce".

(** Three RECORD lines of the stream orders among a line that is not
    JSON, a truncated object and a message of another type. *)
Definition orders_lines : list string :=
  [dq "{'type':'RECORD','stream':'orders','record':{'id':1}}";
   "tap-woocommerce: starting";
   dq "{'type':'RECORD','stream':'orders','record':{'id':2}}";
   dq "{'type':'RECORD','stream':'orders'";
   dq "{'type':'ACTIVATE_VERSION','stream':'orders','version':1}";
   dq "{'type':'RECORD','stream':'orders','record':{'id':3}}"].

(** The world with write permission refused on the paths of [dw]. *)
Definition world_denying (f : gmap string string) (dw : gset string) : World :=
  {| files := f; deny_read := ∅; deny_write := dw; db_calls := [];
     discover_calls := []; tap_calls := []; log := [] |}.

Definition config_path : string := config_path_of base.
Definition catalog_path : string := catalog_path_of base.
Definition state_path : string := state_path_of base.

(** A checkpoint left by an earlier run. *)
Definition prior_state : string := dq "{'bookmarks': {'orders': 5}}".

Definition prior_files : gmap string string := {[ state_path := prior_state ]}.

(** A catalog cached by an earlier run. *)
Definition cached_files : gmap string string := {[ catalog_path := catalog_text ]}.

(** An extractor that fails: two lines on the diagnostic channel, exit
    code 1. *)
Definition failing_tap : TapProcess :=
  {| tp_running := [];
     tp_last := (EmptyString, out "CRITICAL 401 Unauthorized");
     tp_rest := (EmptyString, out "Traceback (most recent call last)");
     tp_returncode := 1 |}.

(** An extractor that emits two records and a checkpoint, then exits
    with code 0. *)
Definition healthy_tap : TapProcess :=
  {| tp_running :=
       [(out "{'type':'SCHEMA','stream':'orders','schema':{}}", EmptyString);
        (out "{'type':'RECORD','stream':'orders','record':{'id':1}}", EmptyString);
        (out "{'type':'RECORD','stream':'orders','record':{'id':2}}", EmptyString)];
     tp_last := (out "{'type':'STATE','value':{'bookmarks':{'orders':7}}}", EmptyString);
     tp_rest := (EmptyString, EmptyString);
     tp_returncode := 0 |}.

(** An extractor whose last STATE message carries an empty object. *)
Definition empty_state_tap : TapProcess :=
  {| tp_running :=
       [(out "{'type':'RECORD','stream':'orders','record':{'id':1}}", EmptyString)];
     tp_last := (out "{'type':'STATE','value':{}}", EmptyString);
     tp_rest := (EmptyString, EmptyString);
     tp_returncode := 0 |}.

(** An extractor that emits one RECORD message whose stream is a list. *)
Definition list_stream_tap : TapProcess :=
  {| tp_running := [];
     tp_last := (out "{'type':'RECORD','stream':['orders'],'record':{'id':1}}",
                 EmptyString);
     tp_rest := (EmptyString, EmptyString);
     tp_returncode := 0 |}.

Definition env_running (p : TapProcess) : Env := env_of accept (fun _ _ => inr p).

(** A storage whose bulk insert always raises. *)
Definition reject : list db_call -> list Row -> option exn :=
  fun _ _ => Some (Exn ExternalError "connection refused").

Definition one_row : Row :=
  {| row_user_id := "u1"; row_project_id := "p1"; row_connection_id := "c1";
     row_stream := JStr "orders"; row_record := JDict [("id", JInt 1)] |}.

(** An extractor that exits with code 1 when it is given a state file,
    as a tap does on a state file it cannot load, and is healthy
    otherwise. *)
Definition strict_tap (command : list string) (f : gmap string string)
  : exn + TapProcess :=
  if bool_decide ("--state" ∈ command) then inr failing_tap else inr healthy_tap.

(** A state file that is not JSON. *)
Definition corrupt_files : gmap string string := {[ state_path := "{not json" ]}.

(** The configuration file as step 3 writes it. *)
Definition config_text : string := Json.dump (JDict config).

Definition config_files : gmap string string := {[ config_path := config_text ]}.

Definition rejecting_env : Env := env_of reject (fun _ _ => inr healthy_tap).

Definition strict_env : Env := env_of accept strict_tap.

(** The setup and the run of the connection [c1] of user [u1]. *)
Definition setup (e : Env) (w : World) : res string * World :=
  sync_setup e "u1" "p1" "c1" supabase_config connection_data w.

Definition run (e : Env) (w : World) : res Summary * World :=
  sync_connection e "u1" "p1" "c1" supabase_config connection_data w.

(** The command line of the extraction after the setup. *)
Definition command (e : Env) (w : World) : list string :=
  tap_command config_path (Some catalog_path) (Some state_path) (setup e w).2.

(** The lines of [healthy_tap] and of [empty_state_tap]. *)
Definition schema_line : string := dq "{'type':'SCHEMA','stream':'orders','schema':{}}".
Definition record1_line : string := dq "{'type':'RECORD','stream':'orders','record':{'id':1}}".
Definition record2_line : string := dq "{'type':'RECORD','stream':'orders','record':{'id':2}}".
Definition state_line : string := dq "{'type':'STATE','value':{'bookmarks':{'orders':7}}}".
Definition empty_state_line : string := dq "{'type':'STATE','value':{}}".
Definition list_stream_line : string :=
  dq "{'type':'RECORD','stream':['orders'],'record':{'id':1}}".

Definition state_7 : json := JDict [("bookmarks", JDict [("orders", JInt 7)])].

(** The summary of a run that extracted no record. *)
Definition no_rows : Summary :=
  {| message := "Sync concluído com sucesso";
     streams := [];
     total_records_processed := 0;
     elapsed_time_seconds := 1%Q |}.

(** The summary of a run that extracted the two records of
    [healthy_tap]. *)
Definition two_orders : Summary :=
  {| message := "Sync concluído com sucesso";
     streams := [(JStr "orders", 2)];
     total_records_processed := 2;
     elapsed_time_seconds := 1%Q |}.

(** A configuration without its consumer secret. *)
Definition incomplete_config : pydict :=
  [("site_url", JStr "https://shop.example");
   ("consumer_key", JStr "ck");
   ("start_date", JStr "2024-01-01Z")].

Definition incomplete_files : gmap string string :=
  {[ config_path := Json.dump (JDict incomplete_config) ]}.

Definition incomplete_connection : pydict :=
  [("type", JStr "woocommerce"); ("config", JDict incomplete_config)].

(** A configuration whose site URL has no http scheme. *)
Definition ftp_config : pydict :=
  [("site_url", JStr "ftp://shop.example");
   ("consumer_key", JStr "ck");
   ("consumer_secret", JStr "cs");
   ("start_date", JStr "2024-01-01Z")].

Definition ftp_files : gmap string string :=
  {[ config_path := Json.dump (JDict ftp_config) ]}.

(** Connection data without a type, and without a configuration. *)
Definition untyped_connection : pydict := [("config", JDict config)].
Definition bare_connection : pydict := [("type", JStr "woocommerce")].

(** A discovery that fails: one diagnostic line, exit code 1. *)
Definition failing_discovery : DiscoverProcess :=
  {| dp_output := EmptyString;
     dp_error := "CRITICAL 401 Unauthorized" +:+ PyStr.newline;
     dp_returncode := 1 |}.

(** A discovery that prints a catalog whose streams are names. *)
Definition malformed_discovery : DiscoverProcess :=
  {| dp_output := dq "{'streams':['orders']}";
     dp_error := EmptyString;
     dp_returncode := 0 |}.

(** The environment [e] with another discovery, and with another answer
    to the update of the catalog. *)
Definition with_discovery (d : exn + DiscoverProcess) (e : Env) : Env :=
  {| json_loads := json_loads e; json_dump := json_dump e;
     storage_new := storage_new e; storage_update := storage_update e;
     storage_insert := storage_insert e;
     popen_discover := fun _ _ => d; popen_tap := popen_tap e;
     elapsed_seconds := elapsed_seconds e |}.

Definition with_update (u : update_outcome) (e : Env) : Env :=
  {| json_loads := json_loads e; json_dump := json_dump e;
     storage_new := storage_new e; storage_update := fun _ _ _ => u;
     storage_insert := storage_insert e;
     popen_discover := popen_discover e; popen_tap := popen_tap e;
     elapsed_seconds := elapsed_seconds e |}.

(** The configuration and the catalog of the connection are on disk. *)
Definition ready_files : gmap string string :=
  {[ config_path := config_text; catalog_path := catalog_text ]}.

(** The extractor is not installed. *)
Definition not_installed : exn :=
  Exn OSError "[Errno 2] No such file or directory: 'tap-woocommerce'".

Definition env_without_tap : Env := env_of accept (fun _ _ => inl not_installed).

(** A cached catalog that is not JSON. *)
Definition corrupt_catalog_files : gmap string string :=
  {[ catalog_path := "{not json" ]}.

(** The storage accepts the first chunk and refuses the others. *)
Definition accept_first : list db_call -> list Row -> option exn :=
  fun history _ =>
    match history with
    | [] => None
    | _ => Some (Exn ExternalError "connection refused")
    end.

(** An extractor that emits a checkpoint and then a STATE message whose
    value is the empty object, and exits with code 0.  The supervising
    loop reads the first message; the second is still in the pipe when
    the process exits and is returned by [communicate()]. *)
Definition late_empty_state_tap : TapProcess :=
  {| tp_running := [];
     tp_last := (out "{'type':'STATE','value':{'bookmarks':{'orders':7}}}", EmptyString);
     tp_rest := (out "{'type':'STATE','value':{}}", EmptyString);
     tp_returncode := 0 |}.

(** The same two messages, both read by the supervising loop. *)
Definition early_empty_state_tap : TapProcess :=
  {| tp_running :=
       [(out "{'type':'STATE','value':{'bookmarks':{'orders':7}}}", EmptyString)];
     tp_last := (out "{'type':'STATE','value':{}}", EmptyString);
     tp_rest := (EmptyString, EmptyString);
     tp_returncode := 0 |}.

End Scenario.

(** * Properties *)

(** ** The classifier of [process_tap_output] *)

Section Classifier.
Variable env : Env.


Lemma pa_logged_records lv e a : pa_records (pa_logged lv e a) = pa_records a.
Proof. reflexivity. Qed.
Lemma pa_logged_counts lv e a : pa_counts (pa_logged lv e a) = pa_counts a.
Proof. reflexivity. Qed.

Lemma process_line_records u p c i line a :
  pa_records (process_line env u p c i line a)
  = pa_records a ++ option_list (row_of_line env u p c line).
Proof.
  unfold process_line, row_of_line.
  destruct (json_loads env line) as [[| | | | |message]|]; simpl;
    try (rewrite app_nil_r; reflexivity).
  destruct (is_str "RECORD" _); simpl; [|rewrite app_nil_r; reflexivity].
  destruct (hashable _); simpl; [|rewrite app_nil_r; reflexivity].
  match goal with |- context [if ?b then _ else _] => destruct b end; reflexivity.
Qed.

Lemma process_line_counts u p c i line a :
  pa_counts (process_line env u p c i line a)
  = match row_of_line env u p c line with
    | Some r => counts_set (row_stream r)
                  (counts_get (row_stream r) (pa_counts a) + 1) (pa_counts a)
    | None => pa_counts a
    end.
Proof.
  unfold process_line, row_of_line.
  destruct (json_loads env line) as [[| | | | |message]|]; simpl; try reflexivity.
  destruct (is_str "RECORD" _); simpl; [|reflexivity].
  destruct (hashable _); simpl; [|reflexivity].
  match goal with |- context [if ?b then _ else _] => destruct b end; reflexivity.
Qed.

Lemma counts_total_incr k c :
  counts_total (counts_set k (counts_get k c + 1) c) = S (counts_total c).
Proof.
  induction c as [|[k' n] c IH]; simpl.
  - lia.
  - destruct (key_eqb k' k); simpl; [lia|]. rewrite IH. lia.
Qed.

Lemma process_line_balance u p c i line a :
  counts_total (pa_counts a) = length (pa_records a) ->
  counts_total (pa_counts (process_line env u p c i line a))
  = length (pa_records (process_line env u p c i line a)).
Proof.
  intros H. rewrite process_line_records, process_line_counts.
  destruct (row_of_line env u p c line); simpl.
  - rewrite counts_total_incr, length_app. simpl. lia.
  - rewrite app_nil_r. exact H.
Qed.

Lemma process_lines_records u p c lines : forall i a,
  pa_records (process_lines env u p c i lines a)
  = pa_records a ++ omap (row_of_line env u p c) lines.
Proof.
  induction lines as [|l lines IH]; intros i a; simpl.
  - by rewrite app_nil_r.
  - rewrite IH, process_line_records.
    destruct (row_of_line env u p c l); simpl.
    + by rewrite <- app_assoc.
    + by rewrite app_nil_r.
Qed.

Lemma process_lines_balance u p c lines : forall i a,
  counts_total (pa_counts a) = length (pa_records a) ->
  counts_total (pa_counts (process_lines env u p c i lines a))
  = length (pa_records (process_lines env u p c i lines a)).
Proof.
  induction lines as [|l lines IH]; intros i a H; simpl; [exact H|].
  apply IH. by apply process_line_balance.
Qed.


(** *** The log of [process_lines] *)

Lemma process_line_log u p c i line a :
  exists extra,
    pa_log (process_line env u p c i line a)
    = pa_log a ++ (DEBUG, ProcLine (i + 1) (PyStr.take 200 line)) :: extra
    /\ (json_loads env line = None ->
        extra = [(WARNING, ProcInvalidLine (PyStr.take 100 line))]).
Proof.
  unfold process_line.
  destruct (json_loads env line) as [v|]; [destruct v|];
    repeat match goal with |- context [if ?b then _ else _] => destruct b end;
    cbn [pa_log pa_logged pa_records pa_counts];
    eexists; (split; [repeat rewrite <- app_assoc; reflexivity | intros; congruence]).
Qed.

Lemma process_lines_log_mono u p c lines : forall i a x,
  In x (pa_log a) -> In x (pa_log (process_lines env u p c i lines a)).
Proof.
  induction lines as [|l lines IH]; intros i a x H; simpl; [exact H|].
  apply IH. destruct (process_line_log u p c i l a) as (extra & -> & _).
  apply in_or_app. by left.
Qed.

Lemma process_lines_log_line u p c lines : forall i a j l,
  lines !! j = Some l ->
  In (DEBUG, ProcLine (i + j + 1) (PyStr.take 200 l))
     (pa_log (process_lines env u p c i lines a)).
Proof.
  induction lines as [|l0 lines IH]; intros i a j l H; [discriminate|].
  destruct j as [|j]; simpl in *.
  - injection H as ->. apply process_lines_log_mono.
    destruct (process_line_log u p c i l a) as (extra & -> & _).
    apply in_or_app. right. left. do 2 f_equal. lia.
  - replace (i + S j + 1) with (S i + j + 1) by lia. by apply IH.
Qed.

Lemma process_lines_log_invalid u p c lines : forall i a l,
  In l lines -> json_loads env l = None ->
  In (WARNING, ProcInvalidLine (PyStr.take 100 l))
     (pa_log (process_lines env u p c i lines a)).
Proof.
  induction lines as [|l0 lines IH]; intros i a l Hin Hl; [destruct Hin|].
  destruct Hin as [->|Hin]; simpl.
  - apply process_lines_log_mono.
    destruct (process_line_log u p c i l a) as (extra & -> & Hx).
    rewrite (Hx Hl). apply in_or_app. right. right. by left.
  - by apply IH.
Qed.

(** [process_tap_output] returns, whatever the lines. *)
Lemma process_tap_output_returns lines u p c w :
  let a := process_lines env u p c 0 lines pa_empty in
  exists w',
    process_tap_output env lines u p c w = (Ok (pa_records a, pa_counts a), w')
    /\ files w' = files w /\ deny_read w' = deny_read w /\ deny_write w' = deny_write w
    /\ db_calls w' = db_calls w /\ discover_calls w' = discover_calls w
    /\ tap_calls w' = tap_calls w
    /\ (forall x, In x (pa_log a) -> In x (log w')).
Proof.
  intros a. unfold process_tap_output. fold a.
  unfold bind, modify, ret, logger, modify. simpl.
  destruct (pa_records a) eqn:E; simpl; eexists; (split; [reflexivity|]);
    repeat split; simpl; intros; rewrite ?in_app_iff; tauto.
Qed.


(** *** Lines of one stream among malformed and unknown lines *)

Lemma is_str_eq s v : is_str s v = true -> v = JStr s.
Proof.
  destruct v; simpl; try discriminate. intros H.
  apply String.eqb_eq in H. by subst.
Qed.

Lemma row_of_record_line_for stream u p c l :
  record_line_for env stream l = true ->
  exists r, row_of_line env u p c l = Some r /\ row_stream r = JStr stream.
Proof.
  unfold record_line_for, row_of_line.
  destruct (json_loads env l) as [[| | | | |message]|]; try discriminate.
  intros [H1 H2]%andb_prop. rewrite H1. apply is_str_eq in H2. rewrite H2.
  simpl. eexists. split; reflexivity.
Qed.

Lemma row_of_malformed_or_unknown u p c l :
  malformed_or_unknown env l = true -> row_of_line env u p c l = None.
Proof.
  unfold malformed_or_unknown, row_of_line.
  destruct (json_loads env l) as [[| | | | |message]|]; try reflexivity.
  destruct (is_str "RECORD" _); simpl; [discriminate|reflexivity].
Qed.

Lemma record_line_for_not_unknown stream l :
  record_line_for env stream l = true -> malformed_or_unknown env l = false.
Proof.
  unfold record_line_for, malformed_or_unknown.
  destruct (json_loads env l) as [[| | | | |message]|]; try discriminate.
  intros [H1 _]%andb_prop. by rewrite H1.
Qed.

Lemma single_stream_counts_incr stream n :
  counts_set (JStr stream)
    (counts_get (JStr stream) (single_stream_counts stream n) + 1)
    (single_stream_counts stream n)
  = single_stream_counts stream (S n).
Proof.
  unfold single_stream_counts. destruct n; simpl; [reflexivity|].
  rewrite String.eqb_refl. do 3 f_equal. lia.
Qed.

Lemma process_lines_single_stream stream u p c lines :
  Forall (fun l => record_line_for env stream l = true
                   \/ malformed_or_unknown env l = true) lines ->
  forall i a m,
    pa_counts a = single_stream_counts stream m ->
    pa_counts (process_lines env u p c i lines a)
    = single_stream_counts stream
        (m + length (filter (fun l => record_line_for env stream l = true) lines)).
Proof.
  induction 1 as [|l lines Hl _ IH]; intros i a m Ha; simpl.
  - by rewrite Nat.add_0_r.
  - destruct (record_line_for env stream l) eqn:E.
    + rewrite filter_cons_True by done. simpl.
      replace (m + S (length (filter (fun l => record_line_for env stream l = true) lines)))
        with (S m + length (filter (fun l => record_line_for env stream l = true) lines)) by lia.
      apply IH. rewrite process_line_counts.
      destruct (row_of_record_line_for stream u p c l E) as (r & -> & ->).
      rewrite Ha. apply single_stream_counts_incr.
    + rewrite filter_cons_False by (rewrite E; done).
      apply IH. rewrite process_line_counts.
      destruct Hl as [Hl|Hl]; [congruence|].
      by rewrite (row_of_malformed_or_unknown u p c l Hl).
Qed.

Lemma omap_single_stream stream u p c lines :
  Forall (fun l => record_line_for env stream l = true
                   \/ malformed_or_unknown env l = true) lines ->
  omap (row_of_line env u p c) lines
  = omap (row_of_line env u p c)
      (filter (fun l => record_line_for env stream l = true) lines)
  /\ length (omap (row_of_line env u p c) lines)
     = length (filter (fun l => record_line_for env stream l = true) lines).
Proof.
  induction 1 as [|l lines Hl _ [IH1 IH2]]; [done|].
  destruct (record_line_for env stream l) eqn:E.
  - rewrite filter_cons_True by done. simpl.
    destruct (row_of_record_line_for stream u p c l E) as (r & -> & _).
    simpl. split; f_equal; [exact IH1 | exact IH2].
  - rewrite filter_cons_False by (rewrite E; done). simpl.
    destruct Hl as [Hl|Hl]; [congruence|].
    rewrite (row_of_malformed_or_unknown u p c l Hl). done.
Qed.

(** C4.  Given output lines that are RECORD messages of the stream
    "orders" interleaved with lines that do not parse or carry an
    unrecognized type, [process_tap_output] returns (it does not raise);
    the per-stream counts hold "orders" with the number N of RECORD lines
    and nothing else; the records are the rows of the N RECORD lines, in
    order; every malformed or unknown line is logged with its position,
    an unparseable one also with a warning, and yields no row. *)
Theorem process_tap_output_orders_among_malformed
    (user_id project_id connection_id : string) (lines : list string) (w : World) :
  Forall (fun l => record_line_for env "orders" l = true
                   \/ malformed_or_unknown env l = true) lines ->
  let orders := filter (fun l => record_line_for env "orders" l = true) lines in
  let n := length orders in
  exists records stream_counts w',
    process_tap_output env lines user_id project_id connection_id w
    = (Ok (records, stream_counts), w')
    /\ counts_get (JStr "orders") stream_counts = n
    /\ stream_counts = (if n =? 0 then [] else [(JStr "orders", n)])
    /\ records = omap (row_of_line env user_id project_id connection_id) orders
    /\ length records = n
    /\ (forall i l, lines !! i = Some l -> malformed_or_unknown env l = true ->
          In (DEBUG, ProcLine (i + 1) (PyStr.take 200 l)) (log w')
          /\ row_of_line env user_id project_id connection_id l = None)
    /\ (forall l, In l lines -> json_loads env l = None ->
          In (WARNING, ProcInvalidLine (PyStr.take 100 l)) (log w')).
Proof.
  intros Hlines orders n.
  destruct (process_tap_output_returns lines user_id project_id connection_id w)
    as (w' & Hrun & _ & _ & _ & _ & _ & _ & Hlog).
  pose proof (process_lines_single_stream "orders" user_id project_id connection_id
                lines Hlines 0 pa_empty 0 eq_refl) as Hcounts.
  simpl in Hcounts. fold orders n in Hcounts.
  destruct (omap_single_stream "orders" user_id project_id connection_id lines Hlines)
    as [Hrec Hlen]. fold orders in Hrec. fold orders n in Hlen.
  eexists _, _, w'. split; [exact Hrun|].
  rewrite Hcounts, process_lines_records. simpl.
  repeat split.
  - unfold single_stream_counts. destruct n; simpl; [done|].
    reflexivity.
  - exact Hrec.
  - exact Hlen.
  - apply Hlog. by apply (process_lines_log_line user_id project_id connection_id lines 0 pa_empty i l).
  - by apply row_of_malformed_or_unknown.
  - intros l Hin Hl. apply Hlog. by apply process_lines_log_invalid.
Qed.

End Classifier.

(** ** The batch persister *)

Section Persister.
Variable env : Env.

Lemma slice_chunk {A} (i : nat) (l : list A) :
  slice i (i + CHUNK_SIZE) l = take CHUNK_SIZE (drop i l).
Proof. unfold slice. f_equal. lia. Qed.

Lemma concat_chunks_take {A} (l : list A) (s m : nat) :
  concat (map (fun i => take s (drop i l)) (map (fun k => k * s) (seq 0 m)))
  = take (m * s) l.
Proof.
  induction m as [|m IH].
  - reflexivity.
  - rewrite seq_S, !map_app, concat_app, IH. simpl. rewrite app_nil_r.
    replace (s + m * s) with (m * s + s) by lia.
    apply take_take_drop.
Qed.

Lemma chunks_of_eq (records : list Row) :
  chunks_of records
  = map (fun i => take CHUNK_SIZE (drop i records))
      (range_step (length records) CHUNK_SIZE).
Proof. unfold chunks_of. apply map_ext. intros i. apply slice_chunk. Qed.

(** The chunks, put end to end, are the records. *)
Lemma concat_chunks_of (records : list Row) : concat (chunks_of records) = records.
Proof.
  rewrite chunks_of_eq. unfold range_step. rewrite concat_chunks_take.
  apply take_ge. unfold CHUNK_SIZE.
  pose proof (Nat.div_mod_eq (length records + 500 - 1) 500) as H1.
  pose proof (Nat.mod_upper_bound (length records + 500 - 1) 500) as H2.
  lia.
Qed.

Lemma length_chunks_of (records : list Row) :
  length (chunks_of records) = (length records + 499) / 500.
Proof.
  unfold chunks_of, range_step, CHUNK_SIZE.
  rewrite !length_map, length_seq. f_equal. lia.
Qed.

Lemma chunks_of_lookup (records : list Row) (k : nat) (chunk : list Row) :
  chunks_of records !! k = Some chunk ->
  chunk = take 500 (drop (500 * k) records)
  /\ length chunk = Nat.min 500 (length records - 500 * k)
  /\ 500 * k < length records.
Proof.
  intros H. pose proof (lookup_lt_Some _ _ _ H) as Hk.
  rewrite length_chunks_of in Hk.
  rewrite chunks_of_eq in H. unfold range_step, CHUNK_SIZE in H.
  replace (length records + 500 - 1) with (length records + 499) in H by lia.
  rewrite !list_lookup_fmap in H.
  rewrite lookup_seq_lt in H by exact Hk. simpl in H.
  injection H as <-. replace (k * 500) with (500 * k) by lia.
  split; [reflexivity|]. rewrite length_take, length_drop.
  pose proof (Nat.div_mod_eq (length records + 499) 500) as H1.
  pose proof (Nat.mod_upper_bound (length records + 499) 500) as H2.
  split; lia.
Qed.

Lemma chunk_lengths (records : list Row) :
  map length (chunks_of records)
  = map (fun i => Nat.min CHUNK_SIZE (length records - i))
      (range_step (length records) CHUNK_SIZE).
Proof.
  rewrite chunks_of_eq, map_map. apply map_ext. intros i.
  by rewrite length_take, length_drop.
Qed.

Lemma inserted_chunks_app (c1 c2 : list db_call) :
  inserted_chunks (c1 ++ c2) = inserted_chunks c1 ++ inserted_chunks c2.
Proof. apply omap_app. Qed.

Lemma inserted_chunks_inserts (cs : list (list Row)) :
  inserted_chunks (map DbInsert cs) = cs.
Proof.
  induction cs as [|c cs IH]; [done|].
  change (c :: inserted_chunks (map DbInsert cs) = c :: cs). by rewrite IH.
Qed.

(** The loop over the offsets returns; it adds one insert call per
    offset, in order, whether the call raises or not, and touches
    nothing else but the log. *)
Lemma insert_chunks_spec (records : list Row) (offsets : list nat) :
  forall total w,
  exists total' w',
    insert_chunks env records offsets total w = (Ok total', w')
    /\ files w' = files w /\ deny_read w' = deny_read w
    /\ deny_write w' = deny_write w
    /\ discover_calls w' = discover_calls w /\ tap_calls w' = tap_calls w
    /\ db_calls w'
       = db_calls w ++ map (fun i => DbInsert (slice i (i + CHUNK_SIZE) records)) offsets.
Proof.
  induction offsets as [|i offsets IH]; intros total w.
  - exists total, w. simpl. rewrite app_nil_r. repeat split.
  - simpl. unfold bind at 1. unfold logger at 1, modify at 1.
    unfold bind at 1. unfold try_except, bind at 1, bulk_insert.
    cbn [db_calls add_log].
    destruct (storage_insert env (db_calls w) (slice i (i + CHUNK_SIZE) records)) as [e|];
      cbn -[slice CHUNK_SIZE].
    + match goal with |- context [insert_chunks env records offsets ?t ?w0] =>
        destruct (IH t w0) as (t' & w' & -> & Hf & Hr & Hw & Hd & Ht & Hc) end.
      exists t', w'. cbn in *. rewrite Hc, <- app_assoc. repeat split; assumption.
    + match goal with |- context [insert_chunks env records offsets ?t ?w0] =>
        destruct (IH t w0) as (t' & w' & -> & Hf & Hr & Hw & Hd & Ht & Hc) end.
      exists t', w'. cbn in *. rewrite Hc, <- app_assoc. repeat split; assumption.
Qed.

(** [insert_records_batch] returns True, whatever the inserts did. *)
Lemma insert_records_batch_spec (records : list Row) (client : Client) (w : World) :
  exists w',
    insert_records_batch env records client w = (Ok true, w')
    /\ files w' = files w /\ deny_read w' = deny_read w
    /\ deny_write w' = deny_write w
    /\ discover_calls w' = discover_calls w /\ tap_calls w' = tap_calls w
    /\ db_calls w' = db_calls w ++ map DbInsert (chunks_of records).
Proof.
  unfold insert_records_batch, try_except, bind at 1, logger at 1, modify at 1.
  unfold bind at 1.
  match goal with |- context [insert_chunks env records ?o ?t ?w0] =>
    destruct (insert_chunks_spec records o t w0)
      as (t' & w' & -> & Hf & Hr & Hw & Hd & Ht & Hc) end.
  cbn in *. eexists. split; [reflexivity|]. cbn.
  unfold chunks_of. rewrite map_map. repeat split; assumption.
Qed.

(** C5.  For every list of records, [insert_records_batch] issues one
    bulk-insert call per chunk, in order; the chunks put end to end are
    the records in their original order; every chunk holds 500 records
    but the last, which holds the remainder; for 1200 records the calls
    have sizes 500, 500 and 200. *)
Theorem insert_records_batch_chunks (records : list Row) (client : Client) (w : World) :
  exists ok w',
    insert_records_batch env records client w = (Ok ok, w')
    /\ inserted_chunks (db_calls w') = inserted_chunks (db_calls w) ++ chunks_of records
    /\ concat (chunks_of records) = records
    /\ length (chunks_of records) = (length records + 499) / 500
    /\ (forall k chunk, chunks_of records !! k = Some chunk ->
          chunk = take 500 (drop (500 * k) records)
          /\ length chunk = Nat.min 500 (length records - 500 * k)
          /\ 0 < length chunk)
    /\ (length records = 1200 -> map length (chunks_of records) = [500; 500; 200]).
Proof.
  destruct (insert_records_batch_spec records client w)
    as (w' & Hrun & _ & _ & _ & _ & _ & Hc).
  exists true, w'. split; [exact Hrun|].
  split; [by rewrite Hc, inserted_chunks_app, inserted_chunks_inserts|].
  split; [apply concat_chunks_of|].
  split; [apply length_chunks_of|].
  split.
  - intros k chunk H. destruct (chunks_of_lookup records k chunk H) as (H1 & H2 & H3).
    repeat split; [exact H1 | exact H2 | lia].
  - intros Hn. rewrite chunk_lengths, Hn. vm_compute. reflexivity.
Qed.

End Persister.

(** ** Frames of the pipeline's computations *)

Section Frames.
Variable env : Env.

Lemma frame_refl S D I w : frame S D I w w.
Proof. by constructor. Qed.

Lemma frame_trans S D I w1 w2 w3 :
  frame S D I w1 w2 -> frame S D I w2 w3 -> frame S D I w1 w3.
Proof.
  intros [a1 a2 a3 a4 a5 a6 a7] [b1 b2 b3 b4 b5 b6 b7]. constructor.
  - congruence.
  - congruence.
  - intros p Hp. rewrite b3, a3; done.
  - auto.
  - auto.
  - intros HD. rewrite b6, a6; done.
  - intros HI. rewrite b7, a7; done.
Qed.

Lemma frame_weaken (S S' : string -> Prop) D D' I I' w w' :
  (forall p, S p -> S' p) -> (D' = false -> D = false) -> (I' = false -> I = false) ->
  frame S D I w w' -> frame S' D' I' w w'.
Proof.
  intros HS HD HI [a1 a2 a3 a4 a5 a6 a7]. constructor; auto.
Qed.

Lemma sound_weaken {A} (S S' : string -> Prop) D D' I I' (m : Run A) :
  (forall p, S p -> S' p) -> (D' = false -> D = false) -> (I' = false -> I = false) ->
  sound S D I m -> sound S' D' I' m.
Proof. intros HS HD HI H w r w' E. eapply frame_weaken; eauto. Qed.

Lemma sound_ret {A} S D I (a : A) : sound S D I (ret a).
Proof. intros w r w' [= <- <-]. apply frame_refl. Qed.

Lemma sound_raise {A} S D I e : sound S D I (raise (A:=A) e).
Proof. intros w r w' [= <- <-]. apply frame_refl. Qed.

Lemma sound_gets {A} S D I (f : World -> A) : sound S D I (gets f).
Proof. intros w r w' [= <- <-]. apply frame_refl. Qed.

Lemma sound_bind {A B} S D I (m : Run A) (k : A -> Run B) :
  sound S D I m -> (forall a, sound S D I (k a)) -> sound S D I (bind m k).
Proof.
  intros Hm Hk w r w'. unfold bind.
  destruct (m w) as [[a|e] w0] eqn:E; intros H.
  - eapply frame_trans; [eapply Hm, E | eapply Hk, H].
  - injection H as <- <-. eapply Hm, E.
Qed.

Lemma sound_try {A} S D I (m : Run A) (h : exn -> Run A) :
  sound S D I m -> (forall e, sound S D I (h e)) -> sound S D I (try_except m h).
Proof.
  intros Hm Hh w r w'. unfold try_except.
  destruct (m w) as [[a|e] w0] eqn:E; intros H.
  - injection H as <- <-. eapply Hm, E.
  - eapply frame_trans; [eapply Hm, E | eapply Hh, H].
Qed.

Lemma frame_add_log S D I l w : frame S D I w (add_log l w).
Proof. constructor; simpl; auto. intros x Hx. apply in_or_app. by left. Qed.

Lemma sound_add_log S D I l : sound S D I (modify (add_log l)).
Proof. intros w r w' [= <- <-]. apply frame_add_log. Qed.

Lemma sound_logger S D I lv e : sound S D I (logger lv e).
Proof. apply sound_add_log. Qed.

Lemma sound_read_file S D I p : sound S D I (read_file p).
Proof.
  intros w r w'. unfold read_file.
  destruct (bool_decide _); [|destruct (files w !! p)];
    intros [= <- <-]; apply frame_refl.
Qed.

Lemma sound_makedirs S D I p : sound S D I (makedirs p).
Proof.
  intros w r w'. unfold makedirs.
  destruct (bool_decide _); intros [= <- <-]; apply frame_refl.
Qed.

Lemma sound_write_file (S : string -> Prop) D I p content :
  S p -> sound S D I (write_file p content).
Proof.
  intros HS w r w'. unfold write_file.
  destruct (bool_decide _); intros [= <- <-]; [apply frame_refl|].
  constructor; simpl; auto.
  - intros q Hq. apply lookup_insert_ne. intros ->. by apply Hq.
  - intros q Hq. destruct (decide (p = q)) as [->|Hne].
    + rewrite lookup_insert_eq. eauto.
    + by rewrite lookup_insert_ne.
Qed.

Lemma sound_subscript S D I k d : sound S D I (subscript k d).
Proof.
  unfold subscript. destruct (dict_get k d); [apply sound_ret | apply sound_raise].
Qed.

Lemma sound_new_storage S D I cfg : sound S D I (new_storage env cfg).
Proof.
  unfold new_storage. destruct (storage_new env cfg); [apply sound_raise | apply sound_ret].
Qed.

Lemma inserted_chunks_update calls id catalog :
  inserted_chunks (calls ++ [DbUpdateCatalog id catalog]) = inserted_chunks calls.
Proof. unfold inserted_chunks. rewrite omap_app. simpl. by rewrite app_nil_r. Qed.

Lemma sound_update_catalog S D I id catalog :
  sound S D I (update_catalog env id catalog).
Proof.
  intros w r w'. unfold update_catalog.
  destruct (storage_update env (db_calls w) id catalog); intros [= <- <-];
    constructor; simpl; auto using inserted_chunks_update.
Qed.

Lemma sound_popen_tap S D I command :
  sound S D I (popen add_tap_call (popen_tap env) command).
Proof.
  intros w r w'. unfold popen.
  destruct (popen_tap env command (files w)); intros [= <- <-];
    constructor; simpl; auto.
Qed.

Lemma sound_popen_discover S I command :
  sound S true I (popen add_discover_call (popen_discover env) command).
Proof.
  intros w r w'. unfold popen.
  destruct (popen_discover env command (files w)); intros [= <- <-];
    constructor; simpl; auto; discriminate.
Qed.

Lemma sound_bulk_insert S D chunk : sound S D true (bulk_insert env chunk).
Proof.
  intros w r w'. unfold bulk_insert.
  destruct (storage_insert env (db_calls w) chunk); intros [= <- <-];
    constructor; simpl; auto; discriminate.
Qed.

End Frames.

Create HintDb sound.

#[export] Hint Resolve sound_ret sound_raise sound_gets sound_add_log sound_logger
  sound_read_file sound_makedirs sound_subscript sound_new_storage
  sound_update_catalog sound_popen_tap sound_popen_discover sound_bulk_insert
  : sound.

(** The computations that write a file: the path must be allowed. *)
Ltac sound_path := cbv beta; solve [auto | left; reflexivity | right; reflexivity].

(** One step of a soundness proof: the shape of the computation decides. *)
Ltac sound_step :=
  lazymatch goal with
  | |- sound _ _ _ (bind _ _) => apply sound_bind; [|intros ?]
  | |- sound _ _ _ (try_except _ _) => apply sound_try; [|intros ?]
  | |- sound _ _ _ (write_file _ _) => apply sound_write_file; sound_path
  | |- sound _ _ _ (match ?x with _ => _ end) => destruct x
  | |- sound _ _ _ _ => solve [simpl; auto with sound]
  end.

Ltac sound_auto := repeat sound_step.

Section FrameFacts.
Variable env : Env.

Lemma sound_list_streams S D I catalog : sound S D I (list_streams catalog).
Proof. unfold list_streams. sound_auto. Qed.

Lemma sound_generate_catalog (S : string -> Prop) I config_path output_path :
  S output_path -> sound S true I (generate_catalog env config_path output_path).
Proof.
  intros HS. unfold generate_catalog. pose proof sound_list_streams. sound_auto.
Qed.

Lemma sound_validate_tap_config (S : string -> Prop) D I config_path :
  S config_path -> sound S D I (validate_tap_config env config_path).
Proof. intros HS. unfold validate_tap_config. sound_auto. Qed.

Lemma sound_run_tap S D I config_path catalog_path state_path :
  sound S D I (run_tap_woocommerce env config_path catalog_path state_path).
Proof. unfold run_tap_woocommerce. sound_auto. Qed.

Lemma sound_process_tap_output S D I lines u p c :
  sound S D I (process_tap_output env lines u p c).
Proof. unfold process_tap_output. sound_auto. Qed.

Lemma sound_insert_chunks S D records offsets :
  forall total, sound S D true (insert_chunks env records offsets total).
Proof.
  induction offsets as [|i offsets IH]; intros total; simpl; sound_auto.
Qed.

Lemma sound_insert_records_batch S D records client :
  sound S D true (insert_records_batch env records client).
Proof.
  unfold insert_records_batch. pose proof sound_insert_chunks. sound_auto.
Qed.

Lemma sound_step_persist S D records cfg :
  sound S D true (step_persist env records cfg).
Proof.
  unfold step_persist. pose proof sound_insert_records_batch. sound_auto.
Qed.

Lemma sound_save_last_state (S : string -> Prop) D I state_path last_state :
  S state_path -> sound S D I (save_last_state env state_path last_state).
Proof. intros HS. unfold save_last_state. sound_auto. Qed.

Lemma sound_load_json_file S D I path : sound S D I (load_json_file env path).
Proof. unfold load_json_file. sound_auto. Qed.

Lemma sound_read_initial_state S D I state_path :
  sound S D I (read_initial_state env state_path).
Proof. unfold read_initial_state. pose proof sound_load_json_file. sound_auto. Qed.

Lemma sound_step_prepare S D I u p cd : sound S D I (step_prepare u p cd).
Proof. unfold step_prepare. sound_auto. Qed.

Lemma sound_step_write_config (S : string -> Prop) D I config_path cd :
  S config_path -> sound S D I (step_write_config env config_path cd).
Proof. intros HS. unfold step_write_config. sound_auto. Qed.

Lemma sound_step_validate (S : string -> Prop) D I config_path :
  S config_path -> sound S D I (step_validate env config_path).
Proof.
  intros HS. unfold step_validate.
  pose proof (sound_validate_tap_config S D I config_path HS). sound_auto.
Qed.

Lemma sound_step_catalog (S : string -> Prop) I config_path catalog_path id cfg :
  S catalog_path ->
  sound S true I (step_catalog env config_path catalog_path id cfg).
Proof.
  intros HS. unfold step_catalog.
  pose proof (sound_generate_catalog S I config_path catalog_path HS).
  pose proof sound_load_json_file.
  sound_auto.
Qed.

End FrameFacts.

#[export] Hint Resolve sound_list_streams sound_run_tap sound_process_tap_output
  sound_insert_chunks sound_insert_records_batch sound_step_persist
  sound_load_json_file sound_read_initial_state sound_step_prepare : sound.

#[export] Hint Extern 1 (sound _ _ _ (generate_catalog _ _ _)) =>
  apply sound_generate_catalog; sound_path : sound.
#[export] Hint Extern 1 (sound _ _ _ (validate_tap_config _ _)) =>
  apply sound_validate_tap_config; sound_path : sound.
#[export] Hint Extern 1 (sound _ _ _ (save_last_state _ _ _)) =>
  apply sound_save_last_state; sound_path : sound.
#[export] Hint Extern 1 (sound _ _ _ (step_write_config _ _ _)) =>
  apply sound_step_write_config; sound_path : sound.
#[export] Hint Extern 1 (sound _ _ _ (step_validate _ _)) =>
  apply sound_step_validate; sound_path : sound.
#[export] Hint Extern 1 (sound _ _ _ (step_catalog _ _ _ _ _)) =>
  apply sound_step_catalog; sound_path : sound.

(** The frame of the run recorded in [H]. *)
Ltac frame_of H S D I :=
  lazymatch type of H with
  | ?m ?w = (?r, ?w') =>
      let F := fresh "F" in
      assert (F : frame S D I w w');
      [ apply (fun Hs : sound S D I m => Hs w r w' H); solve [sound_auto] | ]
  end.

(** ** The supervising loop *)

Section Supervisor.
Variable env : Env.

Lemma is_str_JStr s t : is_str s (JStr t) = String.eqb t s.
Proof. reflexivity. Qed.

Lemma observe_line_output l a : output_lines (observe_line env l a) = output_lines a.
Proof.
  unfold observe_line.
  destruct (json_loads env l) as [v|]; [destruct v|];
    repeat match goal with |- context [if ?b then _ else _] => destruct b end;
    reflexivity.
Qed.

Lemma observe_line_errors l a : error_lines (observe_line env l a) = error_lines a.
Proof.
  unfold observe_line.
  destruct (json_loads env l) as [v|]; [destruct v|];
    repeat match goal with |- context [if ?b then _ else _] => destruct b end;
    reflexivity.
Qed.

Lemma observe_line_state l a :
  last_state (observe_line env l a)
  = match state_value env l with Some v => v | None => last_state a end.
Proof.
  unfold observe_line, state_value.
  destruct (json_loads env l) as [v|]; [destruct v|]; try reflexivity.
  destruct (is_str "RECORD" _) eqn:E.
  - apply is_str_eq in E. rewrite E. simpl.
    match goal with |- context [if ?b then _ else _] => destruct b end; reflexivity.
  - destruct (is_str "STATE" _); [reflexivity|].
    destruct (is_str "SCHEMA" _); reflexivity.
Qed.

Lemma loop_iteration_output rd a :
  output_lines (loop_iteration env rd a) = output_lines a ++ reads [fst rd].
Proof.
  unfold loop_iteration, reads. destruct rd as [o e]. simpl.
  destruct (PyStr.nonempty o) eqn:Ho.
  - rewrite filter_cons_True by done.
    destruct (PyStr.nonempty e); simpl; by rewrite observe_line_output.
  - rewrite filter_cons_False by (rewrite Ho; done).
    destruct (PyStr.nonempty e); simpl; by rewrite app_nil_r.
Qed.

Lemma loop_iteration_errors rd a :
  error_lines (loop_iteration env rd a) = error_lines a ++ reads [snd rd].
Proof.
  unfold loop_iteration, reads. destruct rd as [o e]. simpl.
  destruct (PyStr.nonempty e) eqn:He.
  - rewrite filter_cons_True by done.
    destruct (PyStr.nonempty o); simpl; by rewrite ?observe_line_errors.
  - rewrite filter_cons_False by (rewrite He; done).
    destruct (PyStr.nonempty o); simpl; by rewrite ?observe_line_errors, app_nil_r.
Qed.

Lemma loop_iteration_state rd a :
  last_state (loop_iteration env rd a)
  = foldl (fun st l => match state_value env l with Some v => v | None => st end)
      (last_state a) (reads [fst rd]).
Proof.
  unfold loop_iteration, reads. destruct rd as [o e]. simpl.
  destruct (PyStr.nonempty o) eqn:Ho.
  - rewrite filter_cons_True by done.
    destruct (PyStr.nonempty e); simpl; by rewrite observe_line_state.
  - rewrite filter_cons_False by (rewrite Ho; done).
    destruct (PyStr.nonempty e); reflexivity.
Qed.

Lemma reads_app l k : reads (l ++ k) = reads l ++ reads k.
Proof. unfold reads. by rewrite filter_app, map_app. Qed.

Lemma reads_cons x l : reads (x :: l) = reads [x] ++ reads l.
Proof. apply (reads_app [x] l). Qed.

Lemma supervise_spec iterations : forall a,
  output_lines (supervise env iterations a)
  = output_lines a ++ reads (map fst iterations)
  /\ error_lines (supervise env iterations a)
     = error_lines a ++ reads (map snd iterations)
  /\ last_state (supervise env iterations a)
     = foldl (fun st l => match state_value env l with Some v => v | None => st end)
         (last_state a) (reads (map fst iterations)).
Proof.
  induction iterations as [|rd its IH]; intros a.
  - simpl. unfold reads. simpl. by rewrite !app_nil_r.
  - simpl. destruct (IH (loop_iteration env rd a)) as (H1 & H2 & H3).
    unfold supervise in *. rewrite H1, H2, H3.
    rewrite loop_iteration_output, loop_iteration_errors, loop_iteration_state.
    rewrite (reads_cons (fst rd) (map fst its)), (reads_cons (snd rd) (map snd its)).
    rewrite foldl_app, <- !app_assoc. done.
Qed.

Lemma splitlines_empty : PyStr.splitlines EmptyString = [].
Proof. reflexivity. Qed.

Lemma nonempty_false s : PyStr.nonempty s = false -> s = EmptyString.
Proof. by destruct s. Qed.

(** The lines accumulated from the output channel are the lines read by
    the loop followed by the drained ones; the state retained is the
    value of the last STATE message among the lines read by the loop. *)
Lemma tap_result_spec p :
  output_lines (tap_result env p) = loop_lines p ++ drained_lines p
  /\ error_lines (tap_result env p) = diagnostic_lines p
  /\ last_state (tap_result env p) = last_state_of env (loop_lines p).
Proof.
  unfold tap_result, drain, loop_lines, drained_lines, diagnostic_lines, last_state_of.
  destruct (supervise_spec (tp_iterations p) tap_empty) as (H1 & H2 & H3).
  cbn [output_lines error_lines last_state tap_logged].
  rewrite H1, H2, H3. simpl.
  split; [|split; [|reflexivity]].
  - destruct (PyStr.nonempty (fst (tp_rest p))) eqn:E; [reflexivity|].
    apply nonempty_false in E. rewrite E. simpl. by rewrite app_nil_r.
  - destruct (PyStr.nonempty (snd (tp_rest p))) eqn:E; [reflexivity|].
    apply nonempty_false in E. rewrite E. simpl. by rewrite app_nil_r.
Qed.

Lemma last_state_of_last pre l post v :
  state_value env l = Some v ->
  Forall (fun x => state_value env x = None) post ->
  last_state_of env (pre ++ l :: post) = v.
Proof.
  intros Hl Hpost. unfold last_state_of. rewrite foldl_app. simpl. rewrite Hl.
  generalize v. clear Hl.
  induction Hpost as [|x post Hx _ IH]; intros v0; simpl; [done|].
  rewrite Hx. apply IH.
Qed.

End Supervisor.

(** ** The orchestrator *)

Section Orchestrator.
Variable env : Env.

Lemma bind_ok {A B} (m : Run A) (k : A -> Run B) w b w' :
  bind m k w = (Ok b, w') -> exists a w0, m w = (Ok a, w0) /\ k a w0 = (Ok b, w').
Proof.
  unfold bind. destruct (m w) as [[a|e] w0]; [eauto|discriminate].
Qed.

Lemma try_except_ok {A} (m : Run A) (h : exn -> Run A) w a w' :
  try_except m h w = (Ok a, w') ->
  m w = (Ok a, w') \/ exists e w0, m w = (Raise e, w0) /\ h e w0 = (Ok a, w').
Proof.
  unfold try_except. destruct (m w) as [[a0|e] w0]; [intros [= <- <-]; by left | eauto].
Qed.

Lemma path_exists_true p w : path_exists p w = true <-> is_Some (files w !! p).
Proof. unfold path_exists. apply bool_decide_eq_true. Qed.

Lemma nonempty_append_r s t : PyStr.nonempty t = true -> PyStr.nonempty (s +:+ t) = true.
Proof. destruct s; [done|reflexivity]. Qed.

Lemma config_path_not_state base : config_path_of base <> state_path_of base.
Proof. unfold config_path_of, state_path_of. intros H%String.app_inj. discriminate. Qed.

Lemma catalog_path_not_state base : catalog_path_of base <> state_path_of base.
Proof. unfold catalog_path_of, state_path_of. intros H%String.app_inj. discriminate. Qed.

Lemma config_path_not_catalog base : config_path_of base <> catalog_path_of base.
Proof. unfold config_path_of, catalog_path_of. intros H%String.app_inj. discriminate. Qed.

Lemma write_file_ok p content w w' :
  write_file p content w = (Ok tt, w') -> files w' !! p = Some content.
Proof.
  unfold write_file. destruct (bool_decide _); [discriminate|].
  intros [= <-]. simpl. apply lookup_insert_eq.
Qed.

Lemma load_json_file_ok p w v w' :
  load_json_file env p w = (Ok v, w') -> is_Some (files w' !! p).
Proof.
  unfold load_json_file. intros (text & w0 & Hr & Hk)%bind_ok.
  unfold read_file in Hr. destruct (bool_decide _); [discriminate|].
  destruct (files w !! p) eqn:E; [|discriminate]. injection Hr as <- <-.
  destruct (json_loads env _); [|discriminate]. injection Hk as <- <-. eauto.
Qed.

Lemma step_prepare_ok u p cd w base w' :
  step_prepare u p cd w = (Ok base, w') ->
  exists t, dict_get "type" cd = Some (JStr t) /\ base = base_path u p t.
Proof.
  unfold step_prepare. intros ([] & w1 & _ & H)%bind_ok.
  apply bind_ok in H as ([] & w2 & _ & H).
  apply bind_ok in H as (ty & w3 & Hty & H).
  unfold subscript in Hty. destruct (dict_get "type" cd) as [v|]; [|discriminate].
  injection Hty as <- <-.
  destruct v; try discriminate.
  apply bind_ok in H as ([] & w4 & _ & H). injection H as <- <-. eauto.
Qed.

Lemma step_write_config_ok config_path cd w w' :
  step_write_config env config_path cd w = (Ok tt, w') ->
  is_Some (files w' !! config_path).
Proof.
  unfold step_write_config. intros ([] & w1 & _ & H)%bind_ok.
  apply bind_ok in H as ([] & w2 & _ & H).
  apply bind_ok in H as (cfg & w3 & _ & H).
  apply write_file_ok in H. eauto.
Qed.

Lemma logger_raise_not_ok {A} lv ev e w (a : A) w' :
  (logger lv ev;; raise e) w <> (Ok a, w').
Proof. discriminate. Qed.

Lemma step_catalog_ok config_path catalog_path id cfg w w' :
  step_catalog env config_path catalog_path id cfg w = (Ok tt, w') ->
  is_Some (files w' !! catalog_path)
  /\ exists client, storage_new env cfg = inr client.
Proof.
  unfold step_catalog. intros ([] & w1 & _ & H)%bind_ok.
  apply bind_ok in H as (cached & w2 & _ & H).
  apply bind_ok in H as ([] & w3 & _ & H).
  apply bind_ok in H as (catalog_data & w4 & Hload & H).
  apply try_except_ok in Hload as [Hload|(e & w0 & _ & Hh)];
    [|by apply logger_raise_not_ok in Hh].
  apply load_json_file_ok in Hload.
  frame_of H (fun _ : string => False) false false.
  split; [by apply (frame_exists _ _ _ _ _ F)|].
  apply try_except_ok in H as [H|(e & w0 & _ & Hh)];
    [|by apply logger_raise_not_ok in Hh].
  apply bind_ok in H as (client & w5 & Hnew & _).
  unfold new_storage in Hnew. destruct (storage_new env cfg); [discriminate|eauto].
Qed.

(** A setup that succeeds: the directory is the one of the connection's
    type; only the configuration and the catalog may have been written;
    both exist; the storage client can be built. *)
Lemma sync_setup_ok u p c cfg cd w base w1 :
  sync_setup env u p c cfg cd w = (Ok base, w1) ->
  (exists t, dict_get "type" cd = Some (JStr t) /\ base = base_path u p t)
  /\ frame (fun q => q = config_path_of base \/ q = catalog_path_of base)
       true false w w1
  /\ path_exists (config_path_of base) w1 = true
  /\ path_exists (catalog_path_of base) w1 = true
  /\ exists client, storage_new env cfg = inr client.
Proof.
  intros H. unfold sync_setup in H.
  apply bind_ok in H as (base' & w2 & Hprep & H).
  apply bind_ok in H as ([] & w3 & Hcfg & H).
  apply bind_ok in H as ([] & w4 & Hval & H).
  apply bind_ok in H as ([] & w5 & Hcat & H).
  apply bind_ok in H as (initial_state & w6 & Hinit & H).
  injection H as -> ->.
  frame_of Hprep (fun q => q = config_path_of base \/ q = catalog_path_of base) true false.
  frame_of Hcfg (fun q => q = config_path_of base \/ q = catalog_path_of base) true false.
  frame_of Hval (fun q => q = config_path_of base \/ q = catalog_path_of base) true false.
  frame_of Hcat (fun q => q = config_path_of base \/ q = catalog_path_of base) true false.
  frame_of Hinit (fun q => q = config_path_of base \/ q = catalog_path_of base) true false.
  apply step_write_config_ok in Hcfg.
  apply step_catalog_ok in Hcat as [Hcat Hnew].
  split; [by apply step_prepare_ok in Hprep|].
  split; [exact (frame_trans _ _ _ _ _ _ F (frame_trans _ _ _ _ _ _ F0
           (frame_trans _ _ _ _ _ _ F1 (frame_trans _ _ _ _ _ _ F2 F3))))|].
  split; [|split; [|exact Hnew]].
  - apply path_exists_true.
    apply (frame_exists _ _ _ _ _ F3), (frame_exists _ _ _ _ _ F2),
      (frame_exists _ _ _ _ _ F1). exact Hcfg.
  - apply path_exists_true. apply (frame_exists _ _ _ _ _ F3). exact Hcat.
Qed.

(** The extraction once the configuration and the catalog exist. *)
Lemma run_tap_spec config_path catalog_path state_path w :
  path_exists config_path w = true ->
  path_exists catalog_path w = true ->
  exists w',
    run_tap_woocommerce env config_path (Some catalog_path) (Some state_path) w
    = (tap_outcome env
         (popen_tap env
            (tap_command config_path (Some catalog_path) (Some state_path) w)
            (files w)), w').
Proof.
  intros Hcfg Hcat.
  unfold run_tap_woocommerce. unfold bind at 1, gets at 1. rewrite Hcfg.
  cbn [negb]. unfold try_except, bind at 1, gets at 1. rewrite Hcat.
  rewrite andb_false_r. unfold bind at 1, ret at 1, bind at 1, gets at 1.
  unfold bind at 1.
  assert (Hlog : exists l,
    (if PyStr.nonempty state_path
     then let* there := gets (path_exists state_path) in
          logger INFO (if there : bool then UsingStateFile state_path
                       else StateFileMissing state_path)
     else ret tt) w = (Ok tt, add_log l w)).
  { destruct (PyStr.nonempty state_path).
    - eexists. reflexivity.
    - exists []. unfold ret, add_log. destruct w. simpl. by rewrite app_nil_r. }
  destruct Hlog as [l ->].
  unfold bind at 1, popen. cbn [files add_log].
  destruct (popen_tap env _ (files w)) as [e|proc]; cbn [tap_outcome].
  - eexists. reflexivity.
  - unfold bind at 1, modify at 1.
    destruct (tp_returncode proc =? 0)%Z; cbn; eexists; reflexivity.
Qed.

Lemma sound_sync_extract S D u p c cfg base :
  sound S D true (sync_extract env u p c cfg base).
Proof. unfold sync_extract. sound_auto. Qed.

Lemma chunks_of_nil : chunks_of [] = [].
Proof. reflexivity. Qed.

(** Steps 6 to 8 when the extractor exits with code 0: the rows and the
    counts are those of [process_lines] on the accumulated lines; the
    chunks handed to the storage are the chunks of these rows. *)
Lemma sync_extract_ok u p c cfg base w1 proc client :
  path_exists (config_path_of base) w1 = true ->
  path_exists (catalog_path_of base) w1 = true ->
  storage_new env cfg = inr client ->
  popen_tap env
    (tap_command (config_path_of base) (Some (catalog_path_of base))
       (Some (state_path_of base)) w1) (files w1) = inr proc ->
  tp_returncode proc = 0%Z ->
  let a := tap_result env proc in
  let pa := process_lines env u p c 0 (output_lines a) pa_empty in
  exists w2,
    sync_extract env u p c cfg base w1
    = (Ok (pa_records pa, pa_counts pa, last_state a), w2)
    /\ frame (fun _ => False) false true w1 w2
    /\ inserted_chunks (db_calls w2)
       = inserted_chunks (db_calls w1) ++ chunks_of (pa_records pa).
Proof.
  intros Hcfg Hcat Hnew Hpopen Hrc a pa.
  destruct (run_tap_spec _ _ (state_path_of base) w1 Hcfg Hcat) as (wa & Hrun).
  rewrite Hpopen in Hrun. cbn [tap_outcome] in Hrun. rewrite Hrc in Hrun.
  cbn [Z.eqb] in Hrun. fold a in Hrun.
  frame_of Hrun (fun _ : string => False) false false.
  assert (exists w2, sync_extract env u p c cfg base w1
            = (Ok (pa_records pa, pa_counts pa, last_state a), w2)
          /\ inserted_chunks (db_calls w2)
             = inserted_chunks (db_calls w1) ++ chunks_of (pa_records pa))
    as (w2 & Hex & Hins).
  { unfold sync_extract. unfold bind at 1. rewrite Hrun.
    unfold bind at 1, logger at 1, modify at 1.
    unfold bind at 1, logger at 1, modify at 1.
    unfold bind at 1.
    match goal with |- context [process_tap_output env ?ls u p c ?w0] =>
      destruct (process_tap_output_returns env ls u p c w0)
        as (wb & -> & _ & _ & _ & Hdb & _ & _ & _) end.
    fold pa. unfold bind at 1, logger at 1, modify at 1.
    unfold bind at 1, step_persist.
    unfold bind at 1, logger at 1, modify at 1.
    cbn [db_calls add_log] in Hdb.
    destruct (pa_records pa) as [|r0 rs] eqn:Erec.
    - cbn. eexists. split; [reflexivity|]. cbn [db_calls add_log].
      rewrite Hdb, (frame_inserted _ _ _ _ _ F eq_refl).
      rewrite ?chunks_of_nil, ?app_nil_r. reflexivity.
    - unfold bind at 1, new_storage. rewrite Hnew. unfold ret at 1.
      unfold bind at 1.
      match goal with |- context [insert_records_batch env ?rs0 client ?w0] =>
        destruct (insert_records_batch_spec env rs0 client w0)
          as (wc & -> & _ & _ & _ & _ & _ & Hc) end.
      cbn. eexists. split; [reflexivity|]. cbn [db_calls add_log].
      rewrite Hc. cbn [db_calls add_log].
      rewrite inserted_chunks_app, inserted_chunks_inserts, Hdb,
        (frame_inserted _ _ _ _ _ F eq_refl). reflexivity. }
  exists w2. split; [exact Hex|]. split; [|exact Hins].
  exact (sound_sync_extract _ _ _ _ _ _ _ _ _ _ Hex).
Qed.

(** Steps 6 to 8 when the extraction fails: the failure propagates. *)
Lemma sync_extract_raises u p c cfg base w1 e :
  path_exists (config_path_of base) w1 = true ->
  path_exists (catalog_path_of base) w1 = true ->
  tap_outcome env
    (popen_tap env
       (tap_command (config_path_of base) (Some (catalog_path_of base))
          (Some (state_path_of base)) w1) (files w1)) = Raise e ->
  exists w2,
    sync_extract env u p c cfg base w1 = (Raise e, w2)
    /\ frame (fun _ => False) false false w1 w2.
Proof.
  intros Hcfg Hcat Hout.
  destruct (run_tap_spec _ _ (state_path_of base) w1 Hcfg Hcat) as (wa & Hrun).
  rewrite Hout in Hrun.
  frame_of Hrun (fun _ : string => False) false false.
  exists wa. split; [|exact F].
  unfold sync_extract, bind at 1. by rewrite Hrun.
Qed.

End Orchestrator.

(** ** The run after its setup *)

Section Run.
Variable env : Env.

Lemma save_last_state_falsy state_path v w :
  truthy v = false ->
  exists w',
    save_last_state env state_path v w = (Ok tt, w')
    /\ files w' = files w
    /\ In (INFO, NoFinalState) (log w').
Proof.
  intros Hv. unfold save_last_state. rewrite Hv.
  eexists. split; [reflexivity|]. split; [reflexivity|].
  cbn. rewrite !in_app_iff. right. by left.
Qed.

Lemma save_last_state_written state_path v w :
  truthy v = true -> state_path ∉ deny_write w ->
  exists w',
    save_last_state env state_path v w = (Ok tt, w')
    /\ files w' = <[state_path := json_dump env v]> (files w)
    /\ In (INFO, StateSaved state_path) (log w').
Proof.
  intros Hv Hw. unfold save_last_state. rewrite Hv.
  unfold bind at 1, logger at 1, modify at 1, try_except, bind at 1, write_file.
  cbn [deny_write add_log]. rewrite bool_decide_eq_false_2 by exact Hw.
  eexists. split; [reflexivity|]. split; [reflexivity|].
  cbn. rewrite !in_app_iff. right. by left.
Qed.

Lemma save_last_state_denied state_path v w :
  truthy v = true -> state_path ∈ deny_write w ->
  exists w',
    save_last_state env state_path v w = (Ok tt, w')
    /\ files w' = files w
    /\ In (ERROR, StateSaveError state_path (exn_str (permission_denied state_path)))
         (log w').
Proof.
  intros Hv Hw. unfold save_last_state. rewrite Hv.
  unfold bind at 1, logger at 1, modify at 1, try_except, bind at 1, write_file.
  cbn [deny_write add_log]. rewrite bool_decide_eq_true_2 by exact Hw.
  eexists. split; [reflexivity|]. split; [reflexivity|].
  cbn. rewrite !in_app_iff. right. by left.
Qed.

(** Step 9 never raises. *)
Lemma save_last_state_returns state_path v w :
  exists w', save_last_state env state_path v w = (Ok tt, w').
Proof.
  destruct (truthy v) eqn:Hv.
  - destruct (decide (state_path ∈ deny_write w)) as [Hw|Hw].
    + destruct (save_last_state_denied state_path v w Hv Hw) as (w' & H & _). eauto.
    + destruct (save_last_state_written state_path v w Hv Hw) as (w' & H & _). eauto.
  - destruct (save_last_state_falsy state_path v w Hv) as (w' & H & _). eauto.
Qed.

(** The run from the end of the setup on. *)
Lemma sync_connection_after_setup u p c cfg cd w base w1 :
  sync_setup env u p c cfg cd w = (Ok base, w1) ->
  sync_connection env u p c cfg cd w
  = match sync_extract env u p c cfg base w1 with
    | (Ok (records, stream_counts, last_state), w2) =>
        match save_last_state env (state_path_of base) last_state w2 with
        | (Ok _, w3) =>
            (Ok {| message := "Sync concluído com sucesso";
                   streams := stream_counts;
                   total_records_processed := length records;
                   elapsed_time_seconds := elapsed_seconds env |}, w3)
        | (Raise e, w3) => (Raise e, add_log [(ERROR, SyncError (exn_str e))] w3)
        end
    | (Raise e, w2) => (Raise e, add_log [(ERROR, SyncError (exn_str e))] w2)
    end.
Proof.
  intros H. unfold sync_connection, sync_body, try_except. unfold bind at 1.
  rewrite H. unfold bind at 1.
  destruct (sync_extract env u p c cfg base w1) as [[[[records sc] ls]|e] w2];
    [|reflexivity].
  unfold bind at 1.
  destruct (save_last_state env (state_path_of base) ls w2) as [[[]|e] w3];
    reflexivity.
Qed.

(** The setup leaves the state file as it was. *)
Lemma sync_setup_keeps_state u p c cfg cd w base w1 :
  sync_setup env u p c cfg cd w = (Ok base, w1) ->
  files w1 !! state_path_of base = files w !! state_path_of base
  /\ deny_write w1 = deny_write w.
Proof.
  intros H. destruct (sync_setup_ok env u p c cfg cd w base w1 H) as (_ & F & _).
  split; [|apply (frame_deny_write _ _ _ _ _ F)].
  apply (frame_files _ _ _ _ _ F). intros [E|E]; symmetry in E.
  - by apply config_path_not_state in E.
  - by apply catalog_path_not_state in E.
Qed.

(** A non-zero exit code after a successful setup. *)
Lemma sync_connection_extractor_failure
    (user_id project_id connection_id : string) (supabase_config : SupabaseConfig)
    (connection_data : pydict) (w : World) (base : string) (w1 : World)
    (proc : TapProcess) :
  sync_setup env user_id project_id connection_id supabase_config connection_data w
  = (Ok base, w1) ->
  popen_tap env
    (tap_command (config_path_of base) (Some (catalog_path_of base))
       (Some (state_path_of base)) w1) (files w1) = inr proc ->
  tp_returncode proc <> 0%Z ->
  exists w',
    sync_connection env user_id project_id connection_id supabase_config
      connection_data w
    = (Raise (Exn RuntimeError
                ("Falha ao executar tap: Tap falhou com código "
                 +:+ PyStr.str_of_int (tp_returncode proc) +:+ ": "
                 +:+ PyStr.join PyStr.newline (diagnostic_lines proc))), w')
    /\ files w' !! state_path_of base = files w !! state_path_of base.
Proof.
  intros Hsetup Hpopen Hrc.
  destruct (sync_setup_ok env _ _ _ _ _ _ _ _ Hsetup) as (_ & _ & Hcfg & Hcat & _).
  destruct (sync_setup_keeps_state _ _ _ _ _ _ _ _ Hsetup) as [Hst _].
  destruct (sync_extract_raises env user_id project_id connection_id supabase_config
              base w1
              (Exn RuntimeError
                 ("Falha ao executar tap: "
                  +:+ tap_failure_message (tp_returncode proc)
                        (error_lines (tap_result env proc)))) Hcfg Hcat)
    as (w2 & Hex & F).
  { rewrite Hpopen. cbn [tap_outcome].
    destruct (tp_returncode proc =? 0)%Z eqn:E; [|reflexivity].
    apply Z.eqb_eq in E. contradiction. }
  rewrite (sync_connection_after_setup _ _ _ _ _ _ _ _ Hsetup), Hex.
  destruct (tap_result_spec env proc) as (_ & -> & _).
  eexists. split; [reflexivity|].
  cbn [files add_log]. rewrite <- Hst.
  apply (frame_files _ _ _ _ _ F). tauto.
Qed.

(** C1.  When the setup of a run has succeeded and the extractor
    process, once started, exits with a non-zero code, [sync_connection]
    raises a RuntimeError whose message carries the exit code and the
    lines read from the diagnostic channel, and the state file is what it
    was before the run. *)
Theorem extractor_failure_keeps_checkpoint
    (user_id project_id connection_id : string) (supabase_config : SupabaseConfig)
    (connection_data : pydict) (w : World) (base : string) (w1 : World)
    (proc : TapProcess) :
  sync_setup env user_id project_id connection_id supabase_config connection_data w
  = (Ok base, w1) ->
  popen_tap env
    (tap_command (config_path_of base) (Some (catalog_path_of base))
       (Some (state_path_of base)) w1) (files w1) = inr proc ->
  tp_returncode proc <> 0%Z ->
  exists w',
    sync_connection env user_id project_id connection_id supabase_config
      connection_data w
    = (Raise (Exn RuntimeError
                ("Falha ao executar tap: Tap falhou com código "
                 +:+ PyStr.str_of_int (tp_returncode proc) +:+ ": "
                 +:+ PyStr.join PyStr.newline (diagnostic_lines proc))), w')
    /\ files w' !! state_path_of base = files w !! state_path_of base.
Proof. apply sync_connection_extractor_failure. Qed.

(** The state retained by the loop when the last STATE message it read
    carries [v]. *)
Lemma last_state_observed proc pre l post v :
  loop_lines proc = pre ++ l :: post ->
  state_value env l = Some v ->
  Forall (fun x => state_value env x = None) post ->
  last_state (tap_result env proc) = v.
Proof.
  intros Hl Hv Hpost. destruct (tap_result_spec env proc) as (_ & _ & ->).
  rewrite Hl. by apply last_state_of_last.
Qed.

(** A run whose setup succeeded and whose extractor exits with code 0
    returns a summary, whatever happens to the state file. *)
Lemma sync_connection_completes u p c cfg cd w base w1 proc :
  sync_setup env u p c cfg cd w = (Ok base, w1) ->
  popen_tap env
    (tap_command (config_path_of base) (Some (catalog_path_of base))
       (Some (state_path_of base)) w1) (files w1) = inr proc ->
  tp_returncode proc = 0%Z ->
  let a := tap_result env proc in
  let pa := process_lines env u p c 0 (output_lines a) pa_empty in
  exists w2 w3,
    frame (fun _ => False) false true w1 w2
    /\ inserted_chunks (db_calls w2)
       = inserted_chunks (db_calls w1) ++ chunks_of (pa_records pa)
    /\ save_last_state env (state_path_of base) (last_state a) w2 = (Ok tt, w3)
    /\ sync_connection env u p c cfg cd w
       = (Ok {| message := "Sync concluído com sucesso";
                streams := pa_counts pa;
                total_records_processed := length (pa_records pa);
                elapsed_time_seconds := elapsed_seconds env |}, w3).
Proof.
  intros Hsetup Hpopen Hrc a pa.
  destruct (sync_setup_ok env _ _ _ _ _ _ _ _ Hsetup)
    as (_ & _ & Hcfg & Hcat & client & Hnew).
  destruct (sync_extract_ok env u p c cfg base w1 proc client
              Hcfg Hcat Hnew Hpopen Hrc) as (w2 & Hex & F & Hins).
  destruct (save_last_state_returns (state_path_of base) (last_state a) w2)
    as (w3 & Hsave).
  exists w2, w3. split; [exact F|]. split; [exact Hins|]. split; [exact Hsave|].
  rewrite (sync_connection_after_setup _ _ _ _ _ _ _ _ Hsetup), Hex.
  fold a. by rewrite Hsave.
Qed.

(** C2, amended.  When the setup of a run has succeeded, the extractor
    exits with code 0, the last STATE message read by the supervising
    loop carries a value V that is truthy, no STATE message is left in
    the output drained after the loop, and the state file can be written,
    the run returns its summary and the state file holds the text
    [json.dump] writes for V. *)
Theorem last_state_is_saved
    (user_id project_id connection_id : string) (supabase_config : SupabaseConfig)
    (connection_data : pydict) (w : World) (base : string) (w1 : World)
    (proc : TapProcess) (pre : list string) (l : string) (post : list string)
    (v : json) :
  sync_setup env user_id project_id connection_id supabase_config connection_data w
  = (Ok base, w1) ->
  popen_tap env
    (tap_command (config_path_of base) (Some (catalog_path_of base))
       (Some (state_path_of base)) w1) (files w1) = inr proc ->
  tp_returncode proc = 0%Z ->
  loop_lines proc = pre ++ l :: post ->
  state_value env l = Some v ->
  Forall (fun x => state_value env x = None) post ->
  Forall (fun x => state_value env x = None) (drained_lines proc) ->
  truthy v = true ->
  state_path_of base ∉ deny_write w ->
  exists summary w',
    sync_connection env user_id project_id connection_id supabase_config
      connection_data w = (Ok summary, w')
    /\ files w' !! state_path_of base = Some (json_dump env v).
Proof.
  intros Hsetup Hpopen Hrc Hl Hv Hpost _ Htruthy Hw.
  destruct (sync_connection_completes _ _ _ _ _ _ _ _ _ Hsetup Hpopen Hrc)
    as (w2 & w3 & F & _ & Hsave & Hrun).
  rewrite (last_state_observed proc pre l post v Hl Hv Hpost) in Hsave.
  destruct (sync_setup_keeps_state _ _ _ _ _ _ _ _ Hsetup) as [_ Hdw].
  destruct (save_last_state_written (state_path_of base) v w2 Htruthy)
    as (w3' & Hsave' & Hfiles & _).
  { rewrite (frame_deny_write _ _ _ _ _ F), Hdw. exact Hw. }
  rewrite Hsave' in Hsave. injection Hsave as <-.
  eexists _, w3'. split; [exact Hrun|].
  rewrite Hfiles. apply lookup_insert_eq.
Qed.


(** X26.  A failure to write the state file is logged and the run still
    returns its summary. *)
Lemma state_write_failure_is_not_fatal u p c cfg cd w base w1 proc :
  sync_setup env u p c cfg cd w = (Ok base, w1) ->
  popen_tap env
    (tap_command (config_path_of base) (Some (catalog_path_of base))
       (Some (state_path_of base)) w1) (files w1) = inr proc ->
  tp_returncode proc = 0%Z ->
  truthy (last_state (tap_result env proc)) = true ->
  state_path_of base ∈ deny_write w ->
  exists summary w',
    sync_connection env u p c cfg cd w = (Ok summary, w')
    /\ In (ERROR, StateSaveError (state_path_of base)
                   (exn_str (permission_denied (state_path_of base)))) (log w')
    /\ files w' !! state_path_of base = files w !! state_path_of base.
Proof.
  intros Hsetup Hpopen Hrc Htruthy Hw.
  destruct (sync_connection_completes _ _ _ _ _ _ _ _ _ Hsetup Hpopen Hrc)
    as (w2 & w3 & F & _ & Hsave & Hrun).
  destruct (sync_setup_keeps_state _ _ _ _ _ _ _ _ Hsetup) as [Hst Hdw].
  destruct (save_last_state_denied (state_path_of base) _ w2 Htruthy)
    as (w3' & Hsave' & Hfiles & Hlog).
  { rewrite (frame_deny_write _ _ _ _ _ F), Hdw. exact Hw. }
  rewrite Hsave' in Hsave. injection Hsave as <-.
  eexists _, w3'. split; [exact Hrun|]. split; [exact Hlog|].
  rewrite Hfiles, <- Hst. apply (frame_files _ _ _ _ _ F). tauto.
Qed.

Lemma sync_connection_setup_raises u p c cfg cd w e w1 :
  sync_setup env u p c cfg cd w = (Raise e, w1) ->
  sync_connection env u p c cfg cd w
  = (Raise e, add_log [(ERROR, SyncError (exn_str e))] w1).
Proof.
  intros H. unfold sync_connection, sync_body, try_except. unfold bind at 1.
  by rewrite H.
Qed.

(** A run that returns a summary: its setup succeeded, the extractor
    started and exited with code 0. *)
Lemma sync_connection_ok_inv u p c cfg cd w summary w' :
  sync_connection env u p c cfg cd w = (Ok summary, w') ->
  exists base w1 proc,
    sync_setup env u p c cfg cd w = (Ok base, w1)
    /\ popen_tap env
         (tap_command (config_path_of base) (Some (catalog_path_of base))
            (Some (state_path_of base)) w1) (files w1) = inr proc
    /\ tp_returncode proc = 0%Z.
Proof.
  intros H.
  destruct (sync_setup env u p c cfg cd w) as [[base|e] w1] eqn:Hsetup.
  2:{ rewrite (sync_connection_setup_raises _ _ _ _ _ _ _ _ Hsetup) in H.
      discriminate. }
  exists base, w1.
  destruct (sync_setup_ok env _ _ _ _ _ _ _ _ Hsetup) as (_ & _ & Hcfg & Hcat & _).
  rewrite (sync_connection_after_setup _ _ _ _ _ _ _ _ Hsetup) in H.
  destruct (popen_tap env _ (files w1)) as [e|proc] eqn:Hpopen.
  - destruct (sync_extract_raises env u p c cfg base w1 _ Hcfg Hcat
                (f_equal (tap_outcome env) Hpopen)) as (w2 & Hex & _).
    rewrite Hex in H. discriminate.
  - exists proc. split; [reflexivity|]. split; [reflexivity|].
    destruct (tp_returncode proc =? 0)%Z eqn:E; [by apply Z.eqb_eq|].
    assert (Hout : tap_outcome env (popen_tap env
              (tap_command (config_path_of base) (Some (catalog_path_of base))
                 (Some (state_path_of base)) w1) (files w1))
            = Raise (Exn RuntimeError
                 ("Falha ao executar tap: "
                  +:+ tap_failure_message (tp_returncode proc)
                        (error_lines (tap_result env proc))))).
    { rewrite Hpopen. cbn [tap_outcome]. by rewrite E. }
    destruct (sync_extract_raises env u p c cfg base w1 _ Hcfg Hcat Hout)
      as (w2 & Hex & _).
    rewrite Hex in H. discriminate.
Qed.

(** C9, amended.  For every run that returns a summary, the total it
    reports, the sum of its per-stream counts and the number of rows
    handed to the bulk insert are the number of output lines that are
    RECORD messages with a stream that can be a dictionary key: each such
    line yields exactly one row and one count, and no other line yields
    any. *)
Theorem summary_counts_the_rows
    (user_id project_id connection_id : string) (supabase_config : SupabaseConfig)
    (connection_data : pydict) (w : World) (summary : Summary) (w' : World) :
  sync_connection env user_id project_id connection_id supabase_config
    connection_data w = (Ok summary, w') ->
  exists base w1 proc,
    sync_setup env user_id project_id connection_id supabase_config
      connection_data w = (Ok base, w1)
    /\ popen_tap env
         (tap_command (config_path_of base) (Some (catalog_path_of base))
            (Some (state_path_of base)) w1) (files w1) = inr proc
    /\ let rows :=
         omap (row_of_line env user_id project_id connection_id)
           (loop_lines proc ++ drained_lines proc) in
       total_records_processed summary = length rows
       /\ counts_total (streams summary) = length rows
       /\ inserted_chunks (db_calls w')
          = inserted_chunks (db_calls w) ++ chunks_of rows
       /\ concat (chunks_of rows) = rows.
Proof.
  intros H.
  destruct (sync_connection_ok_inv _ _ _ _ _ _ _ _ H)
    as (base & w1 & proc & Hsetup & Hpopen & Hrc).
  exists base, w1, proc. split; [exact Hsetup|]. split; [exact Hpopen|].
  destruct (sync_connection_completes _ _ _ _ _ _ _ _ _ Hsetup Hpopen Hrc)
    as (w2 & w3 & F & Hins & Hsave & Hrun).
  destruct (tap_result_spec env proc) as (Hlines & _).
  pose proof (process_lines_records env user_id project_id connection_id
                (loop_lines proc ++ drained_lines proc) 0 pa_empty) as Hrec.
  cbn [pa_records pa_empty app] in Hrec.
  pose proof (process_lines_balance env user_id project_id connection_id
                (loop_lines proc ++ drained_lines proc) 0 pa_empty eq_refl) as Hbal.
  rewrite Hlines in Hrun, Hins. rewrite Hrec in Hrun, Hins, Hbal.
  rewrite Hrun in H. injection H as <- <-.
  cbv zeta. cbn [total_records_processed streams].
  split; [reflexivity|]. split; [exact Hbal|]. split; [|apply concat_chunks_of].
  destruct (sync_setup_ok env _ _ _ _ _ _ _ _ Hsetup) as (_ & F1 & _).
  pose proof (sound_save_last_state env (eq (state_path_of base)) false false
                _ _ eq_refl _ _ _ Hsave) as F3.
  rewrite (frame_inserted _ _ _ _ _ F3 eq_refl), Hins.
  by rewrite (frame_inserted _ _ _ _ _ F1 eq_refl).
Qed.

(** *** The cached catalog *)

Lemma bind_inv {A B} (m : Run A) (k : A -> Run B) w r w' :
  bind m k w = (r, w') ->
  (exists a w0, m w = (Ok a, w0) /\ k a w0 = (r, w'))
  \/ (exists e, m w = (Raise e, w') /\ r = Raise e).
Proof.
  unfold bind. destruct (m w) as [[a|e] w0]; [eauto|].
  intros [= <- <-]. eauto.
Qed.

Lemma path_exists_add_log p l w : path_exists p (add_log l w) = path_exists p w.
Proof. reflexivity. Qed.

(** With a catalog in place, step 5 spawns no discovery and writes no
    file. *)
Lemma step_catalog_cached config_path catalog_path id cfg w r w' :
  path_exists catalog_path w = true ->
  step_catalog env config_path catalog_path id cfg w = (r, w') ->
  frame (fun _ => False) false false w w'.
Proof.
  intros Hc H. unfold step_catalog in H.
  unfold bind at 1, logger at 1, modify at 1 in H.
  unfold bind at 1, gets at 1 in H.
  rewrite path_exists_add_log, Hc in H. cbn [negb] in H.
  frame_of H (fun _ : string => False) false false.
  eapply frame_trans; [|exact F]. apply frame_add_log.
Qed.

(** The setup of a connection whose catalog is cached: only the
    configuration may be written and no discovery is spawned. *)
Lemma sync_setup_cached u p c cfg cd t w r w1 :
  dict_get "type" cd = Some (JStr t) ->
  is_Some (files w !! catalog_path_of (base_path u p t)) ->
  sync_setup env u p c cfg cd w = (r, w1) ->
  frame (eq (config_path_of (base_path u p t))) false false w w1
  /\ (forall b, r = Ok b -> b = base_path u p t).
Proof.
  intros Hty Hc H. unfold sync_setup in H.
  apply bind_inv in H as [(base & w2 & Hprep & H)|(e & Hprep & ->)].
  2:{ split; [|discriminate]. frame_of Hprep (eq (config_path_of (base_path u p t))) false false. exact F. }
  frame_of Hprep (eq (config_path_of (base_path u p t))) false false.
  destruct (step_prepare_ok _ _ _ _ _ _ Hprep) as (t' & Hty' & ->).
  rewrite Hty in Hty'. injection Hty' as <-.
  apply bind_inv in H as [([] & w3 & Hcfg & H)|(e & Hcfg & ->)].
  2:{ split; [|discriminate].
      frame_of Hcfg (eq (config_path_of (base_path u p t))) false false.
      eapply frame_trans; eassumption. }
  frame_of Hcfg (eq (config_path_of (base_path u p t))) false false.
  apply bind_inv in H as [([] & w4 & Hval & H)|(e & Hval & ->)].
  2:{ split; [|discriminate].
      frame_of Hval (eq (config_path_of (base_path u p t))) false false.
      eapply frame_trans; [exact F|]. eapply frame_trans; eassumption. }
  frame_of Hval (eq (config_path_of (base_path u p t))) false false.
  assert (F2 : frame (eq (config_path_of (base_path u p t))) false false w w4).
  { eapply frame_trans; [exact F|]. eapply frame_trans; eassumption. }
  assert (Hc4 : path_exists (catalog_path_of (base_path u p t)) w4 = true).
  { apply path_exists_true. by apply (frame_exists _ _ _ _ _ F2). }
  apply bind_inv in H as [([] & w5 & Hcat & H)|(e & Hcat & ->)].
  2:{ split; [|discriminate].
      eapply frame_trans; [exact F2|].
      eapply frame_weaken; [| | |exact (step_catalog_cached _ _ _ _ _ _ _ Hc4 Hcat)];
        cbv beta; tauto. }
  assert (F3 : frame (eq (config_path_of (base_path u p t))) false false w4 w5).
  { eapply frame_weaken; [| | |exact (step_catalog_cached _ _ _ _ _ _ _ Hc4 Hcat)];
      cbv beta; tauto. }
  apply bind_inv in H as [(ist & w6 & Hinit & H)|(e & Hinit & ->)].
  2:{ split; [|discriminate].
      frame_of Hinit (eq (config_path_of (base_path u p t))) false false.
      eapply frame_trans; [exact F2|]. eapply frame_trans; eassumption. }
  frame_of Hinit (eq (config_path_of (base_path u p t))) false false.
  injection H as <- <-. split; [|by intros b [= <-]].
  eapply frame_trans; [exact F2|]. eapply frame_trans; eassumption.
Qed.

(** A run of a connection whose catalog is cached. *)
Lemma sync_connection_cached u p c cfg cd t w r w' :
  dict_get "type" cd = Some (JStr t) ->
  is_Some (files w !! catalog_path_of (base_path u p t)) ->
  sync_connection env u p c cfg cd w = (r, w') ->
  frame (fun q => q = config_path_of (base_path u p t)
                  \/ q = state_path_of (base_path u p t)) false true w w'.
Proof.
  intros Hty Hc H.
  destruct (sync_setup env u p c cfg cd w) as [[base|e] w1] eqn:Hsetup.
  - destruct (sync_setup_cached _ _ _ _ _ _ _ _ _ Hty Hc Hsetup) as [F Hb].
    rewrite (Hb base eq_refl) in *.
    rewrite (sync_connection_after_setup _ _ _ _ _ _ _ _ Hsetup) in H.
    destruct (sync_extract env u p c cfg (base_path u p t) w1)
      as [[[[records sc] ls]|e] w2] eqn:Hex.
    + pose proof (sound_sync_extract env
                    (fun q => q = config_path_of (base_path u p t)
                              \/ q = state_path_of (base_path u p t))
                    false _ _ _ _ _ _ _ _ Hex) as F2.
      destruct (save_last_state env (state_path_of (base_path u p t)) ls w2)
        as [[[]|e] w3] eqn:Hsave;
        frame_of Hsave (fun q => q = config_path_of (base_path u p t)
                                 \/ q = state_path_of (base_path u p t)) false true;
        injection H as <- <-;
        (eapply frame_trans; [eapply frame_weaken; [| | |exact F]; simpl; auto|]);
        (eapply frame_trans; [exact F2|]);
        [exact F0 | eapply frame_trans; [exact F0|apply frame_add_log]].
    + pose proof (sound_sync_extract env
                    (fun q => q = config_path_of (base_path u p t)
                              \/ q = state_path_of (base_path u p t))
                    false _ _ _ _ _ _ _ _ Hex) as F2.
      injection H as <- <-.
      eapply frame_trans; [eapply frame_weaken; [| | |exact F]; simpl; auto|].
      eapply frame_trans; [exact F2|apply frame_add_log].
  - destruct (sync_setup_cached _ _ _ _ _ _ _ _ _ Hty Hc Hsetup) as [F _].
    rewrite (sync_connection_setup_raises _ _ _ _ _ _ _ _ Hsetup) in H.
    injection H as <- <-.
    eapply frame_trans; [eapply frame_weaken; [| | |exact F]; simpl; auto|].
    apply frame_add_log.
Qed.

(** C6.  For every run of a connection whose catalog file already
    exists, no discovery process is spawned and the catalog file is left
    as it is; hence a run that spawns a discovery found no cached
    catalog. *)
Theorem cached_catalog_skips_discovery
    (user_id project_id connection_id : string) (supabase_config : SupabaseConfig)
    (connection_data : pydict) (connection_type : string)
    (w : World) (r : res Summary) (w' : World) :
  dict_get "type" connection_data = Some (JStr connection_type) ->
  sync_connection env user_id project_id connection_id supabase_config
    connection_data w = (r, w') ->
  let catalog_path := catalog_path_of (base_path user_id project_id connection_type) in
  (is_Some (files w !! catalog_path) ->
     discover_calls w' = discover_calls w
     /\ files w' !! catalog_path = files w !! catalog_path)
  /\ (discover_calls w' <> discover_calls w -> files w !! catalog_path = None).
Proof.
  intros Hty H catalog_path.
  assert (Hcached : is_Some (files w !! catalog_path) ->
            discover_calls w' = discover_calls w
            /\ files w' !! catalog_path = files w !! catalog_path).
  { intros Hc.
    pose proof (sync_connection_cached _ _ _ _ _ _ _ _ _ Hty Hc H) as F.
    split; [apply (frame_discover _ _ _ _ _ F eq_refl)|].
    apply (frame_files _ _ _ _ _ F). intros [E|E].
    - symmetry in E. by apply config_path_not_catalog in E.
    - by apply catalog_path_not_state in E. }
  split; [exact Hcached|].
  intros Hd. destruct (files w !! catalog_path) eqn:E; [|reflexivity].
  destruct Hcached as [Hsame _]; [eauto|]. contradiction.
Qed.

End Run.

(** ** The validator *)

Section Validator.
Variable env : Env.

Lemma dict_get_set k k' v d :
  dict_get k (dict_set k' v d) = if String.eqb k' k then Some v else dict_get k d.
Proof.
  induction d as [|[k0 v0] d IH]; simpl.
  - reflexivity.
  - destruct (String.eqb k0 k') eqn:E0; simpl.
    + apply String.eqb_eq in E0. subst k0.
      destruct (String.eqb k' k); reflexivity.
    + destruct (String.eqb k0 k) eqn:E1; [|exact IH].
      apply String.eqb_eq in E1. subst k0. by rewrite String.eqb_sym, E0.
Qed.

Lemma dict_mem_set k k' v d :
  dict_mem k d = true -> dict_mem k (dict_set k' v d) = true.
Proof.
  unfold dict_mem. rewrite dict_get_set. by destruct (String.eqb k' k).
Qed.

Lemma dict_mem_get k d v : dict_get k d = Some v -> dict_mem k d = true.
Proof. unfold dict_mem. by intros ->. Qed.

Lemma endswith_refl s : PyStr.endswith s s = true.
Proof. destruct s; cbn [PyStr.endswith]; by rewrite String.eqb_refl. Qed.

Lemma endswith_append s suf : PyStr.endswith (s +:+ suf) suf = true.
Proof.
  induction s as [|a s IH].
  - apply endswith_refl.
  - simpl. rewrite IH.
    match goal with |- (if ?b then _ else _) = _ => destruct b end; reflexivity.
Qed.

Lemma no_missing_fields config :
  dict_mem "site_url" config = true ->
  dict_mem "consumer_key" config = true ->
  dict_mem "consumer_secret" config = true ->
  dict_mem "start_date" config = true ->
  filter (fun field => negb (dict_mem field config)) required_fields = [].
Proof.
  intros H1 H2 H3 H4. unfold required_fields.
  rewrite !filter_cons, H1, H2, H3, H4. reflexivity.
Qed.

(** The validation of a well-formed configuration: the file is rewritten
    exactly when [start_date] does not end with Z. *)
Lemma validate_well_formed config_path w text config site_url start_date :
  files w !! config_path = Some text ->
  config_path ∉ deny_read w ->
  json_loads env text = Some (JDict config) ->
  dict_mem "consumer_key" config = true ->
  dict_mem "consumer_secret" config = true ->
  dict_get "site_url" config = Some (JStr site_url) ->
  PyStr.startswith site_url "http://" || PyStr.startswith site_url "https://" = true ->
  dict_get "start_date" config = Some (JStr start_date) ->
  exists w',
    validate_tap_config env config_path w
    = ((if PyStr.endswith start_date "Z" then Ok true
        else if bool_decide (config_path ∈ deny_write w) then Ok false
        else Ok true), w')
    /\ files w'
       = (if PyStr.endswith start_date "Z" then files w
          else if bool_decide (config_path ∈ deny_write w) then files w
          else <[config_path :=
                   json_dump env
                     (JDict (dict_set "start_date" (JStr (start_date +:+ "Z")) config))]>
                 (files w))
    /\ deny_read w' = deny_read w /\ deny_write w' = deny_write w.
Proof.
  intros Hfile Hread Hloads Hck Hcs Hsite Hscheme Hdate.
  unfold validate_tap_config. unfold bind at 1, gets at 1.
  assert (Hex : path_exists config_path w = true).
  { apply bool_decide_eq_true. rewrite Hfile. eauto. }
  rewrite Hex. cbn [negb]. unfold try_except, bind at 1, read_file.
  rewrite bool_decide_eq_false_2 by exact Hread. rewrite Hfile, Hloads.
  rewrite (no_missing_fields config (dict_mem_get _ _ _ Hsite) Hck Hcs
             (dict_mem_get _ _ _ Hdate)).
  unfold bind at 1, subscript. rewrite Hsite. unfold ret at 1.
  rewrite Hscheme. cbn [negb].
  unfold bind at 1. rewrite Hdate. unfold ret at 1.
  destruct (PyStr.endswith start_date "Z"); cbn [negb].
  - eexists. split; [reflexivity|]. by repeat split.
  - unfold bind at 1, bind at 1, logger at 1, modify at 1.
    unfold bind at 1, logger at 1, modify at 1.
    unfold write_file. cbn [deny_write add_log].
    destruct (bool_decide (config_path ∈ deny_write w)).
    + eexists. split; [reflexivity|]. by repeat split.
    + eexists. split; [reflexivity|]. by repeat split.
Qed.

(** C7.  For a configuration that is well formed but for a
    [start_date] that does not end with Z, [validate_tap_config] returns
    True after it has rewritten the file with Z appended to [start_date];
    when the rewritten file reads back as what was written, a second
    validation returns True and leaves the file as it is. *)
Theorem validate_appends_utc_marker
    (config_path : string) (w : World) (text : string) (config : pydict)
    (site_url start_date : string) :
  files w !! config_path = Some text ->
  config_path ∉ deny_read w ->
  config_path ∉ deny_write w ->
  json_loads env text = Some (JDict config) ->
  dict_mem "consumer_key" config = true ->
  dict_mem "consumer_secret" config = true ->
  dict_get "site_url" config = Some (JStr site_url) ->
  PyStr.startswith site_url "http://" || PyStr.startswith site_url "https://" = true ->
  dict_get "start_date" config = Some (JStr start_date) ->
  PyStr.endswith start_date "Z" = false ->
  let corrected := dict_set "start_date" (JStr (start_date +:+ "Z")) config in
  json_loads env (json_dump env (JDict corrected)) = Some (JDict corrected) ->
  exists w1,
    validate_tap_config env config_path w = (Ok true, w1)
    /\ files w1 = <[config_path := json_dump env (JDict corrected)]> (files w)
    /\ dict_get "start_date" corrected = Some (JStr (start_date +:+ "Z"))
    /\ exists w2,
         validate_tap_config env config_path w1 = (Ok true, w2)
         /\ files w2 = files w1.
Proof.
  intros Hfile Hread Hwrite Hloads Hck Hcs Hsite Hscheme Hdate Hz corrected Hround.
  destruct (validate_well_formed config_path w text config site_url start_date
              Hfile Hread Hloads Hck Hcs Hsite Hscheme Hdate)
    as (w1 & Hrun & Hfiles & Hdr & Hdw).
  rewrite Hz in Hrun, Hfiles.
  rewrite bool_decide_eq_false_2 in Hrun, Hfiles by exact Hwrite.
  assert (Hdate' : dict_get "start_date" corrected = Some (JStr (start_date +:+ "Z"))).
  { unfold corrected. rewrite dict_get_set. reflexivity. }
  exists w1. split; [exact Hrun|]. split; [exact Hfiles|]. split; [exact Hdate'|].
  destruct (validate_well_formed config_path w1
              (json_dump env (JDict corrected)) corrected site_url (start_date +:+ "Z"))
    as (w2 & Hrun2 & Hfiles2 & _).
  - rewrite Hfiles. apply lookup_insert_eq.
  - by rewrite Hdr.
  - exact Hround.
  - by apply dict_mem_set.
  - by apply dict_mem_set.
  - unfold corrected. rewrite dict_get_set. exact Hsite.
  - exact Hscheme.
  - exact Hdate'.
  - rewrite endswith_append in Hrun2, Hfiles2. eauto.
Qed.

End Validator.

(** ** The properties on concrete runs *)

Lemma pair_of_fst {A B} (x : A * B) (a : A) : x.1 = a -> x = (a, x.2).
Proof. destruct x. simpl. by intros ->. Qed.


(** The extractor exits with code 1 after two diagnostic lines; a
    checkpoint of an earlier run is on disk. *)
Lemma extractor_failure_keeps_checkpoint_witness :
  Scenario.setup (Scenario.env_running Scenario.failing_tap)
    (Scenario.world Scenario.prior_files)
  = (Ok Scenario.base,
     (Scenario.setup (Scenario.env_running Scenario.failing_tap)
        (Scenario.world Scenario.prior_files)).2)
  /\ tp_returncode Scenario.failing_tap <> 0%Z
  /\ exists w',
       Scenario.run (Scenario.env_running Scenario.failing_tap)
         (Scenario.world Scenario.prior_files)
       = (Raise (Exn RuntimeError
                   ("Falha ao executar tap: Tap falhou com código "
                    +:+ PyStr.str_of_int 1 +:+ ": "
                    +:+ PyStr.join PyStr.newline
                          (diagnostic_lines Scenario.failing_tap))), w')
       /\ files w' !! Scenario.state_path = Some Scenario.prior_state.
Proof.
  assert (H1 : Scenario.setup (Scenario.env_running Scenario.failing_tap)
                 (Scenario.world Scenario.prior_files)
               = (Ok Scenario.base,
                  (Scenario.setup (Scenario.env_running Scenario.failing_tap)
                     (Scenario.world Scenario.prior_files)).2))
    by (apply pair_of_fst; vm_compute; reflexivity).
  assert (H3 : tp_returncode Scenario.failing_tap <> 0%Z) by discriminate.
  split; [exact H1|]. split; [exact H3|].
  destruct (extractor_failure_keeps_checkpoint
              (Scenario.env_running Scenario.failing_tap) "u1" "p1" "c1"
              Scenario.supabase_config Scenario.connection_data
              (Scenario.world Scenario.prior_files) Scenario.base _
              Scenario.failing_tap H1 eq_refl H3) as (w' & Hrun & Hfiles).
  exists w'. split; [exact Hrun|].
  unfold Scenario.state_path. rewrite Hfiles. vm_compute. reflexivity.
Defined.

(** The extractor emits two records and a checkpoint and exits with
    code 0: the state file holds the checkpoint. *)
Lemma last_state_is_saved_witness :
  Scenario.setup (Scenario.env_running Scenario.healthy_tap) (Scenario.world ∅)
  = (Ok Scenario.base,
     (Scenario.setup (Scenario.env_running Scenario.healthy_tap) (Scenario.world ∅)).2)
  /\ tp_returncode Scenario.healthy_tap = 0%Z
  /\ loop_lines Scenario.healthy_tap
     = [Scenario.schema_line; Scenario.record1_line; Scenario.record2_line]
       ++ Scenario.state_line :: []
  /\ state_value (Scenario.env_running Scenario.healthy_tap) Scenario.state_line
     = Some Scenario.state_7
  /\ truthy Scenario.state_7 = true
  /\ exists summary w',
       Scenario.run (Scenario.env_running Scenario.healthy_tap) (Scenario.world ∅)
       = (Ok summary, w')
       /\ files w' !! Scenario.state_path = Some (Json.dump Scenario.state_7).
Proof.
  assert (H1 : Scenario.setup (Scenario.env_running Scenario.healthy_tap)
                 (Scenario.world ∅)
               = (Ok Scenario.base,
                  (Scenario.setup (Scenario.env_running Scenario.healthy_tap)
                     (Scenario.world ∅)).2))
    by (apply pair_of_fst; vm_compute; reflexivity).
  assert (H4 : loop_lines Scenario.healthy_tap
               = [Scenario.schema_line; Scenario.record1_line; Scenario.record2_line]
                 ++ Scenario.state_line :: [])
    by (vm_compute; reflexivity).
  assert (H5 : state_value (Scenario.env_running Scenario.healthy_tap)
                 Scenario.state_line = Some Scenario.state_7)
    by (vm_compute; reflexivity).
  assert (H7 : Forall (fun x => state_value (Scenario.env_running Scenario.healthy_tap) x
                                = None) (drained_lines Scenario.healthy_tap))
    by (replace (drained_lines Scenario.healthy_tap) with (@nil string)
          by (vm_compute; reflexivity); constructor).
  repeat (split; [first [exact H1 | exact H4 | exact H5 | reflexivity]|]).
  exact (last_state_is_saved (Scenario.env_running Scenario.healthy_tap)
           "u1" "p1" "c1" Scenario.supabase_config Scenario.connection_data
           (Scenario.world ∅) Scenario.base _ Scenario.healthy_tap _ _ _ _
           H1 eq_refl eq_refl H4 H5 (Forall_nil_2 _) H7 eq_refl
           (not_elem_of_empty _)).
Defined.

(** A counterexample to C2 as stated: the last STATE message carries the
    empty object, the extractor exits with code 0 and the run succeeds,
    yet the state file still holds the checkpoint of the earlier run, not
    the value of the message. *)
Lemma last_state_empty_object_not_saved :
  tp_returncode Scenario.empty_state_tap = 0%Z
  /\ loop_lines Scenario.empty_state_tap
     = [Scenario.record1_line; Scenario.empty_state_line]
  /\ drained_lines Scenario.empty_state_tap = []
  /\ state_value (Scenario.env_running Scenario.empty_state_tap)
       Scenario.empty_state_line = Some (JDict [])
  /\ (exists summary,
        (Scenario.run (Scenario.env_running Scenario.empty_state_tap)
           (Scenario.world Scenario.prior_files)).1 = Ok summary)
  /\ files (Scenario.run (Scenario.env_running Scenario.empty_state_tap)
              (Scenario.world Scenario.prior_files)).2 !! Scenario.state_path
     = Some Scenario.prior_state
  /\ files (Scenario.run (Scenario.env_running Scenario.empty_state_tap)
              (Scenario.world Scenario.prior_files)).2 !! Scenario.state_path
     <> Some (Json.dump (JDict [])).
Proof.
  repeat (split; [vm_compute; reflexivity|]).
  split; [eexists; vm_compute; reflexivity|].
  split; [vm_compute; reflexivity|]. vm_compute. discriminate.
Qed.


(** Three RECORD lines of the stream orders among three lines that are
    malformed or of an unknown type. *)
Lemma process_tap_output_orders_among_malformed_witness :
  Forall (fun l => record_line_for Scenario.env "orders" l = true
                   \/ malformed_or_unknown Scenario.env l = true)
    Scenario.orders_lines
  /\ exists records stream_counts w',
       process_tap_output Scenario.env Scenario.orders_lines "u1" "p1" "c1"
         (Scenario.world ∅) = (Ok (records, stream_counts), w')
       /\ counts_get (JStr "orders") stream_counts = 3
       /\ stream_counts = [(JStr "orders", 3)]
       /\ length records = 3.
Proof.
  assert (H : Forall (fun l => record_line_for Scenario.env "orders" l = true
                               \/ malformed_or_unknown Scenario.env l = true)
                Scenario.orders_lines).
  { unfold Scenario.orders_lines.
    repeat (apply Forall_cons_2;
            [first [left; vm_compute; reflexivity | right; vm_compute; reflexivity]|]).
    apply Forall_nil_2. }
  split; [exact H|].
  destruct (process_tap_output_orders_among_malformed Scenario.env "u1" "p1" "c1"
              Scenario.orders_lines (Scenario.world ∅) H)
    as (records & sc & w' & Hrun & Hget & Hsc & _ & Hlen & _).
  assert (Hn : length (filter (fun l => record_line_for Scenario.env "orders" l = true)
                         Scenario.orders_lines) = 3)
    by (vm_compute; reflexivity).
  rewrite Hn in Hget, Hsc, Hlen.
  exists records, sc, w'. repeat split; assumption.
Defined.

(** 1200 records: three calls of sizes 500, 500 and 200. *)
Lemma insert_records_batch_chunks_witness :
  length (replicate 1200 Scenario.one_row) = 1200
  /\ map length (chunks_of (replicate 1200 Scenario.one_row)) = [500; 500; 200]
  /\ exists ok w',
       insert_records_batch Scenario.env (replicate 1200 Scenario.one_row)
         Scenario.client (Scenario.world ∅) = (Ok ok, w')
       /\ map length (inserted_chunks (db_calls w')) = [500; 500; 200].
Proof.
  assert (H : length (replicate 1200 Scenario.one_row) = 1200)
    by apply length_replicate.
  destruct (insert_records_batch_chunks Scenario.env
              (replicate 1200 Scenario.one_row) Scenario.client (Scenario.world ∅))
    as (ok & w' & Hrun & Hcalls & _ & _ & _ & Hsizes).
  split; [exact H|]. split; [exact (Hsizes H)|].
  exists ok, w'. split; [exact Hrun|].
  rewrite Hcalls. exact (Hsizes H).
Defined.

(** The catalog is cached: the run spawns no discovery. *)
Lemma cached_catalog_skips_discovery_witness :
  dict_get "type" Scenario.connection_data = Some (JStr "woocommerce")
  /\ is_Some (files (Scenario.world Scenario.cached_files) !! Scenario.catalog_path)
  /\ discover_calls
       (Scenario.run (Scenario.env_running Scenario.healthy_tap)
          (Scenario.world Scenario.cached_files)).2 = []
  /\ files (Scenario.run (Scenario.env_running Scenario.healthy_tap)
              (Scenario.world Scenario.cached_files)).2 !! Scenario.catalog_path
     = Some Scenario.catalog_text.
Proof.
  assert (H1 : dict_get "type" Scenario.connection_data = Some (JStr "woocommerce"))
    by reflexivity.
  assert (H2 : is_Some (files (Scenario.world Scenario.cached_files)
                          !! Scenario.catalog_path))
    by (exists Scenario.catalog_text; vm_compute; reflexivity).
  destruct (cached_catalog_skips_discovery
              (Scenario.env_running Scenario.healthy_tap) "u1" "p1" "c1"
              Scenario.supabase_config Scenario.connection_data "woocommerce"
              (Scenario.world Scenario.cached_files) _ _ H1
              (surjective_pairing
                 (Scenario.run (Scenario.env_running Scenario.healthy_tap)
                    (Scenario.world Scenario.cached_files))))
    as [Hcached _].
  destruct (Hcached H2) as [Hd Hf].
  split; [exact H1|]. split; [exact H2|]. split.
  - rewrite Hd. reflexivity.
  - unfold Scenario.catalog_path, Scenario.base. rewrite Hf. vm_compute. reflexivity.
Defined.

(** The configuration with [start_date] 2024-01-01 is persisted with
    2024-01-01Z, and a second validation leaves it as it is. *)
Lemma validate_appends_utc_marker_witness :
  files (Scenario.world Scenario.config_files) !! Scenario.config_path
  = Some Scenario.config_text
  /\ json_loads Scenario.env Scenario.config_text = Some (JDict Scenario.config)
  /\ dict_get "start_date" Scenario.config = Some (JStr "2024-01-01")
  /\ PyStr.endswith "2024-01-01" "Z" = false
  /\ json_loads Scenario.env
       (json_dump Scenario.env
          (JDict (dict_set "start_date" (JStr "2024-01-01Z") Scenario.config)))
     = Some (JDict (dict_set "start_date" (JStr "2024-01-01Z") Scenario.config))
  /\ exists w1,
       validate_tap_config Scenario.env Scenario.config_path
         (Scenario.world Scenario.config_files) = (Ok true, w1)
       /\ files w1
          = <[Scenario.config_path :=
                json_dump Scenario.env
                  (JDict (dict_set "start_date" (JStr "2024-01-01Z") Scenario.config))]>
              (files (Scenario.world Scenario.config_files))
       /\ dict_get "start_date"
            (dict_set "start_date" (JStr "2024-01-01Z") Scenario.config)
          = Some (JStr "2024-01-01Z")
       /\ exists w2,
            validate_tap_config Scenario.env Scenario.config_path w1 = (Ok true, w2)
            /\ files w2 = files w1.
Proof.
  assert (H1 : files (Scenario.world Scenario.config_files) !! Scenario.config_path
               = Some Scenario.config_text) by (vm_compute; reflexivity).
  assert (H4 : json_loads Scenario.env Scenario.config_text
               = Some (JDict Scenario.config)) by (vm_compute; reflexivity).
  assert (H9 : dict_get "start_date" Scenario.config = Some (JStr "2024-01-01"))
    by reflexivity.
  assert (H10 : PyStr.endswith "2024-01-01" "Z" = false) by reflexivity.
  assert (H11 : json_loads Scenario.env
                  (json_dump Scenario.env
                     (JDict (dict_set "start_date" (JStr "2024-01-01Z") Scenario.config)))
                = Some (JDict (dict_set "start_date" (JStr "2024-01-01Z") Scenario.config)))
    by (vm_compute; reflexivity).
  repeat (split; [first [exact H1 | exact H4 | exact H9 | exact H10 | exact H11]|]).
  exact (validate_appends_utc_marker Scenario.env Scenario.config_path
           (Scenario.world Scenario.config_files) Scenario.config_text
           Scenario.config "https://shop.example" "2024-01-01"
           H1 (not_elem_of_empty _) (not_elem_of_empty _) H4 eq_refl eq_refl
           eq_refl eq_refl H9 H10 H11).
Defined.

(** A counterexample to C9 as stated: the only output line is a RECORD
    message, its stream is a list, and the run returns a summary with no
    record and no count; nothing is handed to the storage. *)
Lemma list_stream_record_yields_no_row :
  loop_lines Scenario.list_stream_tap ++ drained_lines Scenario.list_stream_tap
  = [Scenario.list_stream_line]
  /\ record_line (Scenario.env_running Scenario.list_stream_tap)
       Scenario.list_stream_line = true
  /\ (Scenario.run (Scenario.env_running Scenario.list_stream_tap)
        (Scenario.world ∅)).1 = Ok Scenario.no_rows
  /\ inserted_chunks
       (db_calls (Scenario.run (Scenario.env_running Scenario.list_stream_tap)
                    (Scenario.world ∅)).2) = []
  /\ total_records_processed Scenario.no_rows
     <> length (filter (fun l => record_line
                                   (Scenario.env_running Scenario.list_stream_tap) l
                                 = true)
                  (loop_lines Scenario.list_stream_tap
                   ++ drained_lines Scenario.list_stream_tap)).
Proof.
  repeat (split; [vm_compute; reflexivity|]). vm_compute. discriminate.
Qed.

(** A run that returns a summary of two records. *)
Lemma summary_counts_the_rows_witness :
  Scenario.run (Scenario.env_running Scenario.healthy_tap) (Scenario.world ∅)
  = (Ok Scenario.two_orders,
     (Scenario.run (Scenario.env_running Scenario.healthy_tap) (Scenario.world ∅)).2)
  /\ exists rows,
       total_records_processed Scenario.two_orders = length rows
       /\ counts_total (streams Scenario.two_orders) = length rows
       /\ inserted_chunks
            (db_calls (Scenario.run (Scenario.env_running Scenario.healthy_tap)
                         (Scenario.world ∅)).2)
          = chunks_of rows
       /\ concat (chunks_of rows) = rows.
Proof.
  assert (H : Scenario.run (Scenario.env_running Scenario.healthy_tap) (Scenario.world ∅)
              = (Ok Scenario.two_orders,
                 (Scenario.run (Scenario.env_running Scenario.healthy_tap)
                    (Scenario.world ∅)).2))
    by (apply pair_of_fst; vm_compute; reflexivity).
  split; [exact H|].
  destruct (summary_counts_the_rows (Scenario.env_running Scenario.healthy_tap)
              "u1" "p1" "c1" Scenario.supabase_config Scenario.connection_data
              (Scenario.world ∅) Scenario.two_orders _ H)
    as (base & w1 & proc & _ & _ & Htotal & Hsum & Hins & Hcat).
  eexists. split; [exact Htotal|]. split; [exact Hsum|]. split; [exact Hins|exact Hcat].
Defined.

(** C3, at a failing input.  The storage refuses the only chunk:
    [insert_records_batch] logs the failure and returns True, and the run
    returns its summary without the warning that step 8 keeps for a
    False. *)
Theorem failed_insert_reported_as_success :
  storage_insert Scenario.rejecting_env [] [Scenario.one_row]
  = Some (Exn ExternalError "connection refused")
  /\ (insert_records_batch Scenario.rejecting_env [Scenario.one_row] Scenario.client
        (Scenario.world ∅)).1 = Ok true
  /\ db_calls (insert_records_batch Scenario.rejecting_env [Scenario.one_row]
                 Scenario.client (Scenario.world ∅)).2
     = [DbInsert [Scenario.one_row]]
  /\ In (ERROR, ChunkFailed "connection refused")
       (log (insert_records_batch Scenario.rejecting_env [Scenario.one_row]
               Scenario.client (Scenario.world ∅)).2)
  /\ (Scenario.run Scenario.rejecting_env (Scenario.world ∅)).1
     = Ok Scenario.two_orders
  /\ In (ERROR, ChunkFailed "connection refused")
       (log (Scenario.run Scenario.rejecting_env (Scenario.world ∅)).2)
  /\ ~ In (WARNING, SomeChunksFailed)
         (log (Scenario.run Scenario.rejecting_env (Scenario.world ∅)).2).
Proof.
  split; [reflexivity|].
  split; [vm_compute; reflexivity|].
  split; [vm_compute; reflexivity|].
  split; [vm_compute; tauto|].
  split; [vm_compute; reflexivity|].
  split; [vm_compute; tauto|].
  vm_compute. intros H.
  repeat (destruct H as [H|H]; [discriminate H|]). exact H.
Qed.

(** C8, at a failing input.  The state file exists and is not JSON:
    the run logs that it goes on without a state and still gives the file
    to the extractor, which fails on it; with no state file the same
    extractor is run without one and the run returns its summary. *)
Theorem unreadable_checkpoint_is_passed_to_extractor :
  files (Scenario.world Scenario.corrupt_files) !! Scenario.state_path
  = Some "{not json"
  /\ json_loads Scenario.strict_env "{not json" = None
  /\ In (WARNING, StateReadError Scenario.state_path "Expecting value")
       (log (Scenario.run Scenario.strict_env (Scenario.world Scenario.corrupt_files)).2)
  /\ tap_calls (Scenario.run Scenario.strict_env (Scenario.world Scenario.corrupt_files)).2
     = [["tap-woocommerce"; "--config"; Scenario.config_path;
         "--catalog"; Scenario.catalog_path; "--state"; Scenario.state_path]]
  /\ (exists e,
        (Scenario.run Scenario.strict_env (Scenario.world Scenario.corrupt_files)).1
        = Raise e)
  /\ tap_calls (Scenario.run Scenario.strict_env (Scenario.world ∅)).2
     = [["tap-woocommerce"; "--config"; Scenario.config_path;
         "--catalog"; Scenario.catalog_path]]
  /\ (Scenario.run Scenario.strict_env (Scenario.world ∅)).1 = Ok Scenario.two_orders.
Proof.
  split; [vm_compute; reflexivity|].
  split; [vm_compute; reflexivity|].
  split; [vm_compute; tauto|].
  split; [vm_compute; reflexivity|].
  split; [eexists; vm_compute; reflexivity|].
  split; [vm_compute; reflexivity|].
  vm_compute. reflexivity.
Qed.

(** C10, at a failing input.  The extractor emits a STATE message with
    a checkpoint, then a STATE message whose value is the empty object,
    and exits with code 0.  When the supervising loop reads both
    messages, the last state is empty and the state file keeps the
    checkpoint of the earlier run.  When the second message is returned
    by [communicate()], it is among the output lines of the run, yet
    [run_tap_woocommerce] returns the value of the first message as the
    last state, and the state file is overwritten with it. *)
Theorem empty_state_after_the_loop_is_ignored :
  loop_lines Scenario.late_empty_state_tap = [Scenario.state_line]
  /\ drained_lines Scenario.late_empty_state_tap = [Scenario.empty_state_line]
  /\ state_value (Scenario.env_running Scenario.late_empty_state_tap)
       Scenario.empty_state_line = Some (JDict [])
  /\ truthy (JDict []) = false
  /\ (run_tap_woocommerce (Scenario.env_running Scenario.late_empty_state_tap)
        Scenario.config_path (Some Scenario.catalog_path)
        (Some Scenario.state_path) (Scenario.world Scenario.ready_files)).1
     = Ok ([Scenario.state_line; Scenario.empty_state_line], Scenario.state_7)
  /\ (Scenario.run (Scenario.env_running Scenario.late_empty_state_tap)
        (Scenario.world Scenario.prior_files)).1 = Ok Scenario.no_rows
  /\ files (Scenario.run (Scenario.env_running Scenario.late_empty_state_tap)
              (Scenario.world Scenario.prior_files)).2 !! Scenario.state_path
     = Some (Json.dump Scenario.state_7)
  /\ files (Scenario.run (Scenario.env_running Scenario.late_empty_state_tap)
              (Scenario.world Scenario.prior_files)).2 !! Scenario.state_path
     <> files (Scenario.world Scenario.prior_files) !! Scenario.state_path
  /\ loop_lines Scenario.early_empty_state_tap
     = [Scenario.state_line; Scenario.empty_state_line]
  /\ (Scenario.run (Scenario.env_running Scenario.early_empty_state_tap)
        (Scenario.world Scenario.prior_files)).1 = Ok Scenario.no_rows
  /\ files (Scenario.run (Scenario.env_running Scenario.early_empty_state_tap)
              (Scenario.world Scenario.prior_files)).2 !! Scenario.state_path
     = files (Scenario.world Scenario.prior_files) !! Scenario.state_path.
Proof.
  repeat (split; [vm_compute; reflexivity|]).
  split; [vm_compute; discriminate|].
  repeat (split; [vm_compute; reflexivity|]).
  vm_compute. reflexivity.
Qed.

(** ** More on the validator *)

(** Unfolds the control flow of a computation down to the worlds. *)
Ltac run_unfold :=
  unfold bind, gets, try_except, read_file, write_file, subscript, logger,
    modify, ret, raise.

Ltac run_cases :=
  repeat (match goal with
          | |- context [match ?x with _ => _ end] =>
              lazymatch x with
              | context [match _ with _ => _ end] => fail
              | _ => destruct x eqn:?
              end
          end; cbv beta iota).

Section ValidatorMore.
Variable env : Env.

(** X1.  [validate_tap_config] never raises; when it returns False the files
    are what they were; it only ever writes the configuration file. *)
Theorem validate_tap_config_never_raises (config_path : string) (w : World) :
  exists b w',
    validate_tap_config env config_path w = (Ok b, w')
    /\ (b = false -> files w' = files w)
    /\ (forall p, p <> config_path -> files w' !! p = files w !! p).
Proof.
  unfold validate_tap_config. run_unfold. run_cases;
    eexists _, _; (split; [reflexivity|]); cbn [files add_log set_files];
    (split; [first [reflexivity | discriminate | intros; reflexivity]|]);
    intros p Hp; first [reflexivity | by apply lookup_insert_ne].
Qed.

Lemma filter_required_spec config f :
  In f (filter (fun field => negb (dict_mem field config)) required_fields)
  <-> In f required_fields /\ dict_mem f config = false.
Proof.
  rewrite <- !list_elem_of_In, list_elem_of_filter.
  destruct (dict_mem f config); simpl; intuition congruence.
Qed.

Lemma validate_missing_fields
    (config_path : string) (w : World) (text : string) (config : pydict)
    (field : string) :
  files w !! config_path = Some text ->
  config_path ∉ deny_read w ->
  json_loads env text = Some (JDict config) ->
  In field required_fields ->
  dict_mem field config = false ->
  exists missing w',
    validate_tap_config env config_path w = (Ok false, w')
    /\ files w' = files w
    /\ In (ERROR, ConfigMissingFields missing) (log w')
    /\ (forall f, In f missing <-> In f required_fields /\ dict_mem f config = false).
Proof.
  intros Hfile Hread Hloads Hin Hmem.
  unfold validate_tap_config. unfold bind at 1, gets at 1.
  assert (Hex : path_exists config_path w = true).
  { apply bool_decide_eq_true. rewrite Hfile. eauto. }
  rewrite Hex. cbn [negb]. unfold try_except, bind at 1, read_file.
  rewrite bool_decide_eq_false_2 by exact Hread. rewrite Hfile, Hloads.
  pose proof (filter_required_spec config) as Hspec.
  destruct (filter (fun field => negb (dict_mem field config)) required_fields)
    as [|f0 fs] eqn:E.
  - exfalso. apply (Hspec field). auto.
  - eexists (f0 :: fs), _. split; [reflexivity|]. split; [reflexivity|].
    split; [|exact Hspec]. cbn [log add_log]. rewrite in_app_iff. right. left.
    reflexivity.
Qed.

(** X2.  A configuration that lacks required fields is refused: the
    validation returns False, logs exactly the missing fields, in the
    order of the required ones, and leaves the files as they are. *)
Theorem validate_reports_missing_fields
    (config_path : string) (w : World) (text : string) (config : pydict)
    (field : string) :
  files w !! config_path = Some text ->
  config_path ∉ deny_read w ->
  json_loads env text = Some (JDict config) ->
  In field required_fields ->
  dict_mem field config = false ->
  exists missing w',
    validate_tap_config env config_path w = (Ok false, w')
    /\ files w' = files w
    /\ In (ERROR, ConfigMissingFields missing) (log w')
    /\ (forall f, In f missing <-> In f required_fields /\ dict_mem f config = false).
Proof.
  apply validate_missing_fields.
Qed.

(** X3.  A site URL without an http or https scheme is refused, and the
    files are left as they are. *)
Theorem validate_refuses_bad_scheme
    (config_path : string) (w : World) (text : string) (config : pydict)
    (site_url : string) :
  files w !! config_path = Some text ->
  config_path ∉ deny_read w ->
  json_loads env text = Some (JDict config) ->
  dict_mem "consumer_key" config = true ->
  dict_mem "consumer_secret" config = true ->
  dict_mem "start_date" config = true ->
  dict_get "site_url" config = Some (JStr site_url) ->
  PyStr.startswith site_url "http://" = false ->
  PyStr.startswith site_url "https://" = false ->
  exists w',
    validate_tap_config env config_path w = (Ok false, w')
    /\ files w' = files w
    /\ In (ERROR, ConfigBadScheme) (log w').
Proof.
  intros Hfile Hread Hloads Hck Hcs Hsd Hsite Hhttp Hhttps.
  unfold validate_tap_config. unfold bind at 1, gets at 1.
  assert (Hex : path_exists config_path w = true).
  { apply bool_decide_eq_true. rewrite Hfile. eauto. }
  rewrite Hex. cbn [negb]. unfold try_except, bind at 1, read_file.
  rewrite bool_decide_eq_false_2 by exact Hread. rewrite Hfile, Hloads.
  rewrite (no_missing_fields config (dict_mem_get _ _ _ Hsite) Hck Hcs Hsd).
  unfold bind at 1, subscript. rewrite Hsite. unfold ret at 1.
  rewrite Hhttp, Hhttps. cbn [negb orb].
  eexists. split; [reflexivity|]. split; [reflexivity|].
  cbn [log add_log]. rewrite in_app_iff. right. left. reflexivity.
Qed.

(** X4.  A configuration whose [start_date] needs the marker but whose file
    cannot be rewritten is refused, and the file is left as it is. *)
Theorem validate_needs_to_rewrite
    (config_path : string) (w : World) (text : string) (config : pydict)
    (site_url start_date : string) :
  files w !! config_path = Some text ->
  config_path ∉ deny_read w ->
  config_path ∈ deny_write w ->
  json_loads env text = Some (JDict config) ->
  dict_mem "consumer_key" config = true ->
  dict_mem "consumer_secret" config = true ->
  dict_get "site_url" config = Some (JStr site_url) ->
  PyStr.startswith site_url "http://" || PyStr.startswith site_url "https://" = true ->
  dict_get "start_date" config = Some (JStr start_date) ->
  PyStr.endswith start_date "Z" = false ->
  exists w',
    validate_tap_config env config_path w = (Ok false, w')
    /\ files w' = files w.
Proof.
  intros Hfile Hread Hwrite Hloads Hck Hcs Hsite Hscheme Hdate Hz.
  destruct (validate_well_formed env config_path w text config site_url start_date
              Hfile Hread Hloads Hck Hcs Hsite Hscheme Hdate)
    as (w' & Hrun & Hfiles & _).
  rewrite Hz in Hrun, Hfiles.
  rewrite bool_decide_eq_true_2 in Hrun, Hfiles by exact Hwrite.
  eauto.
Qed.

End ValidatorMore.

(** ** More on the discovery and on the extraction *)

Section RunnerMore.
Variable env : Env.



(** [list_streams] changes nothing. *)
Lemma list_streams_pure catalog w :
  exists r, list_streams catalog w = (r, w).
Proof.
  unfold list_streams. run_unfold. run_cases; eexists; reflexivity.
Qed.

(** X5.  [generate_catalog] never raises and spawns exactly one discovery.
    It returns True only when the discovery exited with code 0 and
    printed a text that loads as JSON, and then the catalog file holds
    that text as printed; when it returns False the files are what they
    were. *)
Theorem generate_catalog_writes_the_output
    (config_path output_path : string) (w : World) :
  exists b w',
    generate_catalog env config_path output_path w = (Ok b, w')
    /\ discover_calls w' = discover_calls w ++ [discover_command config_path]
    /\ (b = true ->
        exists proc,
          popen_discover env (discover_command config_path) (files w) = inr proc
          /\ dp_returncode proc = 0%Z
          /\ is_Some (json_loads env (dp_output proc))
          /\ files w' = <[output_path := dp_output proc]> (files w))
    /\ (b = false -> files w' = files w).
Proof.
  unfold generate_catalog, try_except, bind at 1, popen.
  destruct (popen_discover env (discover_command config_path) (files w))
    as [e|proc] eqn:Hp.
  { eexists _, _. split; [reflexivity|]. split; [reflexivity|].
    split; [discriminate|reflexivity]. }
  destruct (dp_returncode proc =? 0)%Z eqn:Hrc; cbn [negb].
  2:{ eexists _, _. split; [reflexivity|]. split; [reflexivity|].
      split; [discriminate|reflexivity]. }
  apply Z.eqb_eq in Hrc.
  destruct (json_loads env (dp_output proc)) as [catalog|] eqn:Hj.
  2:{ eexists _, _. split; [reflexivity|]. split; [reflexivity|].
      split; [discriminate|reflexivity]. }
  unfold bind at 1.
  destruct (list_streams_pure catalog (add_discover_call (discover_command config_path) w))
    as [r ->].
  destruct r as [[]|e].
  2:{ eexists _, _. split; [reflexivity|]. split; [reflexivity|].
      split; [discriminate|reflexivity]. }
  unfold bind at 1, write_file. cbn [deny_write add_discover_call].
  destruct (bool_decide (output_path ∈ deny_write w)).
  - eexists _, _. split; [reflexivity|]. split; [reflexivity|].
    split; [discriminate|reflexivity].
  - eexists _, _. split; [reflexivity|]. split; [reflexivity|].
    split; [|discriminate]. intros _. exists proc. rewrite Hj. eauto.
Qed.

(** X6.  A discovery that exits with a non-zero code: False, and the error
    log holds the code and the lines of the diagnostic output. *)
Theorem generate_catalog_reports_failure
    (config_path output_path : string) (w : World) (proc : DiscoverProcess) :
  popen_discover env (discover_command config_path) (files w) = inr proc ->
  dp_returncode proc <> 0%Z ->
  exists w',
    generate_catalog env config_path output_path w = (Ok false, w')
    /\ files w' = files w
    /\ In (ERROR, DiscoverFailed (dp_returncode proc) (PyStr.splitlines (dp_error proc)))
         (log w').
Proof.
  intros Hp Hrc.
  unfold generate_catalog, try_except, bind at 1, popen. rewrite Hp.
  destruct (dp_returncode proc =? 0)%Z eqn:E; [apply Z.eqb_eq in E; contradiction|].
  cbn [negb]. eexists. split; [reflexivity|]. split; [reflexivity|].
  cbn [log add_log add_discover_call]. rewrite in_app_iff. right. left. reflexivity.
Qed.

(** X7.  A discovery that exits with code 0 and prints a catalog one of
    whose streams is not an object: the AttributeError of the listing is
    caught by the outer handler, the catalog is not written and
    [generate_catalog] returns False. *)
Theorem generate_catalog_rejects_malformed_streams
    (config_path output_path : string) (w : World) (proc : DiscoverProcess)
    (catalog : pydict) (streams : list json) (stream : json) :
  popen_discover env (discover_command config_path) (files w) = inr proc ->
  dp_returncode proc = 0%Z ->
  json_loads env (dp_output proc) = Some (JDict catalog) ->
  dict_get "streams" catalog = Some (JList streams) ->
  In stream streams ->
  is_dict stream = false ->
  exists bad w',
    generate_catalog env config_path output_path w = (Ok false, w')
    /\ files w' = files w
    /\ In bad streams /\ is_dict bad = false
    /\ In (ERROR, CatalogUnexpected (exn_str (no_attribute bad "get"))) (log w').
Proof.
  intros Hpopen Hrc Hloads Hget Hin Hnd.
  unfold generate_catalog, popen, list_streams.
  unfold bind, try_except, logger, modify, ret, raise.
  rewrite Hpopen, Hrc, Hloads. cbn [Z.eqb negb].
  unfold dict_get_or. rewrite Hget.
  destruct (filter (fun v => negb (is_dict v)) streams) as [|bad rest] eqn:E.
  - exfalso.
    assert (H : stream ∈ filter (fun v => negb (is_dict v)) streams).
    { apply list_elem_of_filter. split; [by rewrite Hnd|by apply list_elem_of_In]. }
    rewrite E in H. by apply not_elem_of_nil in H.
  - assert (H : bad ∈ filter (fun v => negb (is_dict v)) streams)
      by (rewrite E; left).
    apply list_elem_of_filter in H as [Hb Hbin].
    exists bad. eexists. split; [reflexivity|]. split; [reflexivity|].
    split; [by apply list_elem_of_In|].
    split; [by destruct (is_dict bad)|].
    cbn. rewrite !in_app_iff. right. left. reflexivity.
Qed.

(** X8.  Without its configuration file the extraction raises
    FileNotFoundError before anything else happens. *)
Theorem run_tap_without_config
    (config_path : string) (catalog_path state_path : option string) (w : World) :
  files w !! config_path = None ->
  run_tap_woocommerce env config_path catalog_path state_path w
  = (Raise (Exn FileNotFoundError
              ("Arquivo de configuração não encontrado: " +:+ config_path)), w).
Proof.
  intros H. unfold run_tap_woocommerce, bind at 1, gets at 1.
  assert (Hex : path_exists config_path w = false).
  { apply bool_decide_eq_false. rewrite H. by intros [x Hx]. }
  rewrite Hex. reflexivity.
Qed.

(** X9.  Without the catalog file it was given, the extraction spawns no
    process; the FileNotFoundError is raised inside the try block, so
    the caller receives a RuntimeError that wraps its message. *)
Theorem run_tap_without_catalog
    (config_path catalog_path : string) (state_path : option string) (w : World) :
  is_Some (files w !! config_path) ->
  PyStr.nonempty catalog_path = true ->
  files w !! catalog_path = None ->
  exists w',
    run_tap_woocommerce env config_path (Some catalog_path) state_path w
    = (Raise (Exn RuntimeError
                ("Falha ao executar tap: Arquivo de catalog não encontrado: "
                 +:+ catalog_path)), w')
    /\ tap_calls w' = tap_calls w
    /\ files w' = files w.
Proof.
  intros Hcfg Hne Hcat. unfold run_tap_woocommerce, bind at 1, gets at 1.
  apply path_exists_true in Hcfg. rewrite Hcfg. cbn [negb].
  assert (Hex : path_exists catalog_path w = false).
  { apply bool_decide_eq_false. rewrite Hcat. by intros [x Hx]. }
  unfold try_except, bind at 1, gets at 1. rewrite Hne, Hex. cbn [negb andb].
  eexists. split; [reflexivity|]. split; reflexivity.
Qed.

Lemma observe_line_parsed l a :
  parsed_records (observe_line env l a)
  = parsed_records a + (if record_line env l then 1 else 0).
Proof.
  unfold observe_line, record_line.
  destruct (json_loads env l) as [v|]; [destruct v|]; cbn; try lia.
  replace (dict_get_or "type" JNull d) with
    (match dict_get "type" d with Some v => v | None => JNull end) by reflexivity.
  unfold dict_get_or.
  destruct (dict_get "type" d) as [t|]; cbn.
  - destruct (is_str "RECORD" t) eqn:E.
    + match goal with |- context [if ?b then _ else _] => destruct b end; cbn; lia.
    + destruct (is_str "STATE" t); [cbn; lia|].
      destruct (is_str "SCHEMA" t); cbn; lia.
  - lia.
Qed.

Lemma loop_iteration_parsed rd a :
  parsed_records (loop_iteration env rd a)
  = parsed_records a
    + length (filter (fun l => record_line env l = true) (reads [fst rd])).
Proof.
  unfold loop_iteration, reads. destruct rd as [o e]. cbn [fst].
  destruct (PyStr.nonempty o) eqn:Ho.
  - rewrite (filter_cons_True (fun o => PyStr.nonempty o = true)) by done.
    cbn [filter list_filter map].
    assert (H : parsed_records
                  (observe_line env (PyStr.strip o)
                     {| output_lines := output_lines a ++ [PyStr.strip o];
                        error_lines := error_lines a;
                        parsed_records := parsed_records a;
                        last_state := last_state a; tap_log := tap_log a |})
                = parsed_records a
                  + length (filter (fun l => record_line env l = true) [PyStr.strip o])).
    { rewrite observe_line_parsed. cbn [parsed_records].
      destruct (record_line env (PyStr.strip o)) eqn:E.
      - by rewrite filter_cons_True.
      - rewrite filter_cons_False by (rewrite E; done). reflexivity. }
    destruct (PyStr.nonempty e); cbn [parsed_records tap_logged]; exact H.
  - rewrite (filter_cons_False (fun o => PyStr.nonempty o = true))
      by (rewrite Ho; done).
    cbn. destruct (PyStr.nonempty e); cbn; lia.
Qed.

Lemma supervise_parsed iterations : forall a,
  parsed_records (supervise env iterations a)
  = parsed_records a
    + length (filter (fun l => record_line env l = true) (reads (map fst iterations))).
Proof.
  induction iterations as [|rd its IH]; intros a.
  - cbn. lia.
  - cbn [supervise foldl map]. unfold supervise in IH. rewrite IH.
    rewrite loop_iteration_parsed, (reads_cons (fst rd) (map fst its)).
    rewrite filter_app, length_app. lia.
Qed.

(** X10.  What the supervision of a process accumulates: the lines read by
    the loop, stripped, in order, followed by the lines of the drained
    output; the diagnostic lines likewise; the count of the RECORD
    messages among the lines read by the loop; and the value of the last
    STATE message among the lines read by the loop: a STATE message in
    the drained output is kept as a line and never becomes the state. *)
Theorem supervision_accumulates (proc : TapProcess) :
  output_lines (tap_result env proc)
  = reads (map fst (tp_iterations proc)) ++ PyStr.splitlines (fst (tp_rest proc))
  /\ error_lines (tap_result env proc)
     = reads (map snd (tp_iterations proc)) ++ PyStr.splitlines (snd (tp_rest proc))
  /\ parsed_records (tap_result env proc)
     = length (filter (fun l => record_line env l = true)
                 (reads (map fst (tp_iterations proc))))
  /\ last_state (tap_result env proc)
     = last_state_of env (reads (map fst (tp_iterations proc)))
  /\ forall rest,
       last_state
         (tap_result env
            {| tp_running := tp_running proc; tp_last := tp_last proc;
               tp_rest := rest; tp_returncode := tp_returncode proc |})
       = last_state (tap_result env proc).
Proof.
  destruct (tap_result_spec env proc) as (H1 & H2 & H3).
  split; [exact H1|]. split; [exact H2|]. split; [|split; [exact H3|]].
  - unfold tap_result, drain. cbn [parsed_records tap_logged].
    rewrite supervise_parsed. reflexivity.
  - intros rest. rewrite H3.
    destruct (tap_result_spec env
                {| tp_running := tp_running proc; tp_last := tp_last proc;
                   tp_rest := rest; tp_returncode := tp_returncode proc |})
      as (_ & _ & ->).
    reflexivity.
Qed.

(** X11.  A process that starts and exits with code 0: the extraction returns
    the accumulated lines and the last state, spawns that one process and
    writes no file. *)
Theorem run_tap_returns_lines_and_state
    (config_path catalog_path state_path : string) (w : World) (proc : TapProcess) :
  is_Some (files w !! config_path) ->
  is_Some (files w !! catalog_path) ->
  popen_tap env (tap_command config_path (Some catalog_path) (Some state_path) w)
    (files w) = inr proc ->
  tp_returncode proc = 0%Z ->
  exists w',
    run_tap_woocommerce env config_path (Some catalog_path) (Some state_path) w
    = (Ok (loop_lines proc ++ drained_lines proc,
           last_state_of env (loop_lines proc)), w')
    /\ files w' = files w
    /\ tap_calls w'
       = tap_calls w
         ++ [tap_command config_path (Some catalog_path) (Some state_path) w].
Proof.
  intros Hcfg Hcat Hpopen Hrc.
  apply path_exists_true in Hcfg, Hcat.
  destruct (tap_result_spec env proc) as (H1 & _ & H3).
  rewrite <- H1, <- H3.
  unfold run_tap_woocommerce. unfold bind at 1, gets at 1. rewrite Hcfg.
  cbn [negb]. unfold try_except, bind at 1, gets at 1. rewrite Hcat.
  rewrite andb_false_r. unfold bind at 1, ret at 1, bind at 1, gets at 1.
  unfold bind at 1.
  assert (Hlog : exists l,
    (if PyStr.nonempty state_path
     then let* there := gets (path_exists state_path) in
          logger INFO (if there : bool then UsingStateFile state_path
                       else StateFileMissing state_path)
     else ret tt) w = (Ok tt, add_log l w)).
  { destruct (PyStr.nonempty state_path).
    - eexists. reflexivity.
    - exists []. unfold ret, add_log. destruct w. simpl. by rewrite app_nil_r. }
  destruct Hlog as [l ->].
  unfold bind at 1, popen. cbn [files add_log]. rewrite Hpopen.
  unfold bind at 1, modify at 1. rewrite Hrc. cbn.
  eexists. split; [reflexivity|]. split; reflexivity.
Qed.

(** X12.  A process that cannot be started: the error of [Popen] is logged
    and wrapped in a RuntimeError; no file is written. *)
Theorem run_tap_spawn_failure
    (config_path catalog_path state_path : string) (w : World) (e : exn) :
  is_Some (files w !! config_path) ->
  is_Some (files w !! catalog_path) ->
  popen_tap env (tap_command config_path (Some catalog_path) (Some state_path) w)
    (files w) = inl e ->
  exists w',
    run_tap_woocommerce env config_path (Some catalog_path) (Some state_path) w
    = (Raise (Exn RuntimeError ("Falha ao executar tap: " +:+ exn_str e)), w')
    /\ files w' = files w
    /\ In (ERROR, TapError (exn_str e)) (log w').
Proof.
  intros Hcfg Hcat Hpopen.
  apply path_exists_true in Hcfg, Hcat.
  unfold run_tap_woocommerce. unfold bind at 1, gets at 1. rewrite Hcfg.
  cbn [negb]. unfold try_except, bind at 1, gets at 1. rewrite Hcat.
  rewrite andb_false_r. unfold bind at 1, ret at 1, bind at 1, gets at 1.
  unfold bind at 1.
  assert (Hlog : exists l,
    (if PyStr.nonempty state_path
     then let* there := gets (path_exists state_path) in
          logger INFO (if there : bool then UsingStateFile state_path
                       else StateFileMissing state_path)
     else ret tt) w = (Ok tt, add_log l w)).
  { destruct (PyStr.nonempty state_path).
    - eexists. reflexivity.
    - exists []. unfold ret, add_log. destruct w. simpl. by rewrite app_nil_r. }
  destruct Hlog as [l ->].
  unfold bind at 1, popen. cbn [files add_log]. rewrite Hpopen.
  eexists. split; [reflexivity|]. split; [reflexivity|].
  cbn. rewrite !in_app_iff. right. left. reflexivity.
Qed.

End RunnerMore.

Section ClassifierMore.
Variable env : Env.

Ltac key_cases :=
  cbn [key_eqb] in *; try discriminate;
  repeat match goal with
         | H : Bool.eqb _ _ = true |- _ => apply Bool.eqb_prop in H; subst
         | H : (_ =? _)%Z = true |- _ => apply Z.eqb_eq in H; subst
         | H : String.eqb _ _ = true |- _ => apply String.eqb_eq in H; subst
         end;
  rewrite ?Z.eqb_refl, ?String.eqb_refl, ?Bool.eqb_reflx;
  try reflexivity;
  repeat match goal with b : bool |- _ => destruct b end;
  try reflexivity; try discriminate; try apply Z.eqb_sym.

Lemma key_eqb_sym a b : key_eqb a b = key_eqb b a.
Proof.
  destruct a, b; cbn; try reflexivity.
  - by destruct b0, b.
  - apply Z.eqb_sym.
  - apply String.eqb_sym.
Qed.

Lemma key_eqb_trans a b c :
  key_eqb a b = true -> key_eqb a c = key_eqb b c.
Proof.
  intros H. destruct a, b; cbn in H; try discriminate; destruct c; key_cases;
    try apply Z.eqb_sym.
Qed.

Lemma counts_get_set k' n c k :
  counts_get k (counts_set k' n c) = if key_eqb k' k then n else counts_get k c.
Proof.
  induction c as [|[k0 n0] c IH]; cbn.
  - reflexivity.
  - destruct (key_eqb k0 k') eqn:E; cbn.
    + rewrite (key_eqb_trans _ _ k E). destruct (key_eqb k' k); reflexivity.
    + destruct (key_eqb k0 k) eqn:E2; [|exact IH].
      destruct (key_eqb k' k) eqn:E3; [|reflexivity].
      exfalso. 
      assert (H : key_eqb k' k0 = true).
      { rewrite (key_eqb_sym k0 k) in E2.
        rewrite <- (key_eqb_trans _ _ k0 E3) in E2. exact E2. }
      rewrite key_eqb_sym, H in E. discriminate.
Qed.

Lemma counts_get_eqb a b c : key_eqb a b = true -> counts_get a c = counts_get b c.
Proof.
  intros H. induction c as [|[k0 n0] c IH]; cbn; [reflexivity|].
  rewrite (key_eqb_sym k0 a), (key_eqb_sym k0 b), (key_eqb_trans _ _ k0 H), IH.
  reflexivity.
Qed.

Lemma process_lines_counts_per_stream u p c lines k : forall i a,
  counts_get k (pa_counts (process_lines env u p c i lines a))
  = counts_get k (pa_counts a)
    + length (rows_of_stream k (omap (row_of_line env u p c) lines)).
Proof.
  unfold rows_of_stream.
  induction lines as [|l lines IH]; intros i a; simpl.
  - lia.
  - rewrite IH, process_line_counts.
    destruct (row_of_line env u p c l) as [r|]; [|reflexivity].
    rewrite counts_get_set.
    destruct (key_eqb (row_stream r) k) eqn:E.
    + rewrite filter_cons_True by exact E. cbn [length].
      rewrite (counts_get_eqb _ _ _ E).
      rewrite <- Nat.add_assoc. reflexivity.
    + rewrite filter_cons_False by (rewrite E; done). reflexivity.
Qed.

Lemma omap_rows_stamped u p c lines :
  Forall (fun r => row_user_id r = u /\ row_project_id r = p
                   /\ row_connection_id r = c)
    (omap (row_of_line env u p c) lines).
Proof.
  induction lines as [|l lines IH]; cbn; [constructor|].
  unfold row_of_line at 1.
  destruct (json_loads env l) as [[| | | | |m]|]; try exact IH.
  destruct (_ && _); [|exact IH].
  constructor; [cbn; auto | exact IH].
Qed.

(** X13.  For any output lines, [process_tap_output] returns: the rows are
    those of the RECORD lines whose stream can be a dictionary key, in
    the order of the lines, each stamped with the three identifiers; the
    count of every stream is the number of its rows; only the log
    changes. *)
Theorem process_tap_output_counts_per_stream
    (user_id project_id connection_id : string) (lines : list string) (w : World) :
  exists rows stream_counts w',
    process_tap_output env lines user_id project_id connection_id w
    = (Ok (rows, stream_counts), w')
    /\ rows = omap (row_of_line env user_id project_id connection_id) lines
    /\ (forall k, counts_get k stream_counts = length (rows_of_stream k rows))
    /\ Forall (fun r => row_user_id r = user_id /\ row_project_id r = project_id
                        /\ row_connection_id r = connection_id) rows
    /\ files w' = files w /\ db_calls w' = db_calls w
    /\ discover_calls w' = discover_calls w /\ tap_calls w' = tap_calls w.
Proof.
  destruct (process_tap_output_returns env lines user_id project_id connection_id w)
    as (w' & Hrun & Hf & _ & _ & Hdb & Hd & Ht & _).
  eexists _, _, w'. split; [exact Hrun|].
  pose proof (process_lines_records env user_id project_id connection_id lines 0
                pa_empty) as Hrec.
  cbn [pa_records pa_empty app] in Hrec.
  split; [exact Hrec|]. split.
  - intros k. rewrite Hrec.
    rewrite (process_lines_counts_per_stream user_id project_id connection_id lines k
               0 pa_empty).
    reflexivity.
  - rewrite Hrec. split; [apply omap_rows_stamped|]. auto.
Qed.

Lemma process_line_log_entries u p c i line a x :
  In x (pa_log (process_line env u p c i line a)) ->
  In x (pa_log a) \/ x <> (WARNING, ProcNoRecords) /\
                      (forall k n, x <> (INFO, ProcCount k n)).
Proof.
  unfold process_line.
  destruct (json_loads env line) as [v|]; [destruct v|];
    repeat match goal with |- context [if ?b then _ else _] => destruct b end;
    cbn [pa_log pa_logged pa_records pa_counts];
    rewrite ?in_app_iff; cbn [In]; intros H;
    repeat match goal with
           | H : _ \/ _ |- _ => destruct H as [H|H]
           | H : False |- _ => destruct H
           end;
    try (left; exact H); subst x; right; (split; [|intros ? ?]); discriminate.
Qed.

Lemma process_lines_log_entries u p c lines : forall i a x,
  In x (pa_log (process_lines env u p c i lines a)) ->
  In x (pa_log a) \/ x <> (WARNING, ProcNoRecords) /\
                      (forall k n, x <> (INFO, ProcCount k n)).
Proof.
  induction lines as [|l lines IH]; intros i a x H; cbn in H; [by left|].
  apply IH in H. destruct H as [H|H]; [|by right].
  by apply process_line_log_entries in H.
Qed.

(** X14.  What [process_tap_output] adds to the log: the entries of the
    lines, then one count per stream, in the order of the result, then
    the warning that nothing was collected, exactly when there is no
    row. *)
Theorem process_tap_output_reports
    (user_id project_id connection_id : string) (lines : list string) (w : World) :
  exists rows stream_counts line_entries w',
    process_tap_output env lines user_id project_id connection_id w
    = (Ok (rows, stream_counts), w')
    /\ log w'
       = log w ++ line_entries
         ++ map (fun kn => (INFO, ProcCount (fst kn) (snd kn))) stream_counts
         ++ (match rows with [] => [(WARNING, ProcNoRecords)] | _ => [] end)
    /\ (forall x, In x line_entries ->
          x <> (WARNING, ProcNoRecords) /\ forall k n, x <> (INFO, ProcCount k n)).
Proof.
  set (a := process_lines env user_id project_id connection_id 0 lines pa_empty).
  exists (pa_records a), (pa_counts a), (pa_log a).
  unfold process_tap_output. fold a.
  unfold bind, modify, ret, logger, modify.
  destruct (pa_records a) eqn:E; eexists; (split; [reflexivity|]);
    (split; [cbn [log add_log]; rewrite ?app_nil_r, <- ?app_assoc; reflexivity|]);
    intros x Hx;
    (destruct (process_lines_log_entries user_id project_id connection_id lines 0
                 pa_empty x Hx) as [[]|H]; exact H).
Qed.

End ClassifierMore.

Section PersisterMore.
Variable env : Env.

Lemma insert_chunks_totals (records : list Row) (offsets : list nat) :
  forall total w,
  let chunks := map (fun i => slice i (i + CHUNK_SIZE) records) offsets in
  exists w',
    insert_chunks env records offsets total w
    = (Ok (total + length (concat (accepted_chunks env (db_calls w) chunks))), w')
    /\ files w' = files w
    /\ (forall x, In x (log w) -> In x (log w'))
    /\ (forall m, In m (refused_chunks env (db_calls w) chunks) ->
          In (ERROR, ChunkFailed m) (log w')).
Proof.
  induction offsets as [|i offsets IH]; intros total w; cbv zeta.
  - exists w. cbn. rewrite Nat.add_0_r. repeat split; auto. intros m [].
  - cbn [map accepted_chunks refused_chunks insert_chunks].
    unfold bind at 1. unfold logger at 1, modify at 1.
    unfold bind at 1. unfold try_except, bind at 1, bulk_insert.
    cbn [db_calls add_log].
    destruct (storage_insert env (db_calls w) (slice i (i + CHUNK_SIZE) records))
      as [e|]; cbn -[slice CHUNK_SIZE accepted_chunks refused_chunks].
    + match goal with |- context [insert_chunks env records offsets ?t ?w0] =>
        destruct (IH t w0) as (w' & -> & Hf & Hl & Hr) end.
      exists w'. cbn -[slice CHUNK_SIZE accepted_chunks refused_chunks] in *.
      split; [reflexivity|]. split; [exact Hf|]. split.
      * intros x Hx. apply Hl. rewrite !in_app_iff. auto.
      * intros m [<-|Hm]; [|by apply Hr].
        apply Hl. rewrite !in_app_iff. right. left. reflexivity.
    + match goal with |- context [insert_chunks env records offsets ?t ?w0] =>
        destruct (IH t w0) as (w' & -> & Hf & Hl & Hr) end.
      exists w'. cbn -[slice CHUNK_SIZE accepted_chunks refused_chunks] in *.
      split; [rewrite length_app; do 2 f_equal; lia|]. split; [exact Hf|]. split.
      * intros x Hx. apply Hl. rewrite !in_app_iff. auto.
      * intros m Hm. by apply Hr.
Qed.

(** X15.  [insert_records_batch] reports as inserted the rows of the chunks
    the storage accepted, and logs the error of every chunk it refused;
    a refused chunk stops neither the later chunks nor the run. *)
Theorem insert_records_batch_reports
    (records : list Row) (client : Client) (w : World) :
  exists w',
    insert_records_batch env records client w = (Ok true, w')
    /\ In (INFO, InsertDone
                   (length (concat (accepted_chunks env (db_calls w)
                                      (chunks_of records))))) (log w')
    /\ (forall m, In m (refused_chunks env (db_calls w) (chunks_of records)) ->
          In (ERROR, ChunkFailed m) (log w'))
    /\ files w' = files w.
Proof.
  unfold insert_records_batch, try_except, bind at 1, logger at 1, modify at 1.
  unfold bind at 1.
  match goal with |- context [insert_chunks env records ?o ?t ?w0] =>
    destruct (insert_chunks_totals records o t w0) as (w' & -> & Hf & Hl & Hr) end.
  cbn in Hf, Hr. fold (chunks_of records) in Hr.
  eexists. split; [reflexivity|]. cbn [log add_log files].
  split; [|split; [|exact Hf]].
  - rewrite in_app_iff. right. left. reflexivity.
  - intros m Hm. rewrite in_app_iff. left. by apply Hr.
Qed.

End PersisterMore.

(** ** What a computation leaves alone *)

Section Keeps.
Context {X : Type} (f : World -> X).
Hypothesis f_log : forall l w, f (add_log l w) = f w.
Hypothesis f_files : forall g w, f (set_files g w) = f w.

Lemma keeps_ret {A} (a : A) : keeps f (ret a).
Proof. by intros w r w' [= <- <-]. Qed.

Lemma keeps_raise {A} e : keeps f (raise (A:=A) e).
Proof. by intros w r w' [= <- <-]. Qed.

Lemma keeps_gets {A} (g : World -> A) : keeps f (gets g).
Proof. by intros w r w' [= <- <-]. Qed.

Lemma keeps_bind {A B} (m : Run A) (k : A -> Run B) :
  keeps f m -> (forall a, keeps f (k a)) -> keeps f (bind m k).
Proof.
  intros Hm Hk w r w'. unfold bind.
  destruct (m w) as [[a|e] w0] eqn:E; intros H.
  - rewrite (Hk _ _ _ _ H). eapply Hm, E.
  - injection H as <- <-. eapply Hm, E.
Qed.

Lemma keeps_try {A} (m : Run A) (h : exn -> Run A) :
  keeps f m -> (forall e, keeps f (h e)) -> keeps f (try_except m h).
Proof.
  intros Hm Hh w r w'. unfold try_except.
  destruct (m w) as [[a|e] w0] eqn:E; intros H.
  - injection H as <- <-. eapply Hm, E.
  - rewrite (Hh _ _ _ _ H). eapply Hm, E.
Qed.

Lemma keeps_add_log l : keeps f (modify (add_log l)).
Proof. intros w r w' [= <- <-]. apply f_log. Qed.

Lemma keeps_logger lv e : keeps f (logger lv e).
Proof. apply keeps_add_log. Qed.

Lemma keeps_read_file p : keeps f (read_file p).
Proof.
  intros w r w'. unfold read_file.
  destruct (bool_decide _); [|destruct (files w !! p)]; by intros [= <- <-].
Qed.

Lemma keeps_write_file p content : keeps f (write_file p content).
Proof.
  intros w r w'. unfold write_file.
  destruct (bool_decide _); intros [= <- <-]; [done|apply f_files].
Qed.

Lemma keeps_makedirs p : keeps f (makedirs p).
Proof.
  intros w r w'. unfold makedirs. destruct (bool_decide _); by intros [= <- <-].
Qed.

Lemma keeps_subscript k d : keeps f (subscript k d).
Proof.
  unfold subscript. destruct (dict_get k d); [apply keeps_ret | apply keeps_raise].
Qed.

Lemma keeps_new_storage env cfg : keeps f (new_storage env cfg).
Proof.
  unfold new_storage. destruct (storage_new env cfg); [apply keeps_raise | apply keeps_ret].
Qed.

Lemma keeps_popen {A} (record : list string -> World -> World)
    (run : list string -> gmap string string -> exn + A) command :
  (forall c w, f (record c w) = f w) -> keeps f (popen record run command).
Proof.
  intros Hrec w r w'. unfold popen.
  destruct (run command (files w)); intros [= <- <-]; apply Hrec.
Qed.

Lemma keeps_update_catalog env id catalog :
  (forall c w, f (add_db_call c w) = f w) -> keeps f (update_catalog env id catalog).
Proof.
  intros Hrec w r w'. unfold update_catalog.
  destruct (storage_update env (db_calls w) id catalog); intros [= <- <-]; apply Hrec.
Qed.

Lemma keeps_bulk_insert env chunk :
  (forall c w, f (add_db_call c w) = f w) -> keeps f (bulk_insert env chunk).
Proof.
  intros Hrec w r w'. unfold bulk_insert.
  destruct (storage_insert env (db_calls w) chunk); intros [= <- <-]; apply Hrec.
Qed.

End Keeps.

Create HintDb keeps.

#[export] Hint Resolve keeps_ret keeps_raise keeps_gets keeps_add_log keeps_logger
  keeps_read_file keeps_write_file keeps_makedirs keeps_subscript keeps_new_storage
  keeps_popen keeps_update_catalog keeps_bulk_insert : keeps.

Ltac keeps_step :=
  lazymatch goal with
  | |- keeps _ (bind _ _) => apply keeps_bind; [|intros ?]
  | |- keeps _ (try_except _ _) => apply keeps_try; [|intros ?]
  | |- keeps _ (match ?x with _ => _ end) => destruct x
  | |- keeps _ _ => solve [simpl; auto with keeps]
  end.

Ltac keeps_auto := repeat keeps_step.

Section KeepsFacts.
Variable env : Env.
Context {X : Type} (f : World -> X).
Hypothesis f_log : forall l w, f (add_log l w) = f w.
Hypothesis f_files : forall g w, f (set_files g w) = f w.

Lemma keeps_list_streams catalog : keeps f (list_streams catalog).
Proof. unfold list_streams. keeps_auto. Qed.

Lemma keeps_validate_tap_config config_path :
  keeps f (validate_tap_config env config_path).
Proof. unfold validate_tap_config. keeps_auto. Qed.

Lemma keeps_step_prepare u p cd : keeps f (step_prepare u p cd).
Proof. unfold step_prepare. keeps_auto. Qed.

Lemma keeps_step_write_config config_path cd :
  keeps f (step_write_config env config_path cd).
Proof. unfold step_write_config. keeps_auto. Qed.

Lemma keeps_step_validate config_path : keeps f (step_validate env config_path).
Proof. unfold step_validate. pose proof keeps_validate_tap_config. keeps_auto. Qed.

Lemma keeps_load_json_file path : keeps f (load_json_file env path).
Proof. unfold load_json_file. keeps_auto. Qed.

Lemma keeps_read_initial_state state_path :
  keeps f (read_initial_state env state_path).
Proof. unfold read_initial_state. pose proof keeps_load_json_file. keeps_auto. Qed.

Lemma keeps_save_last_state state_path v : keeps f (save_last_state env state_path v).
Proof. unfold save_last_state. keeps_auto. Qed.

Lemma keeps_process_tap_output lines u p c :
  keeps f (process_tap_output env lines u p c).
Proof. unfold process_tap_output. keeps_auto. Qed.

End KeepsFacts.

Section KeepsExtractor.
Variable env : Env.

Lemma keeps_tap_generate_catalog config_path output_path :
  keeps tap_calls (generate_catalog env config_path output_path).
Proof.
  unfold generate_catalog. pose proof (keeps_list_streams tap_calls). keeps_auto.
Qed.

Lemma keeps_tap_step_catalog config_path catalog_path id cfg :
  keeps tap_calls (step_catalog env config_path catalog_path id cfg).
Proof.
  unfold step_catalog.
  pose proof keeps_tap_generate_catalog.
  pose proof (keeps_load_json_file env tap_calls).
  keeps_auto.
Qed.

Lemma keeps_tap_sync_setup u p c cfg cd :
  keeps tap_calls (sync_setup env u p c cfg cd).
Proof.
  unfold sync_setup.
  pose proof keeps_tap_step_catalog.
  pose proof (keeps_step_prepare tap_calls).
  pose proof (keeps_step_write_config env tap_calls).
  pose proof (keeps_step_validate env tap_calls).
  pose proof (keeps_read_initial_state env tap_calls).
  keeps_auto.
Qed.

Lemma keeps_tap_insert_chunks records offsets :
  forall total, keeps tap_calls (insert_chunks env records offsets total).
Proof.
  induction offsets as [|i offsets IH]; intros total; simpl; keeps_auto.
Qed.

Lemma keeps_tap_step_persist records cfg :
  keeps tap_calls (step_persist env records cfg).
Proof.
  unfold step_persist, insert_records_batch.
  pose proof keeps_tap_insert_chunks. keeps_auto.
Qed.

End KeepsExtractor.

Section RunMore.
Variable env : Env.

Lemma append_cons (a : ascii) (s t : string) :
  String a s +:+ t = String a (s +:+ t).
Proof. reflexivity. Qed.

Lemma length_append (s t : string) :
  String.length (s +:+ t) = String.length s + String.length t.
Proof.
  induction s as [|a s IH]; [reflexivity|].
  rewrite append_cons. cbn [String.length]. by rewrite IH.
Qed.

Lemma append_assoc (s t u : string) : (s +:+ t) +:+ u = s +:+ (t +:+ u).
Proof.
  induction s as [|a s IH]; [reflexivity|]. rewrite !append_cons. by rewrite IH.
Qed.

Lemma append_inj_r (s1 s2 t1 t2 : string) :
  String.length t1 = String.length t2 -> s1 +:+ t1 = s2 +:+ t2 -> t1 = t2.
Proof.
  revert s2. induction s1 as [|a s1 IH]; intros s2 Hlen H.
  - destruct s2 as [|b s2]; [exact H|].
    apply (f_equal String.length) in H.
    rewrite ?length_append in H. cbn [String.length] in H. lia.
  - destruct s2 as [|b s2].
    + apply (f_equal String.length) in H.
      rewrite ?length_append in H. cbn [String.length] in H. lia.
    + rewrite !append_cons in H. injection H as _ H. by apply (IH s2).
Qed.

Lemma state_path_not_config b1 b2 : state_path_of b1 <> config_path_of b2.
Proof.
  unfold state_path_of, config_path_of. intros H.
  change "/config.json" with ("/" +:+ "config.json") in H.
  rewrite <- append_assoc in H.
  apply append_inj_r in H; [discriminate|reflexivity].
Qed.

Lemma state_path_not_catalog b1 b2 : state_path_of b1 <> catalog_path_of b2.
Proof.
  unfold state_path_of, catalog_path_of. intros H.
  change "/catalog.json" with ("/c" +:+ "atalog.json") in H.
  rewrite <- append_assoc in H.
  apply append_inj_r in H; [discriminate|reflexivity].
Qed.

(** Whatever its outcome, the setup writes only configuration and
    catalog files and inserts no row. *)
Lemma sound_sync_setup u p c cfg cd :
  sound (fun q => exists base, q = config_path_of base \/ q = catalog_path_of base)
    true false (sync_setup env u p c cfg cd).
Proof.
  unfold sync_setup.
  apply sound_bind; [auto with sound|intros base].
  apply sound_bind; [apply sound_step_write_config; eauto|intros _].
  apply sound_bind; [apply sound_step_validate; eauto|intros _].
  apply sound_bind; [apply sound_step_catalog; eauto|intros _].
  apply sound_bind; [auto with sound|intros _]. apply sound_ret.
Qed.

Lemma sync_body_raises u p c cfg cd w e w' :
  sync_body env u p c cfg cd w = (Raise e, w') ->
  sync_setup env u p c cfg cd w = (Raise e, w')
  \/ exists base w1,
       sync_setup env u p c cfg cd w = (Ok base, w1)
       /\ sync_extract env u p c cfg base w1 = (Raise e, w').
Proof.
  unfold sync_body. intros H.
  apply bind_inv in H as [(base & w1 & Hsetup & H)|(e' & Hsetup & [= <-])];
    [|by left].
  right. exists base, w1. split; [exact Hsetup|].
  apply bind_inv in H as [([[records sc] ls] & w2 & Hex & H)|(e' & Hex & [= <-])];
    [|exact Hex].
  exfalso. unfold bind in H.
  destruct (save_last_state_returns env (state_path_of base) ls w2) as (w3 & Hs).
  rewrite Hs in H. discriminate.
Qed.

Lemma sync_connection_raises u p c cfg cd w e w' :
  sync_connection env u p c cfg cd w = (Raise e, w') ->
  exists w0,
    sync_body env u p c cfg cd w = (Raise e, w0)
    /\ w' = add_log [(ERROR, SyncError (exn_str e))] w0.
Proof.
  unfold sync_connection, try_except.
  destruct (sync_body env u p c cfg cd w) as [[s|e0] w0]; [discriminate|].
  unfold bind, logger, modify, raise. intros [= <- <-]. eauto.
Qed.

(** X16.  A run that raises, whatever the step that failed, has logged the
    error it re-raises and leaves every state file as it was: the
    checkpoint is written by the last step only. *)
Theorem failed_run_keeps_every_checkpoint
    (user_id project_id connection_id : string) (supabase_config : SupabaseConfig)
    (connection_data : pydict) (w : World) (e : exn) (w' : World) :
  sync_connection env user_id project_id connection_id supabase_config
    connection_data w = (Raise e, w') ->
  In (ERROR, SyncError (exn_str e)) (log w')
  /\ forall base, files w' !! state_path_of base = files w !! state_path_of base.
Proof.
  intros H. apply sync_connection_raises in H as (w0 & H & ->).
  split; [cbn; rewrite in_app_iff; right; by left|].
  intros base. cbn [files add_log].
  apply sync_body_raises in H as [H|(b & w1 & Hsetup & Hex)].
  - apply sound_sync_setup in H. apply (frame_files _ _ _ _ _ H).
    intros (b & [E|E]).
    + by apply state_path_not_config in E.
    + by apply state_path_not_catalog in E.
  - apply sound_sync_setup in Hsetup.
    apply (sound_sync_extract env (fun _ => False) false) in Hex.
    rewrite (frame_files _ _ _ _ _ Hex) by tauto.
    apply (frame_files _ _ _ _ _ Hsetup).
    intros (b' & [E|E]).
    + by apply state_path_not_config in E.
    + by apply state_path_not_catalog in E.
Qed.

(** X17.  A failure of the setup (steps 1 to 5) ends the run: the same
    exception is re-raised after the error is logged, no extractor has
    been spawned and no row inserted. *)
Theorem setup_failure_ends_the_run
    (user_id project_id connection_id : string) (supabase_config : SupabaseConfig)
    (connection_data : pydict) (w : World) (e : exn) (w1 : World) :
  sync_setup env user_id project_id connection_id supabase_config
    connection_data w = (Raise e, w1) ->
  exists w',
    sync_connection env user_id project_id connection_id supabase_config
      connection_data w = (Raise e, w')
    /\ In (ERROR, SyncError (exn_str e)) (log w')
    /\ tap_calls w' = tap_calls w
    /\ inserted_chunks (db_calls w') = inserted_chunks (db_calls w).
Proof.
  intros H. rewrite (sync_connection_setup_raises env _ _ _ _ _ _ _ _ H).
  eexists. split; [reflexivity|].
  split; [cbn; rewrite in_app_iff; right; by left|].
  cbn [tap_calls db_calls add_log]. split.
  - apply (keeps_tap_sync_setup env _ _ _ _ _ _ _ _ H).
  - apply sound_sync_setup in H. by apply (frame_inserted _ _ _ _ _ H).
Qed.

Lemma run_tap_spawns config_path catalog_path state_path w r w' :
  path_exists config_path w = true ->
  path_exists catalog_path w = true ->
  run_tap_woocommerce env config_path (Some catalog_path) (Some state_path) w
  = (r, w') ->
  tap_calls w'
  = tap_calls w ++ [tap_command config_path (Some catalog_path) (Some state_path) w].
Proof.
  intros Hcfg Hcat.
  unfold run_tap_woocommerce. unfold bind at 1, gets at 1. rewrite Hcfg.
  cbn [negb]. unfold try_except, bind at 1, gets at 1. rewrite Hcat.
  rewrite andb_false_r. unfold bind at 1, ret at 1, bind at 1, gets at 1.
  unfold bind at 1.
  assert (Hlog : exists l,
    (if PyStr.nonempty state_path
     then let* there := gets (path_exists state_path) in
          logger INFO (if there : bool then UsingStateFile state_path
                       else StateFileMissing state_path)
     else ret tt) w = (Ok tt, add_log l w)).
  { destruct (PyStr.nonempty state_path).
    - eexists. reflexivity.
    - exists []. unfold ret, add_log. destruct w. simpl. by rewrite app_nil_r. }
  destruct Hlog as [l ->].
  unfold bind at 1, popen. cbn [files add_log].
  destruct (popen_tap env _ (files w)) as [e|proc].
  - intros [= <- <-]. reflexivity.
  - unfold bind at 1, modify at 1.
    destruct (tp_returncode proc =? 0)%Z; cbn; intros [= <- <-]; reflexivity.
Qed.

Lemma sync_extract_spawns u p c cfg base w1 r w2 :
  path_exists (config_path_of base) w1 = true ->
  path_exists (catalog_path_of base) w1 = true ->
  sync_extract env u p c cfg base w1 = (r, w2) ->
  tap_calls w2
  = tap_calls w1
    ++ [tap_command (config_path_of base) (Some (catalog_path_of base))
          (Some (state_path_of base)) w1].
Proof.
  intros Hcfg Hcat H. unfold sync_extract in H.
  apply bind_inv in H as [([lines st] & wa & Hrun & H)|(e & Hrun & _)];
    [|exact (run_tap_spawns _ _ _ _ _ _ Hcfg Hcat Hrun)].
  rewrite <- (run_tap_spawns _ _ _ _ _ _ Hcfg Hcat Hrun).
  revert H. generalize wa r w2.
  change (keeps tap_calls
            (logger INFO (TapDone (length lines) (truthy st));;
             logger INFO (Step "7. Processando registros");;
             let* processed := process_tap_output env lines u p c in
             let '(records, stream_counts) := processed in
             logger INFO (RecordsProcessed (length records));;
             let* insert_success := step_persist env records cfg in
             ret (records, stream_counts, st))).
  pose proof (keeps_tap_step_persist env).
  pose proof (keeps_process_tap_output env tap_calls).
  keeps_auto.
Qed.

(** X18.  After a successful setup the extractor is spawned exactly once,
    whatever the outcome of the run, on the configuration and the catalog
    of the connection; the state file is given to it exactly when it was
    on disk before the run, whether it can be read or not. *)
Theorem run_spawns_one_extractor
    (user_id project_id connection_id : string) (supabase_config : SupabaseConfig)
    (connection_data : pydict) (w : World) (base : string) (w1 : World)
    (r : res Summary) (w' : World) :
  sync_setup env user_id project_id connection_id supabase_config
    connection_data w = (Ok base, w1) ->
  sync_connection env user_id project_id connection_id supabase_config
    connection_data w = (r, w') ->
  tap_calls w'
  = tap_calls w
    ++ [["tap-woocommerce"; "--config"; config_path_of base;
         "--catalog"; catalog_path_of base]
        ++ (if bool_decide (is_Some (files w !! state_path_of base))
            then ["--state"; state_path_of base] else [])].
Proof.
  intros Hsetup H.
  destruct (sync_setup_ok env _ _ _ _ _ _ _ _ Hsetup) as (_ & _ & Hcfg & Hcat & _).
  destruct (sync_setup_keeps_state env _ _ _ _ _ _ _ _ Hsetup) as [Hst _].
  rewrite <- (keeps_tap_sync_setup env _ _ _ _ _ _ _ _ Hsetup).
  assert (Hcmd : tap_command (config_path_of base) (Some (catalog_path_of base))
                   (Some (state_path_of base)) w1
                 = ["tap-woocommerce"; "--config"; config_path_of base;
                    "--catalog"; catalog_path_of base]
                   ++ (if bool_decide (is_Some (files w !! state_path_of base))
                       then ["--state"; state_path_of base] else [])).
  { unfold tap_command, catalog_path_of, state_path_of.
    rewrite !nonempty_append_r by reflexivity. cbn [andb].
    unfold path_exists. fold (state_path_of base). rewrite Hst. reflexivity. }
  rewrite <- Hcmd.
  rewrite (sync_connection_after_setup env _ _ _ _ _ _ _ _ Hsetup) in H.
  destruct (sync_extract env user_id project_id connection_id supabase_config
              base w1) as [[[[records sc] ls]|e] w2] eqn:Hex.
  - destruct (save_last_state env (state_path_of base) ls w2) as [[[]|e] w3] eqn:Hs;
      injection H as <- <-; cbn [tap_calls add_log];
      rewrite (keeps_save_last_state env tap_calls (fun _ _ => eq_refl)
                 (fun _ _ => eq_refl) _ _ _ _ _ Hs);
      exact (sync_extract_spawns _ _ _ _ _ _ _ _ Hcfg Hcat Hex).
  - injection H as <- <-. cbn [tap_calls add_log].
    exact (sync_extract_spawns _ _ _ _ _ _ _ _ Hcfg Hcat Hex).
Qed.

(** X19.  Connection data without a [type]: the run raises KeyError at step 2
    and has touched no file, spawned no process and called no storage. *)
Theorem connection_without_type
    (user_id project_id connection_id : string) (supabase_config : SupabaseConfig)
    (connection_data : pydict) (w : World) :
  dict_get "type" connection_data = None ->
  exists w',
    sync_connection env user_id project_id connection_id supabase_config
      connection_data w = (Raise (Exn KeyError "'type'"), w')
    /\ files w' = files w
    /\ db_calls w' = db_calls w
    /\ discover_calls w' = discover_calls w
    /\ tap_calls w' = tap_calls w.
Proof.
  intros H.
  assert (Hsetup : exists w1,
    sync_setup env user_id project_id connection_id supabase_config
      connection_data w = (Raise (Exn KeyError "'type'"), w1)
    /\ files w1 = files w /\ db_calls w1 = db_calls w
    /\ discover_calls w1 = discover_calls w /\ tap_calls w1 = tap_calls w).
  { unfold sync_setup, step_prepare, bind, logger, modify, subscript. rewrite H.
    eexists. split; [reflexivity|]. repeat split. }
  destruct Hsetup as (w1 & Hsetup & Hf & Hdb & Hd & Ht).
  rewrite (sync_connection_setup_raises env _ _ _ _ _ _ _ _ Hsetup).
  eexists. split; [reflexivity|]. cbn. auto.
Qed.

(** X20.  Connection data without a [config]: the configuration file is
    opened for writing before the key is looked up, so the run raises
    KeyError at step 3 and leaves an empty configuration file. *)
Theorem connection_without_config
    (user_id project_id connection_id : string) (supabase_config : SupabaseConfig)
    (connection_data : pydict) (connection_type : string) (w : World) :
  let base := base_path user_id project_id connection_type in
  dict_get "type" connection_data = Some (JStr connection_type) ->
  dict_get "config" connection_data = None ->
  base ∉ deny_write w ->
  config_path_of base ∉ deny_write w ->
  exists w',
    sync_connection env user_id project_id connection_id supabase_config
      connection_data w = (Raise (Exn KeyError "'config'"), w')
    /\ files w' = <[config_path_of base := EmptyString]> (files w)
    /\ db_calls w' = db_calls w
    /\ discover_calls w' = discover_calls w
    /\ tap_calls w' = tap_calls w.
Proof.
  intros base Hty Hcfg Hb Hc.
  assert (Hsetup : exists w1,
    sync_setup env user_id project_id connection_id supabase_config
      connection_data w = (Raise (Exn KeyError "'config'"), w1)
    /\ files w1 = <[config_path_of base := EmptyString]> (files w)
    /\ db_calls w1 = db_calls w
    /\ discover_calls w1 = discover_calls w /\ tap_calls w1 = tap_calls w).
  { unfold sync_setup, step_prepare, step_write_config, bind, logger, modify,
      subscript, makedirs, write_file, ret, raise.
    rewrite Hty, Hcfg. cbn [deny_write add_log set_files]. fold base.
    rewrite (bool_decide_eq_false_2 _ Hb), (bool_decide_eq_false_2 _ Hc).
    eexists. split; [reflexivity|]. repeat split. }
  destruct Hsetup as (w1 & Hsetup & Hf & Hdb & Hd & Ht).
  rewrite (sync_connection_setup_raises env _ _ _ _ _ _ _ _ Hsetup).
  eexists. split; [reflexivity|]. cbn. auto.
Qed.

(** X21.  A configuration that lacks a required field: the file is written
    at step 3, the validation refuses it, and the run raises ValueError at
    step 4 without spawning a process or calling the storage. *)
Theorem invalid_config_stops_the_run
    (user_id project_id connection_id : string) (supabase_config : SupabaseConfig)
    (connection_data : pydict) (connection_type : string) (config : json)
    (fields : pydict) (field : string) (w : World) :
  let base := base_path user_id project_id connection_type in
  dict_get "type" connection_data = Some (JStr connection_type) ->
  dict_get "config" connection_data = Some config ->
  base ∉ deny_write w ->
  config_path_of base ∉ deny_write w ->
  config_path_of base ∉ deny_read w ->
  json_loads env (json_dump env config) = Some (JDict fields) ->
  In field required_fields ->
  dict_mem field fields = false ->
  exists w',
    sync_connection env user_id project_id connection_id supabase_config
      connection_data w
    = (Raise (Exn ValueError ("Configuração inválida: " +:+ config_path_of base)), w')
    /\ files w' = <[config_path_of base := json_dump env config]> (files w)
    /\ db_calls w' = db_calls w
    /\ discover_calls w' = discover_calls w
    /\ tap_calls w' = tap_calls w.
Proof.
  intros base Hty Hcfg Hb Hc Hr Hloads Hin Hmem.
  assert (Hsetup : exists w1,
    sync_setup env user_id project_id connection_id supabase_config
      connection_data w
    = (Raise (Exn ValueError ("Configuração inválida: " +:+ config_path_of base)), w1)
    /\ files w1 = <[config_path_of base := json_dump env config]> (files w)
    /\ db_calls w1 = db_calls w
    /\ discover_calls w1 = discover_calls w /\ tap_calls w1 = tap_calls w).
  { unfold sync_setup, step_prepare, step_write_config, step_validate.
    unfold bind, logger, modify, subscript, makedirs, write_file, ret, raise.
    rewrite Hty, Hcfg. cbn [deny_write add_log set_files]. fold base.
    rewrite (bool_decide_eq_false_2 _ Hb), (bool_decide_eq_false_2 _ Hc).
    cbn [deny_write add_log set_files]. rewrite (bool_decide_eq_false_2 _ Hc).
    match goal with |- context [validate_tap_config env ?p ?w2] =>
      destruct (validate_missing_fields env p w2 (json_dump env config) fields field)
        as (missing & w3 & Hval & Hfiles & _);
      [ cbn [files]; apply lookup_insert_eq | exact Hr | exact Hloads
      | exact Hin | exact Hmem | ];
      pose proof (keeps_validate_tap_config env db_calls
                    (fun _ _ => eq_refl) (fun _ _ => eq_refl) _ _ _ _ Hval) as Hdb;
      pose proof (keeps_validate_tap_config env discover_calls
                    (fun _ _ => eq_refl) (fun _ _ => eq_refl) _ _ _ _ Hval) as Hd;
      pose proof (keeps_validate_tap_config env tap_calls
                    (fun _ _ => eq_refl) (fun _ _ => eq_refl) _ _ _ _ Hval) as Ht;
      rewrite Hval
    end.
    cbn [negb]. eexists. split; [reflexivity|].
    cbn [files db_calls discover_calls tap_calls add_log set_files] in *.
    rewrite Hfiles, Hdb, Hd, Ht. split; [apply insert_insert_eq|]. auto. }
  destruct Hsetup as (w1 & Hsetup & Hf & Hdb & Hd & Ht).
  rewrite (sync_connection_setup_raises env _ _ _ _ _ _ _ _ Hsetup).
  eexists. split; [reflexivity|]. cbn. auto.
Qed.

(** X22.  Step 5 without a cached catalog, when the discovery exits with a
    non-zero code: the step raises RuntimeError, no catalog file is
    created and neither the storage nor the extractor is called. *)
Theorem failed_discovery_stops_step_5
    (config_path catalog_path connection_id : string)
    (supabase_config : SupabaseConfig) (w : World) (proc : DiscoverProcess) :
  files w !! catalog_path = None ->
  popen_discover env (discover_command config_path) (files w) = inr proc ->
  dp_returncode proc <> 0%Z ->
  exists w',
    step_catalog env config_path catalog_path connection_id supabase_config w
    = (Raise (Exn RuntimeError "Falha ao gerar catalog.json"), w')
    /\ files w' = files w
    /\ discover_calls w' = discover_calls w ++ [discover_command config_path]
    /\ db_calls w' = db_calls w
    /\ tap_calls w' = tap_calls w.
Proof.
  intros Hnone Hpopen Hrc.
  assert (Hex : forall l, path_exists catalog_path (add_log l w) = false).
  { intros l. apply bool_decide_eq_false. cbn. rewrite Hnone. by intros [x Hx]. }
  apply Z.eqb_neq in Hrc.
  unfold step_catalog, generate_catalog, popen.
  unfold bind, try_except, gets, logger, modify, ret, raise.
  rewrite Hex. cbn [negb files add_log]. rewrite Hpopen, Hrc. cbn [negb].
  eexists. split; [reflexivity|]. repeat split.
Qed.

(** X23.  Step 5 with a cached catalog that cannot be read or is not JSON:
    the catalog is not generated again; the step raises RuntimeError
    without calling the storage. *)
Theorem unreadable_catalog_stops_step_5
    (config_path catalog_path connection_id : string)
    (supabase_config : SupabaseConfig) (w : World) (text : string) :
  files w !! catalog_path = Some text ->
  catalog_path ∈ deny_read w \/ json_loads env text = None ->
  exists w',
    step_catalog env config_path catalog_path connection_id supabase_config w
    = (Raise (Exn RuntimeError ("Falha ao ler catalog.json: " +:+ catalog_path)), w')
    /\ files w' = files w
    /\ discover_calls w' = discover_calls w
    /\ db_calls w' = db_calls w.
Proof.
  intros Hfile Hbad.
  assert (Hex : forall l, path_exists catalog_path (add_log l w) = true).
  { intros l. apply bool_decide_eq_true. cbn. rewrite Hfile. eauto. }
  unfold step_catalog, load_json_file, read_file.
  unfold bind, try_except, gets, logger, modify, ret, raise.
  rewrite Hex. cbn [negb files deny_read add_log]. rewrite Hfile.
  destruct (bool_decide (catalog_path ∈ deny_read w)) eqn:Hd.
  - eexists. split; [reflexivity|]. repeat split.
  - destruct Hbad as [Hbad|Hbad].
    + apply bool_decide_eq_false in Hd. contradiction.
    + rewrite Hbad. eexists. split; [reflexivity|]. repeat split.
Qed.

(** X24.  Step 5 when the storage answers the update of the catalog with an
    error: the RuntimeError raised for it is caught by the handler of the
    same block, so the step raises a RuntimeError whose message wraps the
    first one. *)
Theorem catalog_store_error_is_wrapped_twice
    (config_path catalog_path connection_id : string)
    (supabase_config : SupabaseConfig) (w : World) (text : string)
    (catalog : json) (client : Client) (msg : string) :
  files w !! catalog_path = Some text ->
  catalog_path ∉ deny_read w ->
  json_loads env text = Some catalog ->
  storage_new env supabase_config = inr client ->
  storage_update env (db_calls w) connection_id catalog = UpdateError msg ->
  exists w',
    step_catalog env config_path catalog_path connection_id supabase_config w
    = (Raise (Exn RuntimeError
                ("Falha inesperada ao salvar catalog no Supabase: "
                 +:+ "Falha ao salvar catalog no Supabase: " +:+ msg)), w')
    /\ files w' = files w
    /\ discover_calls w' = discover_calls w
    /\ db_calls w' = db_calls w ++ [DbUpdateCatalog connection_id catalog].
Proof.
  intros Hfile Hread Hloads Hnew Hupd.
  assert (Hex : forall l, path_exists catalog_path (add_log l w) = true).
  { intros l. apply bool_decide_eq_true. cbn. rewrite Hfile. eauto. }
  unfold step_catalog, load_json_file, read_file, new_storage, update_catalog.
  unfold bind, try_except, gets, logger, modify, ret, raise.
  rewrite Hex. cbn [negb files deny_read db_calls add_log].
  rewrite (bool_decide_eq_false_2 _ Hread), Hfile, Hloads, Hnew.
  cbn [db_calls add_log]. rewrite Hupd.
  eexists. split; [reflexivity|]. repeat split.
Qed.

(** X25.  The read of the previous state never raises and changes nothing but
    the log: a state file that is missing, unreadable or not JSON gives
    None. *)
Theorem read_initial_state_never_raises (state_path : string) (w : World) :
  exists v w',
    read_initial_state env state_path w = (Ok v, w')
    /\ files w' = files w
    /\ db_calls w' = db_calls w
    /\ tap_calls w' = tap_calls w
    /\ v = (if bool_decide (state_path ∈ deny_read w) then JNull
            else match files w !! state_path with
                 | Some text => default JNull (json_loads env text)
                 | None => JNull
                 end).
Proof.
  unfold read_initial_state, load_json_file, read_file.
  unfold bind, try_except, gets, logger, modify, ret, raise, path_exists.
  cbn [files deny_read add_log].
  destruct (files w !! state_path) as [text|] eqn:Hfile.
  - rewrite bool_decide_eq_true_2 by eauto.
    cbn [files deny_read add_log]. rewrite Hfile.
    destruct (bool_decide (state_path ∈ deny_read w)).
    + eexists _, _. split; [reflexivity|]. repeat split.
    + destruct (json_loads env text);
        eexists _, _; (split; [reflexivity|]); repeat split.
  - rewrite bool_decide_eq_false_2 by (by intros [x Hx]).
    eexists _, _. split; [reflexivity|]. repeat split.
    by destruct (bool_decide _).
Qed.

End RunMore.

(** ** The further properties on concrete runs *)

(** The configuration file lacks the consumer secret. *)
Lemma validate_reports_missing_fields_witness :
  files (Scenario.world Scenario.incomplete_files) !! Scenario.config_path
  = Some (Json.dump (JDict Scenario.incomplete_config))
  /\ json_loads Scenario.env (Json.dump (JDict Scenario.incomplete_config))
     = Some (JDict Scenario.incomplete_config)
  /\ In "consumer_secret" required_fields
  /\ dict_mem "consumer_secret" Scenario.incomplete_config = false
  /\ exists missing w',
       validate_tap_config Scenario.env Scenario.config_path
         (Scenario.world Scenario.incomplete_files) = (Ok false, w')
       /\ files w' = files (Scenario.world Scenario.incomplete_files)
       /\ In (ERROR, ConfigMissingFields missing) (log w')
       /\ (forall f, In f missing
                     <-> In f required_fields
                         /\ dict_mem f Scenario.incomplete_config = false).
Proof.
  assert (H1 : files (Scenario.world Scenario.incomplete_files) !! Scenario.config_path
               = Some (Json.dump (JDict Scenario.incomplete_config)))
    by (vm_compute; reflexivity).
  assert (H2 : json_loads Scenario.env (Json.dump (JDict Scenario.incomplete_config))
               = Some (JDict Scenario.incomplete_config)) by (vm_compute; reflexivity).
  assert (H3 : In "consumer_secret" required_fields) by (simpl; tauto).
  assert (H4 : dict_mem "consumer_secret" Scenario.incomplete_config = false)
    by reflexivity.
  repeat (split; [first [exact H1 | exact H2 | exact H3 | exact H4]|]).
  exact (validate_reports_missing_fields Scenario.env Scenario.config_path
           (Scenario.world Scenario.incomplete_files) _ Scenario.incomplete_config
           "consumer_secret" H1 (not_elem_of_empty _) H2 H3 H4).
Defined.

(** The site URL of the configuration starts with ftp. *)
Lemma validate_refuses_bad_scheme_witness :
  files (Scenario.world Scenario.ftp_files) !! Scenario.config_path
  = Some (Json.dump (JDict Scenario.ftp_config))
  /\ json_loads Scenario.env (Json.dump (JDict Scenario.ftp_config))
     = Some (JDict Scenario.ftp_config)
  /\ dict_get "site_url" Scenario.ftp_config = Some (JStr "ftp://shop.example")
  /\ PyStr.startswith "ftp://shop.example" "http://" = false
  /\ PyStr.startswith "ftp://shop.example" "https://" = false
  /\ exists w',
       validate_tap_config Scenario.env Scenario.config_path
         (Scenario.world Scenario.ftp_files) = (Ok false, w')
       /\ files w' = files (Scenario.world Scenario.ftp_files)
       /\ In (ERROR, ConfigBadScheme) (log w').
Proof.
  assert (H1 : files (Scenario.world Scenario.ftp_files) !! Scenario.config_path
               = Some (Json.dump (JDict Scenario.ftp_config)))
    by (vm_compute; reflexivity).
  assert (H2 : json_loads Scenario.env (Json.dump (JDict Scenario.ftp_config))
               = Some (JDict Scenario.ftp_config)) by (vm_compute; reflexivity).
  repeat (split; [first [exact H1 | exact H2 | reflexivity]|]).
  exact (validate_refuses_bad_scheme Scenario.env Scenario.config_path
           (Scenario.world Scenario.ftp_files) _ Scenario.ftp_config "ftp://shop.example"
           H1 (not_elem_of_empty _) H2 eq_refl eq_refl eq_refl eq_refl
           eq_refl eq_refl).
Defined.

(** The start date needs the marker and the configuration file is
    read-only. *)
Lemma validate_needs_to_rewrite_witness :
  files (Scenario.world_denying Scenario.config_files {[ Scenario.config_path ]})
    !! Scenario.config_path = Some Scenario.config_text
  /\ Scenario.config_path
     ∈ deny_write (Scenario.world_denying Scenario.config_files
                     {[ Scenario.config_path ]})
  /\ json_loads Scenario.env Scenario.config_text = Some (JDict Scenario.config)
  /\ dict_get "start_date" Scenario.config = Some (JStr "2024-01-01")
  /\ PyStr.endswith "2024-01-01" "Z" = false
  /\ exists w',
       validate_tap_config Scenario.env Scenario.config_path
         (Scenario.world_denying Scenario.config_files {[ Scenario.config_path ]})
       = (Ok false, w')
       /\ files w'
          = files (Scenario.world_denying Scenario.config_files
                     {[ Scenario.config_path ]}).
Proof.
  assert (H1 : files (Scenario.world_denying Scenario.config_files
                        {[ Scenario.config_path ]}) !! Scenario.config_path
               = Some Scenario.config_text) by (vm_compute; reflexivity).
  assert (H2 : Scenario.config_path
               ∈ deny_write (Scenario.world_denying Scenario.config_files
                               {[ Scenario.config_path ]}))
    by (change (Scenario.config_path ∈ ({[ Scenario.config_path ]} : gset string));
        apply elem_of_singleton_2; reflexivity).
  assert (H3 : json_loads Scenario.env Scenario.config_text
               = Some (JDict Scenario.config)) by (vm_compute; reflexivity).
  repeat (split; [first [exact H1 | exact H2 | exact H3 | reflexivity]|]).
  exact (validate_needs_to_rewrite Scenario.env Scenario.config_path
           (Scenario.world_denying Scenario.config_files {[ Scenario.config_path ]})
           _ Scenario.config "https://shop.example" "2024-01-01"
           H1 (not_elem_of_empty _) H2 H3 eq_refl eq_refl eq_refl eq_refl
           eq_refl eq_refl).
Defined.

(** The discovery exits with code 1 after one diagnostic line. *)
Lemma generate_catalog_reports_failure_witness :
  popen_discover (Scenario.with_discovery (inr Scenario.failing_discovery) Scenario.env)
    (discover_command Scenario.config_path)
    (files (Scenario.world Scenario.config_files)) = inr Scenario.failing_discovery
  /\ dp_returncode Scenario.failing_discovery <> 0%Z
  /\ exists w',
       generate_catalog (Scenario.with_discovery (inr Scenario.failing_discovery) Scenario.env)
         Scenario.config_path Scenario.catalog_path
         (Scenario.world Scenario.config_files) = (Ok false, w')
       /\ files w' = files (Scenario.world Scenario.config_files)
       /\ In (ERROR, DiscoverFailed (dp_returncode Scenario.failing_discovery)
                       (PyStr.splitlines (dp_error Scenario.failing_discovery)))
            (log w').
Proof.
  assert (H2 : dp_returncode Scenario.failing_discovery <> 0%Z) by discriminate.
  split; [reflexivity|]. split; [exact H2|].
  exact (generate_catalog_reports_failure
           (Scenario.with_discovery (inr Scenario.failing_discovery) Scenario.env)
           Scenario.config_path Scenario.catalog_path
           (Scenario.world Scenario.config_files) Scenario.failing_discovery
           eq_refl H2).
Defined.

(** No file is on disk. *)
Lemma run_tap_without_config_witness :
  files (Scenario.world ∅) !! Scenario.config_path = None
  /\ run_tap_woocommerce Scenario.env Scenario.config_path
       (Some Scenario.catalog_path) (Some Scenario.state_path) (Scenario.world ∅)
     = (Raise (Exn FileNotFoundError
                 ("Arquivo de configuração não encontrado: "
                  +:+ Scenario.config_path)), Scenario.world ∅).
Proof.
  assert (H1 : files (Scenario.world ∅) !! Scenario.config_path = None)
    by (vm_compute; reflexivity).
  split; [exact H1|].
  exact (run_tap_without_config Scenario.env Scenario.config_path
           (Some Scenario.catalog_path) (Some Scenario.state_path)
           (Scenario.world ∅) H1).
Defined.

(** The configuration is on disk, the catalog is not. *)
Lemma run_tap_without_catalog_witness :
  is_Some (files (Scenario.world Scenario.config_files) !! Scenario.config_path)
  /\ PyStr.nonempty Scenario.catalog_path = true
  /\ files (Scenario.world Scenario.config_files) !! Scenario.catalog_path = None
  /\ exists w',
       run_tap_woocommerce Scenario.env Scenario.config_path
         (Some Scenario.catalog_path) (Some Scenario.state_path)
         (Scenario.world Scenario.config_files)
       = (Raise (Exn RuntimeError
                   ("Falha ao executar tap: Arquivo de catalog não encontrado: "
                    +:+ Scenario.catalog_path)), w')
       /\ tap_calls w' = tap_calls (Scenario.world Scenario.config_files)
       /\ files w' = files (Scenario.world Scenario.config_files).
Proof.
  assert (H1 : is_Some (files (Scenario.world Scenario.config_files)
                          !! Scenario.config_path))
    by (exists Scenario.config_text; vm_compute; reflexivity).
  assert (H2 : PyStr.nonempty Scenario.catalog_path = true) by reflexivity.
  assert (H3 : files (Scenario.world Scenario.config_files) !! Scenario.catalog_path
               = None) by (vm_compute; reflexivity).
  split; [exact H1|]. split; [exact H2|]. split; [exact H3|].
  exact (run_tap_without_catalog Scenario.env Scenario.config_path
           Scenario.catalog_path (Some Scenario.state_path)
           (Scenario.world Scenario.config_files) H1 H2 H3).
Defined.

(** The extractor emits a schema, two records and a checkpoint. *)
Lemma run_tap_returns_lines_and_state_witness :
  is_Some (files (Scenario.world Scenario.ready_files) !! Scenario.config_path)
  /\ is_Some (files (Scenario.world Scenario.ready_files) !! Scenario.catalog_path)
  /\ tp_returncode Scenario.healthy_tap = 0%Z
  /\ exists w',
       run_tap_woocommerce (Scenario.env_running Scenario.healthy_tap)
         Scenario.config_path (Some Scenario.catalog_path)
         (Some Scenario.state_path) (Scenario.world Scenario.ready_files)
       = (Ok (loop_lines Scenario.healthy_tap ++ drained_lines Scenario.healthy_tap,
              last_state_of (Scenario.env_running Scenario.healthy_tap)
                (loop_lines Scenario.healthy_tap)), w')
       /\ files w' = files (Scenario.world Scenario.ready_files)
       /\ tap_calls w'
          = tap_calls (Scenario.world Scenario.ready_files)
            ++ [tap_command Scenario.config_path (Some Scenario.catalog_path)
                  (Some Scenario.state_path) (Scenario.world Scenario.ready_files)].
Proof.
  assert (H1 : is_Some (files (Scenario.world Scenario.ready_files)
                          !! Scenario.config_path))
    by (exists Scenario.config_text; vm_compute; reflexivity).
  assert (H2 : is_Some (files (Scenario.world Scenario.ready_files)
                          !! Scenario.catalog_path))
    by (exists Scenario.catalog_text; vm_compute; reflexivity).
  split; [exact H1|]. split; [exact H2|]. split; [reflexivity|].
  exact (run_tap_returns_lines_and_state (Scenario.env_running Scenario.healthy_tap)
           Scenario.config_path Scenario.catalog_path Scenario.state_path
           (Scenario.world Scenario.ready_files) Scenario.healthy_tap
           H1 H2 eq_refl eq_refl).
Defined.

(** The extractor is not installed. *)
Lemma run_tap_spawn_failure_witness :
  is_Some (files (Scenario.world Scenario.ready_files) !! Scenario.config_path)
  /\ is_Some (files (Scenario.world Scenario.ready_files) !! Scenario.catalog_path)
  /\ exists w',
       run_tap_woocommerce Scenario.env_without_tap
         Scenario.config_path (Some Scenario.catalog_path)
         (Some Scenario.state_path) (Scenario.world Scenario.ready_files)
       = (Raise (Exn RuntimeError
                   ("Falha ao executar tap: " +:+ exn_str Scenario.not_installed)), w')
       /\ files w' = files (Scenario.world Scenario.ready_files)
       /\ In (ERROR, TapError (exn_str Scenario.not_installed)) (log w').
Proof.
  assert (H1 : is_Some (files (Scenario.world Scenario.ready_files)
                          !! Scenario.config_path))
    by (exists Scenario.config_text; vm_compute; reflexivity).
  assert (H2 : is_Some (files (Scenario.world Scenario.ready_files)
                          !! Scenario.catalog_path))
    by (exists Scenario.catalog_text; vm_compute; reflexivity).
  split; [exact H1|]. split; [exact H2|].
  exact (run_tap_spawn_failure Scenario.env_without_tap
           Scenario.config_path Scenario.catalog_path Scenario.state_path
           (Scenario.world Scenario.ready_files) Scenario.not_installed H1 H2 eq_refl).
Defined.

(** The extractor exits with code 1 while a checkpoint of an earlier run
    is on disk. *)
Lemma failed_run_keeps_every_checkpoint_witness :
  Scenario.run (Scenario.env_running Scenario.failing_tap)
    (Scenario.world Scenario.prior_files)
  = (Raise (Exn RuntimeError
              ("Falha ao executar tap: Tap falhou com código "
               +:+ PyStr.str_of_int 1 +:+ ": "
               +:+ PyStr.join PyStr.newline
                     (diagnostic_lines Scenario.failing_tap))),
     (Scenario.run (Scenario.env_running Scenario.failing_tap)
        (Scenario.world Scenario.prior_files)).2)
  /\ files (Scenario.run (Scenario.env_running Scenario.failing_tap)
              (Scenario.world Scenario.prior_files)).2 !! Scenario.state_path
     = files (Scenario.world Scenario.prior_files) !! Scenario.state_path.
Proof.
  assert (H : Scenario.run (Scenario.env_running Scenario.failing_tap)
                (Scenario.world Scenario.prior_files)
              = (Raise (Exn RuntimeError
                          ("Falha ao executar tap: Tap falhou com código "
                           +:+ PyStr.str_of_int 1 +:+ ": "
                           +:+ PyStr.join PyStr.newline
                                 (diagnostic_lines Scenario.failing_tap))),
                 (Scenario.run (Scenario.env_running Scenario.failing_tap)
                    (Scenario.world Scenario.prior_files)).2))
    by (apply pair_of_fst; vm_compute; reflexivity).
  split; [exact H|].
  exact (proj2 (failed_run_keeps_every_checkpoint
                  (Scenario.env_running Scenario.failing_tap) "u1" "p1" "c1"
                  Scenario.supabase_config Scenario.connection_data
                  (Scenario.world Scenario.prior_files) _ _ H) Scenario.base).
Defined.

(** The connection data carry no type: the setup fails at step 2. *)
Lemma setup_failure_ends_the_run_witness :
  sync_setup Scenario.env "u1" "p1" "c1" Scenario.supabase_config
    Scenario.untyped_connection (Scenario.world ∅)
  = (Raise (Exn KeyError "'type'"),
     (sync_setup Scenario.env "u1" "p1" "c1" Scenario.supabase_config
        Scenario.untyped_connection (Scenario.world ∅)).2)
  /\ exists w',
       sync_connection Scenario.env "u1" "p1" "c1" Scenario.supabase_config
         Scenario.untyped_connection (Scenario.world ∅)
       = (Raise (Exn KeyError "'type'"), w')
       /\ In (ERROR, SyncError (exn_str (Exn KeyError "'type'"))) (log w')
       /\ tap_calls w' = tap_calls (Scenario.world ∅)
       /\ inserted_chunks (db_calls w')
          = inserted_chunks (db_calls (Scenario.world ∅)).
Proof.
  assert (H : sync_setup Scenario.env "u1" "p1" "c1" Scenario.supabase_config
                Scenario.untyped_connection (Scenario.world ∅)
              = (Raise (Exn KeyError "'type'"),
                 (sync_setup Scenario.env "u1" "p1" "c1" Scenario.supabase_config
                    Scenario.untyped_connection (Scenario.world ∅)).2))
    by (apply pair_of_fst; vm_compute; reflexivity).
  split; [exact H|].
  exact (setup_failure_ends_the_run Scenario.env "u1" "p1" "c1"
           Scenario.supabase_config Scenario.untyped_connection (Scenario.world ∅)
           _ _ H).
Defined.

(** The connection data carry no type. *)
Lemma connection_without_type_witness :
  dict_get "type" Scenario.untyped_connection = None
  /\ exists w',
       sync_connection Scenario.env "u1" "p1" "c1" Scenario.supabase_config
         Scenario.untyped_connection (Scenario.world Scenario.prior_files)
       = (Raise (Exn KeyError "'type'"), w')
       /\ files w' = files (Scenario.world Scenario.prior_files)
       /\ db_calls w' = db_calls (Scenario.world Scenario.prior_files)
       /\ discover_calls w' = discover_calls (Scenario.world Scenario.prior_files)
       /\ tap_calls w' = tap_calls (Scenario.world Scenario.prior_files).
Proof.
  split; [reflexivity|].
  exact (connection_without_type Scenario.env "u1" "p1" "c1"
           Scenario.supabase_config Scenario.untyped_connection
           (Scenario.world Scenario.prior_files) eq_refl).
Defined.

(** The connection data carry no configuration, and a configuration of
    an earlier run is on disk: it is emptied. *)
Lemma connection_without_config_witness :
  dict_get "type" Scenario.bare_connection = Some (JStr "woocommerce")
  /\ dict_get "config" Scenario.bare_connection = None
  /\ exists w',
       sync_connection Scenario.env "u1" "p1" "c1" Scenario.supabase_config
         Scenario.bare_connection (Scenario.world Scenario.config_files)
       = (Raise (Exn KeyError "'config'"), w')
       /\ files w'
          = <[config_path_of (base_path "u1" "p1" "woocommerce") := EmptyString]>
              (files (Scenario.world Scenario.config_files))
       /\ db_calls w' = db_calls (Scenario.world Scenario.config_files)
       /\ discover_calls w' = discover_calls (Scenario.world Scenario.config_files)
       /\ tap_calls w' = tap_calls (Scenario.world Scenario.config_files).
Proof.
  split; [reflexivity|]. split; [reflexivity|].
  exact (connection_without_config Scenario.env "u1" "p1" "c1"
           Scenario.supabase_config Scenario.bare_connection "woocommerce"
           (Scenario.world Scenario.config_files) eq_refl eq_refl
           (not_elem_of_empty _) (not_elem_of_empty _)).
Defined.

(** The configuration of the connection lacks the consumer secret. *)
Lemma invalid_config_stops_the_run_witness :
  dict_get "type" Scenario.incomplete_connection = Some (JStr "woocommerce")
  /\ dict_get "config" Scenario.incomplete_connection
     = Some (JDict Scenario.incomplete_config)
  /\ json_loads Scenario.env (json_dump Scenario.env (JDict Scenario.incomplete_config))
     = Some (JDict Scenario.incomplete_config)
  /\ In "consumer_secret" required_fields
  /\ dict_mem "consumer_secret" Scenario.incomplete_config = false
  /\ exists w',
       sync_connection Scenario.env "u1" "p1" "c1" Scenario.supabase_config
         Scenario.incomplete_connection (Scenario.world ∅)
       = (Raise (Exn ValueError
                   ("Configuração inválida: "
                    +:+ config_path_of (base_path "u1" "p1" "woocommerce"))), w')
       /\ files w'
          = <[config_path_of (base_path "u1" "p1" "woocommerce")
              := json_dump Scenario.env (JDict Scenario.incomplete_config)]>
              (files (Scenario.world ∅))
       /\ db_calls w' = db_calls (Scenario.world ∅)
       /\ discover_calls w' = discover_calls (Scenario.world ∅)
       /\ tap_calls w' = tap_calls (Scenario.world ∅).
Proof.
  assert (H1 : json_loads Scenario.env
                 (json_dump Scenario.env (JDict Scenario.incomplete_config))
               = Some (JDict Scenario.incomplete_config)) by (vm_compute; reflexivity).
  assert (H2 : In "consumer_secret" required_fields) by (simpl; tauto).
  split; [reflexivity|]. split; [reflexivity|]. split; [exact H1|].
  split; [exact H2|]. split; [reflexivity|].
  exact (invalid_config_stops_the_run Scenario.env "u1" "p1" "c1"
           Scenario.supabase_config Scenario.incomplete_connection "woocommerce"
           (JDict Scenario.incomplete_config) Scenario.incomplete_config "consumer_secret"
           (Scenario.world ∅) eq_refl eq_refl
           (not_elem_of_empty _) (not_elem_of_empty _) (not_elem_of_empty _)
           H1 H2 eq_refl).
Defined.

(** No catalog is cached and the discovery exits with code 1. *)
Lemma failed_discovery_stops_step_5_witness :
  files (Scenario.world Scenario.config_files) !! Scenario.catalog_path = None
  /\ dp_returncode Scenario.failing_discovery <> 0%Z
  /\ exists w',
       step_catalog (Scenario.with_discovery (inr Scenario.failing_discovery) Scenario.env)
         Scenario.config_path Scenario.catalog_path "c1" Scenario.supabase_config
         (Scenario.world Scenario.config_files)
       = (Raise (Exn RuntimeError "Falha ao gerar catalog.json"), w')
       /\ files w' = files (Scenario.world Scenario.config_files)
       /\ discover_calls w'
          = discover_calls (Scenario.world Scenario.config_files)
            ++ [discover_command Scenario.config_path]
       /\ db_calls w' = db_calls (Scenario.world Scenario.config_files)
       /\ tap_calls w' = tap_calls (Scenario.world Scenario.config_files).
Proof.
  assert (H1 : files (Scenario.world Scenario.config_files) !! Scenario.catalog_path
               = None) by (vm_compute; reflexivity).
  assert (H2 : dp_returncode Scenario.failing_discovery <> 0%Z) by discriminate.
  split; [exact H1|]. split; [exact H2|].
  exact (failed_discovery_stops_step_5
           (Scenario.with_discovery (inr Scenario.failing_discovery) Scenario.env)
           Scenario.config_path Scenario.catalog_path "c1" Scenario.supabase_config
           (Scenario.world Scenario.config_files) Scenario.failing_discovery
           H1 eq_refl H2).
Defined.

(** The cached catalog is not JSON. *)
Lemma unreadable_catalog_stops_step_5_witness :
  files (Scenario.world Scenario.corrupt_catalog_files) !! Scenario.catalog_path
  = Some "{not json"
  /\ json_loads Scenario.env "{not json" = None
  /\ exists w',
       step_catalog Scenario.env Scenario.config_path Scenario.catalog_path "c1"
         Scenario.supabase_config (Scenario.world Scenario.corrupt_catalog_files)
       = (Raise (Exn RuntimeError
                   ("Falha ao ler catalog.json: " +:+ Scenario.catalog_path)), w')
       /\ files w' = files (Scenario.world Scenario.corrupt_catalog_files)
       /\ discover_calls w'
          = discover_calls (Scenario.world Scenario.corrupt_catalog_files)
       /\ db_calls w' = db_calls (Scenario.world Scenario.corrupt_catalog_files).
Proof.
  assert (H1 : files (Scenario.world Scenario.corrupt_catalog_files)
                 !! Scenario.catalog_path = Some "{not json")
    by (vm_compute; reflexivity).
  assert (H2 : json_loads Scenario.env "{not json" = None)
    by (vm_compute; reflexivity).
  split; [exact H1|]. split; [exact H2|].
  exact (unreadable_catalog_stops_step_5 Scenario.env Scenario.config_path
           Scenario.catalog_path "c1" Scenario.supabase_config
           (Scenario.world Scenario.corrupt_catalog_files) _ H1 (or_intror H2)).
Defined.

(** The storage answers the update of the catalog with an error. *)
Lemma catalog_store_error_is_wrapped_twice_witness :
  files (Scenario.world Scenario.cached_files) !! Scenario.catalog_path
  = Some Scenario.catalog_text
  /\ json_loads (Scenario.with_update (UpdateError "row not found") Scenario.env)
       Scenario.catalog_text
     = Some (JDict [("streams", JList [JDict [("tap_stream_id", JStr "orders")]])])
  /\ exists w',
       step_catalog (Scenario.with_update (UpdateError "row not found") Scenario.env)
         Scenario.config_path Scenario.catalog_path "c1" Scenario.supabase_config
         (Scenario.world Scenario.cached_files)
       = (Raise (Exn RuntimeError
                   ("Falha inesperada ao salvar catalog no Supabase: "
                    +:+ "Falha ao salvar catalog no Supabase: "
                    +:+ "row not found")), w')
       /\ files w' = files (Scenario.world Scenario.cached_files)
       /\ discover_calls w' = discover_calls (Scenario.world Scenario.cached_files)
       /\ db_calls w'
          = db_calls (Scenario.world Scenario.cached_files)
            ++ [DbUpdateCatalog "c1"
                  (JDict [("streams",
                           JList [JDict [("tap_stream_id", JStr "orders")]])])].
Proof.
  assert (H1 : files (Scenario.world Scenario.cached_files) !! Scenario.catalog_path
               = Some Scenario.catalog_text) by (vm_compute; reflexivity).
  assert (H2 : json_loads (Scenario.with_update (UpdateError "row not found") Scenario.env)
                 Scenario.catalog_text
               = Some (JDict [("streams",
                               JList [JDict [("tap_stream_id", JStr "orders")]])]))
    by (vm_compute; reflexivity).
  split; [exact H1|]. split; [exact H2|].
  exact (catalog_store_error_is_wrapped_twice
           (Scenario.with_update (UpdateError "row not found") Scenario.env)
           Scenario.config_path Scenario.catalog_path "c1" Scenario.supabase_config
           (Scenario.world Scenario.cached_files) _ _ Scenario.client "row not found"
           H1 (not_elem_of_empty _) H2 eq_refl eq_refl).
Defined.

(** The state file is read-only: the run returns its summary and logs
    the error of the write. *)
Lemma state_write_failure_is_not_fatal_witness :
  Scenario.setup (Scenario.env_running Scenario.healthy_tap)
    (Scenario.world_denying Scenario.prior_files {[ Scenario.state_path ]})
  = (Ok Scenario.base,
     (Scenario.setup (Scenario.env_running Scenario.healthy_tap)
        (Scenario.world_denying Scenario.prior_files {[ Scenario.state_path ]})).2)
  /\ tp_returncode Scenario.healthy_tap = 0%Z
  /\ truthy (last_state (tap_result (Scenario.env_running Scenario.healthy_tap)
                           Scenario.healthy_tap)) = true
  /\ state_path_of Scenario.base
     ∈ deny_write (Scenario.world_denying Scenario.prior_files
                     {[ Scenario.state_path ]})
  /\ exists summary w',
       Scenario.run (Scenario.env_running Scenario.healthy_tap)
         (Scenario.world_denying Scenario.prior_files {[ Scenario.state_path ]})
       = (Ok summary, w')
       /\ In (ERROR, StateSaveError (state_path_of Scenario.base)
                       (exn_str (permission_denied (state_path_of Scenario.base))))
            (log w')
       /\ files w' !! state_path_of Scenario.base
          = files (Scenario.world_denying Scenario.prior_files
                     {[ Scenario.state_path ]}) !! state_path_of Scenario.base.
Proof.
  assert (H1 : Scenario.setup (Scenario.env_running Scenario.healthy_tap)
                 (Scenario.world_denying Scenario.prior_files
                    {[ Scenario.state_path ]})
               = (Ok Scenario.base,
                  (Scenario.setup (Scenario.env_running Scenario.healthy_tap)
                     (Scenario.world_denying Scenario.prior_files
                        {[ Scenario.state_path ]})).2))
    by (apply pair_of_fst; vm_compute; reflexivity).
  assert (H3 : truthy (last_state (tap_result
                                     (Scenario.env_running Scenario.healthy_tap)
                                     Scenario.healthy_tap)) = true)
    by (vm_compute; reflexivity).
  assert (H4 : state_path_of Scenario.base
               ∈ deny_write (Scenario.world_denying Scenario.prior_files
                               {[ Scenario.state_path ]}))
    by (change (Scenario.state_path ∈ ({[ Scenario.state_path ]} : gset string));
        apply elem_of_singleton_2; reflexivity).
  split; [exact H1|]. split; [reflexivity|]. split; [exact H3|]. split; [exact H4|].
  exact (state_write_failure_is_not_fatal
           (Scenario.env_running Scenario.healthy_tap) "u1" "p1" "c1"
           Scenario.supabase_config Scenario.connection_data
           (Scenario.world_denying Scenario.prior_files {[ Scenario.state_path ]})
           Scenario.base _ Scenario.healthy_tap H1 eq_refl eq_refl H3 H4).
Defined.

(** The discovery prints a catalog whose only stream is a name. *)
Lemma generate_catalog_rejects_malformed_streams_witness :
  dp_returncode Scenario.malformed_discovery = 0%Z
  /\ json_loads (Scenario.with_discovery (inr Scenario.malformed_discovery) Scenario.env)
       (dp_output Scenario.malformed_discovery)
     = Some (JDict [("streams", JList [JStr "orders"])])
  /\ is_dict (JStr "orders") = false
  /\ exists bad w',
       generate_catalog (Scenario.with_discovery (inr Scenario.malformed_discovery) Scenario.env)
         Scenario.config_path Scenario.catalog_path
         (Scenario.world Scenario.config_files) = (Ok false, w')
       /\ files w' = files (Scenario.world Scenario.config_files)
       /\ In bad [JStr "orders"] /\ is_dict bad = false
       /\ In (ERROR, CatalogUnexpected (exn_str (no_attribute bad "get"))) (log w').
Proof.
  assert (H : json_loads (Scenario.with_discovery (inr Scenario.malformed_discovery)
                            Scenario.env) (dp_output Scenario.malformed_discovery)
              = Some (JDict [("streams", JList [JStr "orders"])]))
    by (vm_compute; reflexivity).
  split; [reflexivity|]. split; [exact H|]. split; [reflexivity|].
  exact (generate_catalog_rejects_malformed_streams
           (Scenario.with_discovery (inr Scenario.malformed_discovery) Scenario.env)
           Scenario.config_path Scenario.catalog_path
           (Scenario.world Scenario.config_files) Scenario.malformed_discovery
           [("streams", JList [JStr "orders"])] [JStr "orders"] (JStr "orders")
           eq_refl eq_refl H eq_refl (or_introl eq_refl) eq_refl).
Defined.

(** A checkpoint of an earlier run is on disk: the extractor is spawned
    once, with the state file. *)
Lemma run_spawns_one_extractor_witness :
  Scenario.setup (Scenario.env_running Scenario.healthy_tap)
    (Scenario.world Scenario.prior_files)
  = (Ok Scenario.base,
     (Scenario.setup (Scenario.env_running Scenario.healthy_tap)
        (Scenario.world Scenario.prior_files)).2)
  /\ tap_calls (Scenario.run (Scenario.env_running Scenario.healthy_tap)
                  (Scenario.world Scenario.prior_files)).2
     = [["tap-woocommerce"; "--config"; Scenario.config_path;
         "--catalog"; Scenario.catalog_path; "--state"; Scenario.state_path]].
Proof.
  assert (H1 : Scenario.setup (Scenario.env_running Scenario.healthy_tap)
                 (Scenario.world Scenario.prior_files)
               = (Ok Scenario.base,
                  (Scenario.setup (Scenario.env_running Scenario.healthy_tap)
                     (Scenario.world Scenario.prior_files)).2))
    by (apply pair_of_fst; vm_compute; reflexivity).
  split; [exact H1|].
  rewrite (run_spawns_one_extractor (Scenario.env_running Scenario.healthy_tap)
             "u1" "p1" "c1" Scenario.supabase_config Scenario.connection_data
             (Scenario.world Scenario.prior_files) Scenario.base _ _ _ H1
             (surjective_pairing
                (Scenario.run (Scenario.env_running Scenario.healthy_tap)
                   (Scenario.world Scenario.prior_files)))).
  vm_compute. reflexivity.
Defined.
